(** * proyecto_turnos: the browser tier of the shift planner

    A shallow embedding of the two scripts that carry logic,

    - [ajax-helpers.js]: [AjaxHelper.getCookie], [AjaxHelper.getCSRFToken],
      [AjaxHelper.get], [AjaxHelper.poll] and [monitorizarEjecucion];
    - [restricciones.js]: [RestriccionesBlandas.actualizarPeso],
      [RestriccionesBlandas.sincronizarPeso], [serializarRestricciones] and
      [validarRestriccionesFormulario];

    together with the part of the host (strings, exceptions, the document
    tree, selectors, timers) those functions touch.

    Conventions.
    - A JavaScript string is a [string]; its characters are read as code
      units below 256.
    - [null] and [undefined] results are [None].
    - A call that may throw returns a [Completion].
    - A node reference is the [path] of the node from the document root. *)

From Stdlib Require Import String Ascii List Bool Arith ZArith QArith Lia.
From Stdlib Require Import DecimalString.
Import ListNotations.
Local Close Scope Q_scope.
Local Open Scope string_scope.
Local Open Scope list_scope.

Set Implicit Arguments.
Local Set Warnings "-register-all".

(* ================================================================== *)
(** * Exceptions *)
(* ================================================================== *)

Inductive JsError : Type :=
| TypeError                       (* property access on null *)
| URIError                        (* malformed escape in decodeURIComponent *)
| HttpError (status : Z)          (* new Error(`HTTP error! status: ...`) *)
| NetworkError                    (* fetch rejected, or the body is not JSON *)
| UserError (msg : string).       (* thrown by a caller-supplied function *)

Inductive Completion (A : Type) : Type :=
| Normal (a : A)
| Throw (e : JsError).
Arguments Normal {A} a.
Arguments Throw {A} e.

Definition cbind {A B} (c : Completion A) (k : A -> Completion B) : Completion B :=
  match c with
  | Normal a => k a
  | Throw e => Throw e
  end.

Notation "x <-- c ; k" := (cbind c (fun x => k))
  (at level 61, c at next level, right associativity).

(** [forEach] with a body that may throw: the first exception leaves the loop. *)
Fixpoint forEach {A B} (body : B -> A -> Completion B) (xs : list A) (acc : B)
  : Completion B :=
  match xs with
  | [] => Normal acc
  | x :: xs' => acc' <-- body acc x ; forEach body xs' acc'
  end.

(* ================================================================== *)
(** * Strings *)
(* ================================================================== *)

Module Str.

(** WhiteSpace and LineTerminator code units below 256: TAB, LF, VT, FF,
    CR, SP and NBSP. *)
Definition is_space (c : ascii) : bool :=
  match nat_of_ascii c with
  | 9 | 10 | 11 | 12 | 13 | 32 | 160 => true
  | _ => false
  end.

Fixpoint trimStart (s : string) : string :=
  match s with
  | EmptyString => EmptyString
  | String c s' => if is_space c then trimStart s' else s
  end.

Fixpoint trimEnd (s : string) : string :=
  match s with
  | EmptyString => EmptyString
  | String c s' =>
      match trimEnd s' with
      | EmptyString => if is_space c then EmptyString else String c EmptyString
      | t => String c t
      end
  end.

(** [s.trim()] *)
Definition trim (s : string) : string := trimEnd (trimStart s).

(** [s.split(sep)] for a one-character separator; never empty. *)
Fixpoint split (sep : ascii) (s : string) : list string :=
  match s with
  | EmptyString => [EmptyString]
  | String c s' =>
      if Ascii.eqb c sep then EmptyString :: split sep s'
      else match split sep s' with
           | seg :: rest => String c seg :: rest
           | [] => [String c EmptyString]
           end
  end.

Fixpoint take (n : nat) (s : string) : string :=
  match n, s with
  | S n', String c s' => String c (take n' s')
  | _, _ => EmptyString
  end.

Fixpoint drop (n : nat) (s : string) : string :=
  match n, s with
  | S n', String _ s' => drop n' s'
  | _, _ => s
  end.

(** [s.substring(a, b)]: the arguments are swapped when [a > b] and clamped
    to the length. *)
Definition substring (s : string) (a b : nat) : string :=
  take (Nat.max a b - Nat.min a b) (drop (Nat.min a b) s).

(** [s.substring(a)] *)
Definition substring_from (s : string) (a : nat) : string := drop a s.

(** [xs.pop()] on a freshly built array: the last element, if any. *)
Definition pop (xs : list string) : option string :=
  match rev xs with
  | [] => None
  | x :: _ => Some x
  end.

(** Does [s] contain the character [c]? *)
Fixpoint mem (c : ascii) (s : string) : bool :=
  match s with
  | EmptyString => false
  | String d s' => Ascii.eqb c d || mem c s'
  end.

End Str.

(* ================================================================== *)
(** * Cookies: [AjaxHelper.getCookie] *)
(* ================================================================== *)

Section Cookies.

(** The host's [decodeURIComponent]; it throws [URIError] on a malformed
    escape sequence. *)
Variable decodeURIComponent : string -> Completion string.

(** The test of the loop body:
    [cookie.substring(0, name.length + 1) === (name + '=')]. *)
Definition cookie_matches (name cookie : string) : bool :=
  (Str.substring cookie 0 (String.length name + 1) =? name ++ "=")%string.

(** The [for] loop over [cookies], leaving at the first match ([break]). *)
Fixpoint getCookie_loop (name : string) (cookies : list string)
  : Completion (option string) :=
  match cookies with
  | [] => Normal None
  | c :: rest =>
      let cookie := Str.trim c in
      if cookie_matches name cookie then
        v <-- decodeURIComponent
                (Str.substring_from cookie (String.length name + 1)) ;
        Normal (Some v)
      else getCookie_loop name rest
  end.

(** [getCookie(name)] reading [document.cookie]. *)
Definition getCookie (document_cookie name : string)
  : Completion (option string) :=
  if negb (document_cookie =? "")%string then
    getCookie_loop name (Str.split ";" document_cookie)
  else Normal None.

(** The reading of the documentation: the entries of the cookie string,
    trimmed, and among them the first that starts with [name=]. *)
Definition cookie_entries (document_cookie : string) : list string :=
  map Str.trim (Str.split ";" document_cookie).

Definition first_cookie (document_cookie name : string) : option string :=
  find (fun e => String.prefix (name ++ "=") e) (cookie_entries document_cookie).

End Cookies.

(* ================================================================== *)
(** * The document tree *)
(* ================================================================== *)

Module Dom.

(** An element: its tag, its attributes as written in the markup, the two
    live properties of a form control ([value], [checked]) and its element
    children. Text nodes play no part in the scripts and are left out. *)
Inductive Element : Type :=
| El (tagName : string) (attributes : list (string * string))
     (value : string) (checked : bool) (children : list Element).

Definition tagName (e : Element) : string :=
  match e with El t _ _ _ _ => t end.
Definition attributes (e : Element) : list (string * string) :=
  match e with El _ a _ _ _ => a end.
Definition value (e : Element) : string :=
  match e with El _ _ v _ _ => v end.
Definition checked (e : Element) : bool :=
  match e with El _ _ _ c _ => c end.
Definition children (e : Element) : list Element :=
  match e with El _ _ _ _ cs => cs end.

(** [e.getAttribute(a)]: the first attribute of that name. *)
Fixpoint lookup (a : string) (kvs : list (string * string)) : option string :=
  match kvs with
  | [] => None
  | (k, v) :: rest => if (k =? a)%string then Some v else lookup a rest
  end.

Definition getAttribute (a : string) (e : Element) : option string :=
  lookup a (attributes e).

(** Reflected properties: [e.name], [meta.content], [e.dataset.index]. *)
Definition name (e : Element) : string :=
  match getAttribute "name" e with Some v => v | None => "" end.
Definition content (e : Element) : string :=
  match getAttribute "content" e with Some v => v | None => "" end.
Definition dataset_index (e : Element) : option string :=
  getAttribute "data-index" e.

(** [input.type]: the [type] attribute of an [input], [text] when it has
    none; no other element reports [number]. *)
Definition type (e : Element) : string :=
  if (tagName e =? "input")%string then
    match getAttribute "type" e with Some t => t | None => "text" end
  else "".

(** The tokens of a [class] attribute. *)
Fixpoint words_aux (cur : string) (s : string) : list string :=
  match s with
  | EmptyString => if (cur =? "")%string then [] else [cur]
  | String c s' =>
      if Str.is_space c
      then (if (cur =? "")%string then words_aux "" s'
            else cur :: words_aux "" s')
      else words_aux (cur ++ String c EmptyString) s'
  end.

Definition classList (e : Element) : list string :=
  match getAttribute "class" e with
  | Some v => words_aux "" v
  | None => []
  end.

(** ** Selectors

    The scripts use compound selectors only: a conjunction of a tag name,
    class names and attribute tests. Names and values are compared as
    written (the markup of the templates is lower case). *)
Inductive Simple : Type :=
| Tag (t : string)                    (* input *)
| Class (c : string)                  (* .restriccion-dura *)
| AttrEq (a v : string)               (* [name="x"], [name=x] *)
| AttrPrefix (a v : string).          (* [name^="x"] *)

Definition Selector : Type := list Simple.

Definition matches_simple (s : Simple) (e : Element) : bool :=
  match s with
  | Tag t => (tagName e =? t)%string
  | Class c => existsb (String.eqb c) (classList e)
  | AttrEq a v =>
      match getAttribute a e with
      | Some x => (x =? v)%string
      | None => false
      end
  | AttrPrefix a v =>
      match getAttribute a e with
      | Some x => negb (v =? "")%string && String.prefix v x
      | None => false
      end
  end.

Definition matches (sel : Selector) (e : Element) : bool :=
  forallb (fun s => matches_simple s e) sel.

(** ** Node references and tree order *)

Definition path : Type := list nat.

(** The descendants of [e] in tree order (preorder, depth first), each
    with its path from [e]. *)
Fixpoint descendants (e : Element) : list (path * Element) :=
  match e with
  | El _ _ _ _ cs =>
      (fix go (i : nat) (cs : list Element) : list (path * Element) :=
         match cs with
         | [] => []
         | c :: cs' =>
             ([i], c)
               :: map (fun pe => (i :: fst pe, snd pe)) (descendants c)
               ++ go (S i) cs'
         end) 0 cs
  end.

(** The same walk along a list of siblings, the first of which is child
    number [i]. *)
Fixpoint siblings (i : nat) (cs : list Element) : list (path * Element) :=
  match cs with
  | [] => []
  | c :: cs' =>
      ([i], c)
        :: map (fun pe => (i :: fst pe, snd pe)) (descendants c)
        ++ siblings (S i) cs'
  end.

(** What a selector can see of an element. *)
Definition shallow (e : Element) : string * list (string * string) :=
  (tagName e, attributes e).

Definition sh (pe : path * Element) : path * (string * list (string * string)) :=
  (fst pe, shallow (snd pe)).

(** [e] followed by its descendants. *)
Definition inclusive (e : Element) : list (path * Element) :=
  ([], e) :: descendants e.

(** The node at a path. *)
Fixpoint get (p : path) (e : Element) : option Element :=
  match p with
  | [] => Some e
  | i :: p' =>
      match nth_error (children e) i with
      | Some c => get p' c
      | None => None
      end
  end.

Fixpoint update_nth {A} (i : nat) (f : A -> A) (l : list A) : list A :=
  match i, l with
  | _, [] => []
  | O, x :: l' => f x :: l'
  | S i', x :: l' => x :: update_nth i' f l'
  end.

(** The node at [p] stores the text [v] as given: [node.value = v] for a
    control that keeps what it is given (a hidden field, a select whose
    options hold [v]). A slider and a number field do not; they are
    assigned through [RestriccionesBlandas.assign_control]. A path that
    leads nowhere changes nothing. *)
Fixpoint set_value (p : path) (v : string) (e : Element) : Element :=
  match p, e with
  | [], El t a _ c cs => El t a v c cs
  | i :: p', El t a x c cs => El t a x c (update_nth i (set_value p' v) cs)
  end.

(** ** Queries *)

(** [card.querySelectorAll(sel)]: the matching descendants of an element,
    in tree order. *)
Definition querySelectorAll (sel : Selector) (e : Element) : list Element :=
  map snd (filter (fun pe => matches sel (snd pe)) (descendants e)).

(** [card.querySelector(sel)]: the first of them, or [null]. *)
Definition querySelector (sel : Selector) (e : Element) : option Element :=
  hd_error (querySelectorAll sel e).

(** [document.querySelectorAll(sel)] and [document.querySelector(sel)] as
    node references; the root element is a candidate too. *)
Definition document_querySelectorAll (sel : Selector) (root : Element)
  : list (path * Element) :=
  filter (fun pe => matches sel (snd pe)) (inclusive root).

Definition document_querySelector (sel : Selector) (root : Element)
  : option path :=
  hd_error (map fst (document_querySelectorAll sel root)).

(** [document.getElementById(id)] *)
Definition getElementById (id : string) (root : Element) : option path :=
  document_querySelector [AttrEq "id" id] root.

(** The value of the node a reference points to. *)
Definition value_at (p : path) (root : Element) : option string :=
  option_map value (get p root).

End Dom.

(* ================================================================== *)
(** * Values and numbers *)
(* ================================================================== *)

(** A number: [NaN], an infinity, or a finite value. A finite value is kept
    as the exact rational a literal denotes; the rounding to a double and
    the sign of zero are not represented. *)
Inductive JsNum : Type :=
| NaN
| Infinity (negative : bool)
| Num (q : Q).

(** A value as [JSON.parse] yields it and [JSON.stringify] takes it. An
    object lists its properties in insertion order. *)
Inductive JsVal : Type :=
| VNull
| VBool (b : bool)
| VNum (n : JsNum)
| VStr (s : string)
| VArr (items : list JsVal)
| VObj (props : list (string * JsVal)).

Module Obj.

(** [o[k] = v]: an existing property keeps its place. *)
Fixpoint set (k : string) (v : JsVal) (o : list (string * JsVal))
  : list (string * JsVal) :=
  match o with
  | [] => [(k, v)]
  | (k', v') :: rest =>
      if (k' =? k)%string then (k, v) :: rest else (k', v') :: set k v rest
  end.

(** [o[k]], [None] for [undefined]. *)
Fixpoint get (k : string) (o : list (string * JsVal)) : option JsVal :=
  match o with
  | [] => None
  | (k', v') :: rest => if (k' =? k)%string then Some v' else get k rest
  end.

End Obj.

Module Number.

Definition digit (c : ascii) : option Z :=
  let n := nat_of_ascii c in
  if (48 <=? n)%nat && (n <=? 57)%nat then Some (Z.of_nat (n - 48)) else None.

(** The longest run of decimal digits at the head of [s]: the value read
    so far, how many digits were read, and what follows them. *)
Fixpoint digits (acc : Z) (count : nat) (s : string) : Z * nat * string :=
  match s with
  | EmptyString => (acc, count, s)
  | String c s' =>
      match digit c with
      | Some d => digits (10 * acc + d) (S count) s'
      | None => (acc, count, s)
      end
  end.

Definition sign (s : string) : bool * string :=
  match s with
  | String "-" s' => (true, s')
  | String "+" s' => (false, s')
  | _ => (false, s)
  end.

(** An exponent part, [e] or [E], an optional sign and at least one digit;
    anything else is not part of the number. *)
Definition exponent (s : string) : Z :=
  match s with
  | String c s' =>
      if Ascii.eqb c "e" || Ascii.eqb c "E" then
        let (neg, s'') := sign s' in
        let '(v, n, _) := digits 0 0 s'' in
        if (n =? 0)%nat then 0%Z else if neg then (- v)%Z else v
      else 0%Z
  | EmptyString => 0%Z
  end.

(** [parseFloat(s)]: leading white space is skipped, the longest prefix
    that is a decimal literal is read, and [NaN] is returned when there is
    none. *)
Definition parseFloat (s : string) : JsNum :=
  let (neg, s1) := sign (Str.trimStart s) in
  if String.prefix "Infinity" s1 then Infinity neg
  else
    let '(ip, ni, s2) := digits 0 0 s1 in
    let '(m, nf, s3) :=
      match s2 with
      | String "." s' => digits ip 0 s'
      | _ => (ip, 0%nat, s2)
      end in
    if (ni + nf =? 0)%nat then NaN
    else
      let e := (exponent s3 - Z.of_nat nf)%Z in
      Num (Qred (inject_Z (if neg then - m else m) * Qpower (inject_Z 10) e)).

(** [0 <= n <= 10] *)
Definition in_0_10 (n : JsNum) : Prop :=
  match n with
  | Num q => (0 <= q /\ q <= 10)%Q
  | _ => False
  end.

End Number.

(* ================================================================== *)
(** * The constraint form: [restricciones.js] *)
(* ================================================================== *)

(** An entry of the [duras] array. *)
Module Dura.
Record t : Type := mk
  { nombre : string;
    activa : bool;
    parametros : list (string * JsVal) }.
End Dura.

(** An entry of the [blandas] array. *)
Module Blanda.
Record t : Type := mk
  { nombre : string;
    activa : bool;
    peso : JsNum;
    parametros : list (string * JsVal) }.
End Blanda.

(** What [serializarRestricciones] returns. *)
Record Restricciones : Type := mkRestricciones
  { duras : list Dura.t;
    blandas : list Blanda.t }.

Module Sel.
Import Dom.
Definition restriccion_dura : Selector := [Class "restriccion-dura"].
Definition restriccion_blanda : Selector := [Class "restriccion-blanda"].
Definition restriccion_tipo_select : Selector := [Class "restriccion-tipo-select"].
Definition restriccion_blanda_tipo_select : Selector :=
  [Class "restriccion-blanda-tipo-select"].
Definition restriccion_blanda_peso : Selector := [Class "restriccion-blanda-peso"].
Definition checkbox : Selector := [Tag "input"; AttrEq "type" "checkbox"].
Definition restriccion_dura_param : Selector :=
  [AttrPrefix "name" "restriccion_dura_param_"].
(** [`.restriccion-blanda-peso[data-index="${index}"]`] and its sibling
    for the slider. *)
Definition peso_de (index : nat) : Selector :=
  [Class "restriccion-blanda-peso";
   AttrEq "data-index" (NilZero.string_of_uint (Nat.to_uint index))].
Definition peso_range_de (index : nat) : Selector :=
  [Class "restriccion-blanda-peso-range";
   AttrEq "data-index" (NilZero.string_of_uint (Nat.to_uint index))].
Definition csrf_field : Selector := [AttrEq "name" "csrfmiddlewaretoken"].
Definition csrf_meta : Selector := [Tag "meta"; AttrEq "name" "csrf-token"].
End Sel.

Section Serializacion.
Import Dom.

(** [activaCheck.checked], [pesoInput.value]: reading a property of [null]
    throws. *)
Definition prop {A} (f : Element -> A) (e : option Element) : Completion A :=
  match e with
  | Some x => Normal (f x)
  | None => Throw TypeError
  end.

(** [input.name.split('_').pop()] *)
Definition paramName (input : Element) : string :=
  match Str.pop (Str.split "_" (name input)) with
  | Some k => k
  | None => "undefined"
  end.

(** The inner [forEach] over the parameter inputs of a card. *)
Definition recoger_parametros (card : Element) : list (string * JsVal) :=
  fold_left
    (fun parametros input =>
       Obj.set (paramName input)
         (if (type input =? "number")%string
          then VNum (Number.parseFloat (value input))
          else VStr (value input))
         parametros)
    (querySelectorAll Sel.restriccion_dura_param card) [].

(** The body of the first [forEach]; [return] skips the card. *)
Definition dura_body (duras : list Dura.t) (card : Element)
  : Completion (list Dura.t) :=
  let tipoSelect := querySelector Sel.restriccion_tipo_select card in
  let activaCheck := querySelector Sel.checkbox card in
  match tipoSelect with
  | None => Normal duras
  | Some tipoSelect =>
      if (value tipoSelect =? "")%string then Normal duras
      else
        activa <-- prop checked activaCheck ;
        Normal (duras ++ [Dura.mk (value tipoSelect) activa
                                  (recoger_parametros card)])
  end.

(** The body of the second [forEach]. *)
Definition blanda_body (blandas : list Blanda.t) (card : Element)
  : Completion (list Blanda.t) :=
  let tipoSelect := querySelector Sel.restriccion_blanda_tipo_select card in
  let pesoInput := querySelector Sel.restriccion_blanda_peso card in
  let activaCheck := querySelector Sel.checkbox card in
  match tipoSelect with
  | None => Normal blandas
  | Some tipoSelect =>
      if (value tipoSelect =? "")%string then Normal blandas
      else
        activa <-- prop checked activaCheck ;
        peso <-- prop value pesoInput ;
        Normal (blandas ++ [Blanda.mk (value tipoSelect) activa
                                      (Number.parseFloat peso) []])
  end.

Definition cards (sel : Selector) (document : Element) : list Element :=
  map snd (document_querySelectorAll sel document).

(** [serializarRestricciones()] *)
Definition serializarRestricciones (document : Element)
  : Completion Restricciones :=
  duras <-- forEach dura_body (cards Sel.restriccion_dura document) [] ;
  blandas <-- forEach blanda_body (cards Sel.restriccion_blanda document) [] ;
  Normal (mkRestricciones duras blandas).

(** ** What an entry says about its card *)

(** The type a card declares: the value of its type select, when there is
    one and it is not the placeholder. *)
Definition tipo_de (sel : Selector) (card : Element) : option string :=
  match querySelector sel card with
  | Some s => if (value s =? "")%string then None else Some (value s)
  | None => None
  end.

Definition con_tipo (sel : Selector) (card : Element) : bool :=
  match tipo_de sel card with Some _ => true | None => false end.

(** The declared types of a list of cards, in order. *)
Definition tipos (sel : Selector) (cards : list Element) : list string :=
  flat_map (fun card => match tipo_de sel card with
                        | Some n => [n]
                        | None => []
                        end) cards.

Definition dura_de (card : Element) (r : Dura.t) : Prop :=
  tipo_de Sel.restriccion_tipo_select card = Some (Dura.nombre r)
  /\ (exists chk, querySelector Sel.checkbox card = Some chk
                  /\ Dura.activa r = checked chk)
  /\ Dura.parametros r = recoger_parametros card.

Definition blanda_de (card : Element) (b : Blanda.t) : Prop :=
  tipo_de Sel.restriccion_blanda_tipo_select card = Some (Blanda.nombre b)
  /\ (exists chk, querySelector Sel.checkbox card = Some chk
                  /\ Blanda.activa b = checked chk)
  /\ (exists pesoInput,
        querySelector Sel.restriccion_blanda_peso card = Some pesoInput
        /\ Blanda.peso b = Number.parseFloat (value pesoInput))
  /\ Blanda.parametros b = [].

(** The value a parameter field contributes. *)
Definition valor_de (input : Element) : JsVal :=
  if (type input =? "number")%string
  then VNum (Number.parseFloat (value input))
  else VStr (value input).

End Serializacion.

(** The page a script runs in: the document, [document.cookie] and the
    messages shown with [alert]. *)
Record Page : Type := mkPage
  { document : Dom.Element;
    cookie : string;
    alerts : list string }.

Definition with_document (d : Dom.Element) (pg : Page) : Page :=
  mkPage d (cookie pg) (alerts pg).

Definition alert (msg : string) (pg : Page) : Page :=
  mkPage (document pg) (cookie pg) (alerts pg ++ [msg]).

Definition dura_to_js (d : Dura.t) : JsVal :=
  VObj [("nombre", VStr (Dura.nombre d));
        ("activa", VBool (Dura.activa d));
        ("parametros", VObj (Dura.parametros d))].

Definition blanda_to_js (b : Blanda.t) : JsVal :=
  VObj [("nombre", VStr (Blanda.nombre b));
        ("activa", VBool (Blanda.activa b));
        ("peso", VNum (Blanda.peso b));
        ("parametros", VObj (Blanda.parametros b))].

(** [node.value = v] when the lookup found a node ([if (node) ...]). *)
Definition assign_value (node : option Dom.path) (v : string)
           (d : Dom.Element) : Dom.Element :=
  match node with
  | Some p => Dom.set_value p v d
  | None => d
  end.

Section Validacion.

(** The host's [JSON.stringify]. *)
Variable JSON_stringify : JsVal -> string.

(** [validarRestriccionesFormulario()] *)
Definition validarRestriccionesFormulario (pg : Page)
  : Completion (bool * Page) :=
  r <-- serializarRestricciones (document pg) ;
  if (List.length (duras r) =? 0)%nat then
    Normal (false, alert "Debes añadir al menos una restricción dura" pg)
  else
    let durasInput :=
      Dom.getElementById "restricciones_duras_json" (document pg) in
    let blandasInput :=
      Dom.getElementById "restricciones_blandas_json" (document pg) in
    let d1 := assign_value durasInput
                (JSON_stringify (VArr (map dura_to_js (duras r))))
                (document pg) in
    let d2 := assign_value blandasInput
                (JSON_stringify (VArr (map blanda_to_js (blandas r)))) d1 in
    Normal (true, with_document d2 pg).

End Validacion.

(** ** [RestriccionesBlandas]: the two weight controls *)

Module RestriccionesBlandas.

Section Controles.

(** The host's value sanitization: the text a control stores when it is
    given [v]. It depends on the control (its type, [min], [max], [step])
    and on nothing else. *)
Variable sanitize : Dom.Element -> string -> string.

(** [node.value = v] when the lookup found a node ([if (node) ...]): the
    node stores what the host makes of [v] for it. *)
Definition assign_control (node : option Dom.path) (v : string)
           (d : Dom.Element) : Dom.Element :=
  match node with
  | Some p =>
      match Dom.get p d with
      | Some x => Dom.set_value p (sanitize x v) d
      | None => d
      end
  | None => d
  end.

(** [actualizarPeso(index, valor)], the [oninput] handler of the slider. *)
Definition actualizarPeso (index : nat) (valor : string) (d : Dom.Element)
  : Dom.Element :=
  let pesoInput := Dom.document_querySelector (Sel.peso_de index) d in
  assign_control pesoInput valor d.

(** [sincronizarPeso(index, valor)], the [onchange] handler of the number
    field. *)
Definition sincronizarPeso (index : nat) (valor : string) (d : Dom.Element)
  : Dom.Element :=
  let pesoRange := Dom.document_querySelector (Sel.peso_range_de index) d in
  assign_control pesoRange valor d.

End Controles.

End RestriccionesBlandas.

(* ================================================================== *)
(** * The request helpers: [ajax-helpers.js] *)
(* ================================================================== *)

Section CSRF.

Variable decodeURIComponent : string -> Completion string.

(** [a || b] on strings that may be missing: [a] when it is a non-empty
    string, otherwise [b], which is evaluated only then. *)
Definition or_else (a : option string) (b : Completion (option string))
  : Completion (option string) :=
  match a with
  | Some s => if (s =? "")%string then b else Normal (Some s)
  | None => b
  end.

Definition document_find (sel : Dom.Selector) (d : Dom.Element)
  : option Dom.Element :=
  hd_error (map snd (Dom.document_querySelectorAll sel d)).

(** A source that [||] passes over: missing, or the empty string. *)
Definition falsy (a : option string) : Prop := a = None \/ a = Some "".

(** [getCSRFToken()] *)
Definition getCSRFToken (pg : Page) : Completion (option string) :=
  or_else (option_map Dom.value (document_find Sel.csrf_field (document pg)))
    (or_else (option_map Dom.content
                         (document_find Sel.csrf_meta (document pg)))
       (getCookie decodeURIComponent (cookie pg) "csrftoken")).

End CSRF.

(** ** Polling: [AjaxHelper.poll]

    [poll] arms an interval timer whose handler is an [async] function. A
    handler runs in two pieces: from its start to the [await] inside
    [AjaxHelper.get], where the request is sent, and from the moment the
    request settles to its end. The timer fires again after [interval]
    milliseconds whether or not the earlier request has settled, so the
    pieces of several handlers may interleave. The host decides the order;
    here it is a list of events. *)

Module Poll.

(** What the network makes of a request: the parsed body, or a failure
    (transport error, a status outside 2xx, a body that is not JSON). *)
Inductive Response : Type :=
| Resolved (data : JsVal)
| Rejected (e : JsError).

(** What a run leaves behind, in order. *)
Inductive Effect : Type :=
| Fetch (fullUrl : string)              (* a GET request is sent *)
| Invoke (data : JsVal) (n : Z)         (* callback(data, attempts) *)
| ErrorGET (e : JsError)                (* console.error('Error en petición GET:', e) *)
| ErrorPolling (e : JsError)            (* console.error('Error en polling:', e) *)
| ClearInterval.                        (* clearInterval(pollInterval) *)

Inductive Event : Type :=
| Tick                                  (* the timer fires *)
| Settle (r : Response).                (* a request in flight settles *)

Section WithCallback.

(** The state of the caller that the callback reads and writes. *)
Variable U : Type.

(** The arguments of [poll]. The callback receives the data and the
    attempt counter; of its result only the truthiness is used. *)
Record Args : Type := mkArgs
  { url : string;
    callback : JsVal -> Z -> U -> Completion bool * U;
    interval : Z;
    maxAttempts : Z }.

(** [poll(url, callback, interval = 5000, maxAttempts = 60)] *)
Definition poll_args (url : string)
           (callback : JsVal -> Z -> U -> Completion bool * U)
           (interval maxAttempts : option Z) : Args :=
  mkArgs url callback
         (match interval with Some i => i | None => 5000%Z end)
         (match maxAttempts with Some m => m | None => 60%Z end).

Record State : Type := mkState
  { attempts : Z;                     (* let attempts *)
    active : bool;                    (* is the interval timer armed? *)
    in_flight : nat;                  (* requests sent and not settled *)
    trace : list Effect;
    user : U }.

(** The state right after [poll] returned. *)
Definition start (u : U) : State := mkState 0 true 0 [] u.

(** Handler code: it changes the state and returns or throws. *)
Definition M (A : Type) : Type := State -> Completion A * State.

Definition ret {A} (a : A) : M A := fun s => (Normal a, s).
Definition throw {A} (e : JsError) : M A := fun s => (Throw e, s).
Definition bind {A B} (m : M A) (k : A -> M B) : M B :=
  fun s => match m s with
           | (Normal a, s') => k a s'
           | (Throw e, s') => (Throw e, s')
           end.
(** [try { body } catch (error) { handler }] *)
Definition try_catch {A} (body : M A) (handler : JsError -> M A) : M A :=
  fun s => match body s with
           | (Normal a, s') => (Normal a, s')
           | (Throw e, s') => handler e s'
           end.

Definition emit (x : Effect) : M unit :=
  fun s => (Normal tt,
            mkState (attempts s) (active s) (in_flight s)
                    (trace s ++ [x]) (user s)).

Definition clearInterval : M unit :=
  fun s => (Normal tt,
            mkState (attempts s) false (in_flight s)
                    (trace s ++ [ClearInterval]) (user s)).

Definition read_attempts : M Z := fun s => (Normal (attempts s), s).

Definition increment_attempts : M unit :=
  fun s => (Normal tt,
            mkState (attempts s + 1) (active s) (in_flight s)
                    (trace s) (user s)).

Definition call (cb : JsVal -> Z -> U -> Completion bool * U)
           (data : JsVal) (n : Z) : M bool :=
  fun s => let (r, u) := cb data n (user s) in
           (r, mkState (attempts s) (active s) (in_flight s)
                       (trace s ++ [Invoke data n]) u).

(** [AjaxHelper.get(url)] up to its [await fetch(...)]: with the default
    [params = {}] the query string is empty and the address is [url?]. *)
Definition get_send (url : string) : M unit :=
  fun s => (Normal tt,
            mkState (attempts s) (active s) (S (in_flight s))
                    (trace s ++ [Fetch (url ++ "?")]) (user s)).

(** [AjaxHelper.get] from the settled request on: the data, or the
    failure, logged and thrown again. *)
Definition get_settled (r : Response) : M JsVal :=
  match r with
  | Resolved data => ret data
  | Rejected error => bind (emit (ErrorGET error)) (fun _ => throw error)
  end.

Variable a : Args.

(** The handler from its start to the [await]. *)
Definition before_await : M unit :=
  bind increment_attempts (fun _ => get_send (url a)).

(** The handler from the [await] to its end. *)
Definition after_await (r : Response) : M unit :=
  try_catch
    (bind (get_settled r) (fun data =>
     bind read_attempts (fun n =>
     bind (call (callback a) data n) (fun shouldContinue =>
     bind read_attempts (fun n' =>
     if negb shouldContinue || (maxAttempts a <=? n')%Z
     then clearInterval
     else ret tt)))))
    (fun error =>
       bind (emit (ErrorPolling error)) (fun _ => clearInterval)).

(** One event. The timer fires only while it is armed, and a request
    settles only if one is in flight. *)
Definition step (ev : Event) (s : State) : option State :=
  match ev with
  | Tick =>
      if active s then Some (snd (before_await s)) else None
  | Settle r =>
      match in_flight s with
      | O => None
      | S n =>
          Some (snd (after_await r
                       (mkState (attempts s) (active s) n
                                (trace s) (user s))))
      end
  end.

Fixpoint run (evs : list Event) (s : State) : option State :=
  match evs with
  | [] => Some s
  | ev :: evs' =>
      match step ev s with
      | Some s' => run evs' s'
      | None => None
      end
  end.

(** The requests sent so far. *)
Definition requests (s : State) : list string :=
  flat_map (fun x => match x with Fetch u => [u] | _ => [] end) (trace s).

(** The responses an event list delivers, in order. *)
Definition settled (evs : list Event) : list Response :=
  flat_map (fun ev => match ev with Settle r => [r] | Tick => [] end) evs.

(** The schedule in which every request settles before the timer fires
    again: one tick and one settlement per response. *)
Definition rounds (rs : list Response) : list Event :=
  flat_map (fun r => [Tick; Settle r]) rs.

End WithCallback.

End Poll.

(** ** [monitorizarEjecucion] *)

Module Monitor.
Import Poll.

(** The calls made to the two functions the caller passes in. *)
Inductive Call : Type :=
| OnUpdate (data : JsVal)
| OnComplete (data : JsVal).

(** [data.estado]: reading a property of [null] throws; a value that is
    not an object has no such property. *)
Definition estado (data : JsVal) : Completion (option JsVal) :=
  match data with
  | VNull => Throw TypeError
  | VObj props => Normal (Obj.get "estado" props)
  | _ => Normal None
  end.

(** [x === 'literal'] *)
Definition is_string (lit : string) (x : option JsVal) : bool :=
  match x with
  | Some (VStr s) => (s =? lit)%string
  | _ => false
  end.

(** The arrow function handed to [poll]; [onUpdate] and [onComplete]
    record their call and return. *)
Definition callback (data : JsVal) (attempts : Z) (log : list Call)
  : Completion bool * list Call :=
  let log1 := log ++ [OnUpdate data] in
  match estado data with
  | Throw e => (Throw e, log1)
  | Normal est =>
      if is_string "COMPLETADA" est || is_string "ERROR" est
      then (Normal false, log1 ++ [OnComplete data])
      else (Normal true, log1)
  end.

(** [monitorizarEjecucion(ejecucionId, onUpdate, onComplete)] *)
Definition monitorizarEjecucion (ejecucionId : string) : Args (list Call) :=
  poll_args ("/turnos/ajax/ejecucion/" ++ ejecucionId ++ "/estado/")%string
            callback (Some 5000%Z) (Some 120%Z).

Definition respuesta (e : string) : JsVal := VObj [("estado", VStr e)].

(** A terminal state: [estado] is [COMPLETADA] or [ERROR]. *)
Definition terminal (data : JsVal) : bool :=
  match estado data with
  | Normal est => is_string "COMPLETADA" est || is_string "ERROR" est
  | Throw _ => false
  end.

(** A response that ends the polling: a terminal state or a failure. *)
Definition ends (r : Response) : Prop :=
  match r with
  | Resolved data => terminal data = true
  | Rejected _ => True
  end.

(** The calls one settled request causes. *)
Definition calls (r : Response) : list Call :=
  match r with
  | Resolved data =>
      OnUpdate data :: (if terminal data then [OnComplete data] else [])
  | Rejected _ => []
  end.

End Monitor.

(* ================================================================== *)
(** * The markup the scripts generate *)
(* ================================================================== *)

Module Markup.
Import Dom.

Definition node (tag : string) (attrs : list (string * string))
           (kids : list Element) : Element :=
  El tag attrs "" false kids.

Definition control (tag : string) (attrs : list (string * string))
           (v : string) (c : bool) : Element :=
  El tag attrs v c [].

Definition dec (n : nat) : string := NilZero.string_of_uint (Nat.to_uint n).

(** The keys of [restriccionesDurasDefiniciones]. *)
Definition claves_duras : list string :=
  ["cobertura_minima"; "cobertura_maxima"; "un_turno_por_dia";
   "descanso_minimo"; "horas_semanales_max"; "horas_semanales_min";
   "turnos_consecutivos_max"; "incompatibilidades"; "disponibilidad_parcial";
   "dias_libres_obligatorios"; "dias_libres_minimos_semana";
   "turnos_nocturnos_consecutivos_max"; "fines_semana_max"].

(** The keys of [restriccionesBlandasDefiniciones]. *)
Definition claves_blandas : list string :=
  ["preferencias_turno"; "preferencias_dias_libres";
   "distribucion_equitativa_noches"; "minimizar_cambios_turno";
   "evitar_turnos_aislados"; "cumplir_demanda_optima"; "balanceo_carga_total"].

Definition options (keys : list string) : list Element :=
  control "option" [("value", "")] "" false
    :: map (fun k => control "option" [("value", k)] k false) keys.

(** One parameter field as [RestriccionesDuras.actualizarParametros]
    writes it, holding [v]. *)
Definition parametro (index : nat) (key tipo v : string) : Element :=
  node "div" [("class", "col-md-6 mb-3")]
    [ node "label" [("class", "form-label fw-bold")] [];
      control "input"
        [("type", tipo); ("class", "form-control");
         ("name", "restriccion_dura_param_" ++ dec index ++ "_" ++ key)%string]
        v false ].

(** The card [RestriccionesDuras.agregarRestriccion] inserts, with the
    type [tipo] selected ([""] for the placeholder), the switch in state
    [activa] and the given parameter fields. *)
Definition card_dura (index : nat) (tipo : string) (activa : bool)
           (params : list Element) : Element :=
  node "div"
    [("class", "card mb-3 restriccion-dura restriccion-card");
     ("data-index", dec index)]
    [ node "div" [("class", "card-header d-flex justify-content-between align-items-center bg-danger bg-opacity-10")]
        [ node "h6" [("class", "mb-0")] [];
          node "button" [("type", "button"); ("class", "btn btn-sm btn-danger")] [] ];
      node "div" [("class", "card-body")]
        [ node "div" [("class", "row")]
            [ node "div" [("class", "col-md-8")]
                [ node "div" [("class", "mb-3")]
                    [ node "label" [("class", "form-label fw-bold")] [];
                      El "select"
                         [("class", "form-select restriccion-tipo-select");
                          ("data-index", dec index); ("required", "")]
                         tipo false (options claves_duras);
                      node "small" [("class", "form-text text-muted restriccion-descripcion")] [] ] ];
              node "div" [("class", "col-md-4")]
                [ node "div" [("class", "mb-3")]
                    [ node "label" [("class", "form-label fw-bold")] [];
                      node "div" [("class", "form-check form-switch")]
                        [ control "input"
                            [("class", "form-check-input"); ("type", "checkbox");
                             ("checked", ""); ("data-index", dec index);
                             ("name", "restriccion_dura_activa_" ++ dec index)%string]
                            "on" activa ] ] ] ];
          node "div" [("class", "parametros-contenedor"); ("data-index", dec index)]
            params ] ].

(** The card [RestriccionesBlandas.agregarRestriccion] inserts, with the
    slider holding [rango] and the number field holding [peso]. *)
Definition card_blanda (index : nat) (tipo rango peso : string)
           (activa : bool) : Element :=
  node "div"
    [("class", "card mb-3 restriccion-blanda restriccion-card");
     ("data-index", dec index)]
    [ node "div" [("class", "card-header d-flex justify-content-between align-items-center bg-warning bg-opacity-10")]
        [ node "h6" [("class", "mb-0")] [];
          node "button" [("type", "button"); ("class", "btn btn-sm btn-warning")] [] ];
      node "div" [("class", "card-body")]
        [ node "div" [("class", "row")]
            [ node "div" [("class", "col-md-6")]
                [ node "div" [("class", "mb-3")]
                    [ node "label" [("class", "form-label fw-bold")] [];
                      El "select"
                         [("class", "form-select restriccion-blanda-tipo-select");
                          ("data-index", dec index); ("required", "")]
                         tipo false (options claves_blandas);
                      node "small" [("class", "form-text text-muted restriccion-blanda-descripcion")] [] ] ];
              node "div" [("class", "col-md-3")]
                [ node "div" [("class", "mb-3")]
                    [ node "label" [("class", "form-label fw-bold")] [];
                      control "input"
                        [("type", "range");
                         ("class", "form-range restriccion-blanda-peso-range");
                         ("data-index", dec index);
                         ("min", "0"); ("max", "10"); ("step", "0.5")]
                        rango false;
                      control "input"
                        [("type", "number");
                         ("class", "form-control form-control-sm mt-2 restriccion-blanda-peso");
                         ("data-index", dec index);
                         ("min", "0"); ("max", "10"); ("step", "0.5");
                         ("name", "restriccion_blanda_peso_" ++ dec index)%string]
                        peso false;
                      node "small" [("class", "form-text text-muted")] [] ] ];
              node "div" [("class", "col-md-3")]
                [ node "div" [("class", "mb-3")]
                    [ node "label" [("class", "form-label fw-bold")] [];
                      node "div" [("class", "form-check form-switch")]
                        [ control "input"
                            [("class", "form-check-input"); ("type", "checkbox");
                             ("checked", ""); ("data-index", dec index);
                             ("name", "restriccion_blanda_activa_" ++ dec index)%string]
                            "on" activa ] ] ] ] ] ].

(** A configuration page: the two containers with their cards and the two
    hidden fields, holding [h1] and [h2]. *)
Definition formulario (durasCards blandasCards : list Element)
           (h1 h2 : string) : Element :=
  node "html" []
    [ node "head" [] [];
      node "body" []
        [ node "form" [("method", "post")]
            [ node "div" [("id", "restricciones-duras-contenedor")] durasCards;
              node "div" [("id", "restricciones-blandas-contenedor")] blandasCards;
              control "input" [("type", "hidden"); ("id", "restricciones_duras_json");
                               ("name", "restricciones_duras_json")] h1 false;
              control "input" [("type", "hidden"); ("id", "restricciones_blandas_json");
                               ("name", "restricciones_blandas_json")] h2 false ] ] ].

End Markup.

(** ** Pages used as examples *)

Module Ejemplos.
Import Markup.

(** One hard constraint, [descanso_minimo] with its parameter at the
    default, switched on; no soft constraint. *)
Definition una_dura : Dom.Element :=
  formulario
    [card_dura 0 "descanso_minimo" true
               [parametro 0 "horas_descanso" "number" "12"]]
    [] "" "".

(** A hard card left at the placeholder, a hard card with a type, and a
    soft card left at the placeholder. *)
Definition con_placeholders : Dom.Element :=
  formulario
    [card_dura 0 "" true []; card_dura 1 "cobertura_maxima" true []]
    [card_blanda 0 "" "1.0" "1.0" true] "" "".

(** A soft card whose slider and number field show [rango] and [peso]. *)
Definition con_blanda (rango peso : string) : Dom.Element :=
  formulario
    [card_dura 0 "cobertura_maxima" true []]
    [card_blanda 0 "preferencias_turno" rango peso true] "" "".

(** Nothing was added to the form; the hidden fields hold old text. *)
Definition vacio : Dom.Element := formulario [] [] "antes" "antes".

(** Where the controls of the first soft card sit in [con_blanda]. *)
Definition ruta_rango : Dom.path := [1; 0; 1; 0; 1; 0; 1; 0; 1].
Definition ruta_peso : Dom.path := [1; 0; 1; 0; 1; 0; 1; 0; 2].
(** Where the hidden fields sit in a [formulario]. *)
Definition ruta_duras_json : Dom.path := [1; 0; 2].
Definition ruta_blandas_json : Dom.path := [1; 0; 3].

(** A page with, optionally, the token field of a form and the token
    [meta] tag. *)
Definition pagina_csrf (campo meta : option string) : Dom.Element :=
  node "html" []
    [ node "head" []
        (match meta with
         | Some c => [node "meta" [("name", "csrf-token"); ("content", c)] []]
         | None => []
         end);
      node "body" []
        [ node "form" [("method", "post")]
            (match campo with
             | Some v => [control "input" [("type", "hidden");
                                           ("name", "csrfmiddlewaretoken")] v false]
             | None => []
             end) ] ].

(** A poll with the cap set to 0 and a callback that always asks to go on. *)
Definition sondeo_cap_0 : Poll.Args unit :=
  Poll.poll_args "/estado/" (fun _ _ u => (Normal true, u)) None (Some 0%Z).

(** Three times [PENDIENTE], then [COMPLETADA]. *)
Definition cuatro_respuestas : list Poll.Response :=
  [Poll.Resolved (Monitor.respuesta "PENDIENTE");
   Poll.Resolved (Monitor.respuesta "PENDIENTE");
   Poll.Resolved (Monitor.respuesta "PENDIENTE");
   Poll.Resolved (Monitor.respuesta "COMPLETADA")].

End Ejemplos.

(* ================================================================== *)
(** * The request helpers themselves: [get], [post], [put], [delete],
      [submitForm] *)
(* ================================================================== *)

Module Http.

(** What a helper hands to [fetch]. A header value is what the script put
    there, [None] for [null]; an option the script leaves out is [None]. *)
Inductive Body : Type :=
| NoBody
| JsonBody (text : string)                       (* JSON.stringify(data) *)
| FormBody (entries : list (string * string)).   (* new FormData(form) *)

Record Request : Type := mkRequest
  { method : option string;
    address : string;
    headers : list (string * option string);
    credentials : option string;
    body : Body }.

(** What [fetch] makes of a request: it rejects, or it resolves to a
    response with its [ok] flag, its status and what [response.json()] gives
    (a body that is not JSON makes it reject). *)
Record Answer : Type := mkAnswer
  { ok : bool;
    status : Z;
    json : Completion JsVal }.

Inductive Outcome : Type :=
| Failed (e : JsError)
| Answered (r : Answer).

(** What a call leaves behind: the requests sent, the lines written with
    [console.error] (label and error), and how the promise settles. *)
Record Run (A : Type) : Type := mkRun
  { sent : list Request;
    console : list (string * JsError);
    result : Completion A }.

(** The part all helpers share after [await fetch(...)]:
    [if (!response.ok) throw new Error(...)] and [return await response.json()]. *)
Definition settle (o : Outcome) : Completion JsVal :=
  match o with
  | Failed e => Throw e
  | Answered r => if ok r then json r else Throw (HttpError (status r))
  end.

(** [catch (error) { console.error(label, error); throw error; }] around a
    body that sent [reqs]. *)
Definition catch_log {A} (label : string) (reqs : list Request)
           (c : Completion A) : Run A :=
  mkRun reqs
        (match c with Throw e => [(label, e)] | Normal _ => [] end)
        c.

(** The second argument of [get]: left out (the default [{}]), an object
    with the given entries, or a falsy value such as [null]. *)
Inductive Params : Type :=
| Default
| Given (entries : list (string * string))
| Falsy.

(** The form [submitForm] is given, as the host reports it: [form.action]
    and the entries of [new FormData(form)]. *)
Record Form : Type := mkForm
  { action : string;
    entries : list (string * string) }.

Section Helpers.

(** The host: [URLSearchParams.prototype.toString], [JSON.stringify],
    [decodeURIComponent], and the network. *)
Variable URLSearchParams_toString : list (string * string) -> string.
Variable JSON_stringify : JsVal -> string.
Variable decodeURIComponent : string -> Completion string.
Variable net : Request -> Outcome.

(** [const fullUrl = params ? `${url}?${urlParams.toString()}` : url] *)
Definition fullUrl (url : string) (params : Params) : string :=
  match params with
  | Default => url ++ "?" ++ URLSearchParams_toString []
  | Given entries => url ++ "?" ++ URLSearchParams_toString entries
  | Falsy => url
  end.

Definition get_request (url : string) (params : Params) : Request :=
  mkRequest (Some "GET") (fullUrl url params)
            [("Content-Type", Some "application/json");
             ("X-Requested-With", Some "XMLHttpRequest")]
            (Some "same-origin") NoBody.

(** [AjaxHelper.get(url, params = {})] *)
Definition get (url : string) (params : Params) : Run JsVal :=
  let req := get_request url params in
  catch_log "Error en petición GET:" [req] (settle (net req)).

(** A helper that reads the token while it builds the options of [fetch]:
    when [getCSRFToken] throws, nothing is sent. *)
Definition with_token (pg : Page) (label : string)
           (build : option string -> Request) : Run JsVal :=
  match getCSRFToken decodeURIComponent pg with
  | Throw e => catch_log label [] (Throw e)
  | Normal token =>
      let req := build token in
      catch_log label [req] (settle (net req))
  end.

(** [data = {}] *)
Definition data_or_empty (data : option JsVal) : JsVal :=
  match data with Some d => d | None => VObj [] end.

(** [AjaxHelper.post(url, data = {})] *)
Definition post (pg : Page) (url : string) (data : option JsVal) : Run JsVal :=
  with_token pg "Error en petición POST:"
    (fun token =>
       mkRequest (Some "POST") url
                 [("Content-Type", Some "application/json");
                  ("X-CSRFToken", token);
                  ("X-Requested-With", Some "XMLHttpRequest")]
                 (Some "same-origin")
                 (JsonBody (JSON_stringify (data_or_empty data)))).

(** [AjaxHelper.put(url, data = {})] *)
Definition put (pg : Page) (url : string) (data : option JsVal) : Run JsVal :=
  with_token pg "Error en petición PUT:"
    (fun token =>
       mkRequest (Some "PUT") url
                 [("Content-Type", Some "application/json");
                  ("X-CSRFToken", token);
                  ("X-Requested-With", Some "XMLHttpRequest")]
                 (Some "same-origin")
                 (JsonBody (JSON_stringify (data_or_empty data)))).

(** [AjaxHelper.delete(url)] *)
Definition delete (pg : Page) (url : string) : Run JsVal :=
  with_token pg "Error en petición DELETE:"
    (fun token =>
       mkRequest (Some "DELETE") url
                 [("X-CSRFToken", token);
                  ("X-Requested-With", Some "XMLHttpRequest")]
                 (Some "same-origin") NoBody).

(** [url || form.action] *)
Definition submitUrl (url : option string) (form : Form) : string :=
  match url with
  | Some u => if (u =? "")%string then action form else u
  | None => action form
  end.

(** [AjaxHelper.submitForm(form, url = null)] *)
Definition submitForm (pg : Page) (form : Form) (url : option string)
  : Run JsVal :=
  with_token pg "Error en envío de formulario:"
    (fun token =>
       mkRequest (Some "POST") (submitUrl url form)
                 [("X-CSRFToken", token);
                  ("X-Requested-With", Some "XMLHttpRequest")]
                 (Some "same-origin") (FormBody (entries form))).

(** ** The functions of the application *)

(** [obtenerEstadoEjecucion(ejecucionId)] *)
Definition obtenerEstadoEjecucion (ejecucionId : string) : Run JsVal :=
  get ("/turnos/ajax/ejecucion/" ++ ejecucionId ++ "/estado/")%string Default.

(** [buscarEnfermeras(termino)] *)
Definition buscarEnfermeras (termino : string) : Run JsVal :=
  get "/turnos/ajax/enfermeras/buscar/" (Given [("q", termino)]).

(** [validarConfiguracion(configuracionId)] *)
Definition validarConfiguracion (pg : Page) (configuracionId : string)
  : Run JsVal :=
  post pg ("/turnos/ajax/configuracion/" ++ configuracionId ++ "/validar/")%string
       None.

(** [duplicarConfiguracion(configuracionId)] *)
Definition duplicarConfiguracion (pg : Page) (configuracionId : string)
  : Run JsVal :=
  post pg ("/turnos/ajax/configuracion/" ++ configuracionId ++ "/duplicar/")%string
       None.

(** [obtenerEstadisticasDashboard()] *)
Definition obtenerEstadisticasDashboard : Run JsVal :=
  get "/turnos/ajax/dashboard/estadisticas/" Default.

(** [guardarPreferencias(preferencias)] *)
Definition guardarPreferencias (pg : Page) (preferencias : JsVal) : Run JsVal :=
  post pg "/turnos/ajax/usuario/preferencias/" (Some preferencias).

End Helpers.

(** [exportarEjecucion(ejecucionId, formato)]: the address the window is
    sent to. *)
Definition exportarEjecucion (ejecucionId formato : string) : string :=
  ("/turnos/ejecuciones/" ++ ejecucionId ++ "/exportar/" ++ formato ++ "/")%string.


(** The value a request carries under a header name, if it has the header. *)
Fixpoint header_of (name : string) (hs : list (string * option string))
  : option (option string) :=
  match hs with
  | [] => None
  | (k, v) :: rest => if (k =? name)%string then Some v else header_of name rest
  end.

Definition header (name : string) (req : Request) : option (option string) :=
  header_of name (headers req).

End Http.

(* ================================================================== *)
(** * Counting what a poll did *)
(* ================================================================== *)

Module Cuenta.

(** How often the timer fired in a list of events. *)
Definition ticks (evs : list Poll.Event) : nat :=
  List.length
    (filter (fun ev => match ev with Poll.Tick => true | Poll.Settle _ => false end)
            evs).

(** The bodies of the requests that delivered one. *)
Definition bodies (rs : list Poll.Response) : list JsVal :=
  flat_map (fun r => match r with
                     | Poll.Resolved data => [data]
                     | Poll.Rejected _ => []
                     end) rs.

(** The arguments [onUpdate] and [onComplete] were called with. *)
Definition updates (log : list Monitor.Call) : list JsVal :=
  flat_map (fun c => match c with
                     | Monitor.OnUpdate data => [data]
                     | Monitor.OnComplete _ => []
                     end) log.

Definition completes (log : list Monitor.Call) : list JsVal :=
  flat_map (fun c => match c with
                     | Monitor.OnComplete data => [data]
                     | Monitor.OnUpdate _ => []
                     end) log.

(** A response after which the callback of [poll] asks to go on, whatever
    the counter and the caller's state. *)
Definition continues {U} (a : Poll.Args U) (r : Poll.Response) : Prop :=
  exists data, r = Poll.Resolved data
               /\ forall n u, fst (Poll.callback a data n u) = Normal true.

End Cuenta.

(* ================================================================== *)
(** * Editing the tree *)
(* ================================================================== *)

Module Edit.
Import Dom.

(** [node.insertAdjacentHTML('beforeend', ...)] with markup for one element,
    [node.appendChild(c)]: [c] becomes the last child of the node at [p]. *)
Fixpoint append_child (p : path) (c : Element) (e : Element) : Element :=
  match p, e with
  | [], El t a v k cs => El t a v k (cs ++ [c])
  | i :: p', El t a v k cs => El t a v k (update_nth i (append_child p' c) cs)
  end.

Fixpoint remove_nth {A} (i : nat) (l : list A) : list A :=
  match i, l with
  | _, [] => []
  | O, _ :: l' => l'
  | S i', x :: l' => x :: remove_nth i' l'
  end.

(** [node.remove()] for the node at [p]. The root has no parent in the
    model and stays (none of the scripts' selectors is meant for it). *)
Fixpoint remove (p : path) (e : Element) : Element :=
  match p, e with
  | [], _ => e
  | [i], El t a v k cs => El t a v k (remove_nth i cs)
  | i :: p', El t a v k cs => El t a v k (update_nth i (remove p') cs)
  end.

(** [node.innerHTML = ...] and [node.textContent = ...] as far as elements
    go: the children of the node at [p] are replaced by [kids]. *)
Fixpoint set_children (p : path) (kids : list Element) (e : Element) : Element :=
  match p, e with
  | [], El t a v k _ => El t a v k kids
  | i :: p', El t a v k cs => El t a v k (update_nth i (set_children p' kids) cs)
  end.

(** What selectors can see of a document: tag and attributes of every
    element, in tree order. *)
Definition vista (e : Element) : list (string * list (string * string)) :=
  map shallow (map snd (inclusive e)).

(** A selector on what it sees of an element. *)
Definition coincide (sel : Selector) (sh : string * list (string * string)) : bool :=
  matches sel (El (fst sh) (snd sh) "" false []).

End Edit.

(* ================================================================== *)
(** * The constraint editor: adding and removing cards *)
(* ================================================================== *)

(** The markup of [agregarRestriccion], element for element. The text of a
    node and the content of an [option] are not represented. *)
Module Plantilla.
Import Dom Markup.

Definition icono (clases : string) : Element := node "i" [("class", clases)] [].

(** [RestriccionesDuras.agregarRestriccion]: the card for [index]. *)
Definition card_dura (index : nat) : Element :=
  node "div"
    [("class", "card mb-3 restriccion-dura restriccion-card");
     ("data-index", dec index)]
    [ node "div" [("class", "card-header d-flex justify-content-between align-items-center bg-danger bg-opacity-10")]
        [ node "h6" [("class", "mb-0")]
            [ icono "fas fa-exclamation-triangle text-danger me-2" ];
          node "button"
               [("type", "button"); ("class", "btn btn-sm btn-danger");
                ("onclick", "RestriccionesDuras.eliminarRestriccion(" ++ dec index ++ ")")%string]
            [ icono "fas fa-trash" ] ];
      node "div" [("class", "card-body")]
        [ node "div" [("class", "row")]
            [ node "div" [("class", "col-md-8")]
                [ node "div" [("class", "mb-3")]
                    [ node "label" [("class", "form-label fw-bold")] [];
                      El "select"
                         [("class", "form-select restriccion-tipo-select");
                          ("data-index", dec index);
                          ("onchange", "RestriccionesDuras.actualizarParametros(" ++ dec index ++ ")")%string;
                          ("required", "")]
                         "" false (options claves_duras);
                      node "small" [("class", "form-text text-muted restriccion-descripcion")] [] ] ];
              node "div" [("class", "col-md-4")]
                [ node "div" [("class", "mb-3")]
                    [ node "label" [("class", "form-label fw-bold")] [];
                      node "div" [("class", "form-check form-switch")]
                        [ control "input"
                            [("class", "form-check-input"); ("type", "checkbox");
                             ("checked", ""); ("data-index", dec index);
                             ("name", "restriccion_dura_activa_" ++ dec index)%string]
                            "on" true ] ] ] ];
          node "div" [("class", "parametros-contenedor"); ("data-index", dec index)]
            [] ] ].

(** [RestriccionesBlandas.agregarRestriccion]: the card for [index]. *)
Definition card_blanda (index : nat) : Element :=
  node "div"
    [("class", "card mb-3 restriccion-blanda restriccion-card");
     ("data-index", dec index)]
    [ node "div" [("class", "card-header d-flex justify-content-between align-items-center bg-warning bg-opacity-10")]
        [ node "h6" [("class", "mb-0")]
            [ icono "fas fa-balance-scale text-warning me-2" ];
          node "button"
               [("type", "button"); ("class", "btn btn-sm btn-warning");
                ("onclick", "RestriccionesBlandas.eliminarRestriccion(" ++ dec index ++ ")")%string]
            [ icono "fas fa-trash" ] ];
      node "div" [("class", "card-body")]
        [ node "div" [("class", "row")]
            [ node "div" [("class", "col-md-6")]
                [ node "div" [("class", "mb-3")]
                    [ node "label" [("class", "form-label fw-bold")] [];
                      El "select"
                         [("class", "form-select restriccion-blanda-tipo-select");
                          ("data-index", dec index);
                          ("onchange", "RestriccionesBlandas.actualizar(" ++ dec index ++ ")")%string;
                          ("required", "")]
                         "" false (options claves_blandas);
                      node "small" [("class", "form-text text-muted restriccion-blanda-descripcion")] [] ] ];
              node "div" [("class", "col-md-3")]
                [ node "div" [("class", "mb-3")]
                    [ node "label" [("class", "form-label fw-bold")] [];
                      control "input"
                        [("type", "range");
                         ("class", "form-range restriccion-blanda-peso-range");
                         ("data-index", dec index);
                         ("min", "0"); ("max", "10"); ("step", "0.5"); ("value", "1.0");
                         ("oninput", "RestriccionesBlandas.actualizarPeso(" ++ dec index ++ ", this.value)")%string]
                        "1.0" false;
                      control "input"
                        [("type", "number");
                         ("class", "form-control form-control-sm mt-2 restriccion-blanda-peso");
                         ("data-index", dec index);
                         ("min", "0"); ("max", "10"); ("step", "0.5"); ("value", "1.0");
                         ("name", "restriccion_blanda_peso_" ++ dec index)%string;
                         ("onchange", "RestriccionesBlandas.sincronizarPeso(" ++ dec index ++ ", this.value)")%string]
                        "1.0" false;
                      node "small" [("class", "form-text text-muted")] [] ] ];
              node "div" [("class", "col-md-3")]
                [ node "div" [("class", "mb-3")]
                    [ node "label" [("class", "form-label fw-bold")] [];
                      node "div" [("class", "form-check form-switch")]
                        [ control "input"
                            [("class", "form-check-input"); ("type", "checkbox");
                             ("checked", ""); ("data-index", dec index);
                             ("name", "restriccion_blanda_activa_" ++ dec index)%string]
                            "on" true ] ] ] ] ] ].

End Plantilla.

Module Editor.
Import Dom.

(** An entry of [restriccionesState.duras] or [restriccionesState.blandas]:
    the [{}] that [agregarRestriccion] pushes, or what [actualizarParametros]
    and [actualizar] store. *)
Inductive Entrada : Type :=
| Vacia
| EntradaDura (tipo : string) (activa : bool) (parametros : list (string * JsVal))
| EntradaBlanda (tipo : string) (activa : bool) (peso : JsNum).

(** An array of entries; [None] is a hole. *)
Definition Arreglo : Type := list (option Entrada).

(** [arr.push(x)] *)
Definition push (x : Entrada) (arr : Arreglo) : Arreglo := arr ++ [Some x].

(** [arr.splice(index, 1)]: nothing is removed when [index] is not below
    the length. *)
Definition splice1 (index : nat) (arr : Arreglo) : Arreglo :=
  Edit.remove_nth index arr.

(** [arr[index] = x]: beyond the end the array grows, with holes. *)
Definition asignar (index : nat) (x : Entrada) (arr : Arreglo) : Arreglo :=
  if (index <? List.length arr)%nat
  then update_nth index (fun _ => Some x) arr
  else arr ++ repeat None (index - List.length arr) ++ [Some x].

(** The page and the state of the script. [textos] lists the assignments to
    [textContent] in the order they were made, each with the node as it was
    found at that moment; [preguntas] lists the messages shown with
    [confirm]. *)
Record t : Type := mk
  { pagina : Element;
    duras_st : Arreglo;
    blandas_st : Arreglo;
    textos : list (path * string);
    preguntas : list string }.

(** [RestriccionesDuras] and [RestriccionesBlandas] are the same code over
    different names. *)
Inductive Clase : Type := Duras | Blandas.

Definition contenedor_id (c : Clase) : string :=
  match c with
  | Duras => "restricciones-duras-contenedor"
  | Blandas => "restricciones-blandas-contenedor"
  end.

Definition contador_id (c : Clase) : string :=
  match c with
  | Duras => "contador-restricciones-duras"
  | Blandas => "contador-restricciones-blandas"
  end.

Definition clase_card (c : Clase) : string :=
  match c with
  | Duras => "restriccion-dura"
  | Blandas => "restriccion-blanda"
  end.

(** [`.restriccion-dura[data-index="${index}"]`] *)
Definition card_de (c : Clase) (index : nat) : Selector :=
  [Class (clase_card c); AttrEq "data-index" (Markup.dec index)].

Definition pregunta (c : Clase) : string :=
  match c with
  | Duras => "¿Eliminar esta restricción dura?"
  | Blandas => "¿Eliminar esta restricción blanda?"
  end.

Definition plantilla (c : Clase) (index : nat) : Element :=
  match c with
  | Duras => Plantilla.card_dura index
  | Blandas => Plantilla.card_blanda index
  end.

Definition estado (c : Clase) (ed : t) : Arreglo :=
  match c with
  | Duras => duras_st ed
  | Blandas => blandas_st ed
  end.

Definition con_estado (c : Clase) (arr : Arreglo) (ed : t) : t :=
  match c with
  | Duras => mk (pagina ed) arr (blandas_st ed) (textos ed) (preguntas ed)
  | Blandas => mk (pagina ed) (duras_st ed) arr (textos ed) (preguntas ed)
  end.

Definition con_pagina (d : Element) (ed : t) : t :=
  mk d (duras_st ed) (blandas_st ed) (textos ed) (preguntas ed).

(** [node.textContent = s] for the node at [p]: its children go and the
    assignment is recorded. *)
Definition set_text (p : path) (s : string) (ed : t) : t :=
  mk (Edit.set_children p [] (pagina ed)) (duras_st ed) (blandas_st ed)
     (textos ed ++ [(p, s)]) (preguntas ed).

(** [actualizarContador()] *)
Definition actualizarContador (c : Clase) (ed : t) : t :=
  match getElementById (contador_id c) (pagina ed) with
  | Some contador => set_text contador (Markup.dec (List.length (estado c ed))) ed
  | None => ed
  end.

(** [agregarRestriccion()] *)
Definition agregarRestriccion (c : Clase) (ed : t) : t :=
  match getElementById (contenedor_id c) (pagina ed) with
  | None => ed
  | Some contenedor =>
      let index := List.length (estado c ed) in
      let ed1 := con_pagina (Edit.append_child contenedor (plantilla c index)
                                               (pagina ed)) ed in
      let ed2 := con_estado c (push Vacia (estado c ed1)) ed1 in
      actualizarContador c ed2
  end.

(** [eliminarRestriccion(index)]; [confirm] is the answer the user gives to
    the message, and is asked only when the card was found. *)
Definition eliminarRestriccion (confirm : string -> bool) (c : Clase)
           (index : nat) (ed : t) : t :=
  match document_querySelector (card_de c index) (pagina ed) with
  | None => ed
  | Some elemento =>
      let ed0 := mk (pagina ed) (duras_st ed) (blandas_st ed) (textos ed)
                    (preguntas ed ++ [pregunta c]) in
      if confirm (pregunta c) then
        let ed1 := con_pagina (Edit.remove elemento (pagina ed0)) ed0 in
        let ed2 := con_estado c (splice1 index (estado c ed1)) ed1 in
        actualizarContador c ed2
      else ed0
  end.

(** The [data-index] of the cards of a class, in document order. *)
Definition indices (c : Clase) (d : Element) : list (option string) :=
  map (fun sh => lookup "data-index" (snd sh))
      (filter (Edit.coincide [Class (clase_card c)]) (Edit.vista d)).

(** The counter, where the page has one, holds text only. *)
Definition contador_hoja (c : Clase) (d : Element) : Prop :=
  forall q x,
    getElementById (contador_id c) d = Some q -> get q d = Some x ->
    children x = [].

(** The last text assigned to the node at [p], if any. *)
Definition ultimo_texto (p : path) (ed : t) : option string :=
  match find (fun ps => if list_eq_dec Nat.eq_dec (fst ps) p then true else false)
             (rev (textos ed)) with
  | Some ps => Some (snd ps)
  | None => None
  end.

End Editor.

(** ** A page to edit *)

Module Taller.
Import Markup.

(** A configuration page with the two counters, the two containers and the
    two hidden fields, and nothing added yet. *)
Definition pagina : Dom.Element :=
  node "html" []
    [ node "head" [] [];
      node "body" []
        [ node "h5" [] [ node "span" [("id", "contador-restricciones-duras")] [] ];
          node "h5" [] [ node "span" [("id", "contador-restricciones-blandas")] [] ];
          node "form" [("method", "post")]
            [ node "div" [("id", "restricciones-duras-contenedor")] [];
              node "div" [("id", "restricciones-blandas-contenedor")] [];
              control "input" [("type", "hidden"); ("id", "restricciones_duras_json");
                               ("name", "restricciones_duras_json")] "" false;
              control "input" [("type", "hidden"); ("id", "restricciones_blandas_json");
                               ("name", "restricciones_blandas_json")] "" false ] ] ].

(** The script right after it was loaded. *)
Definition inicio : Editor.t := Editor.mk pagina [] [] [] [].

Definition si (_ : string) : bool := true.

(** Two cards added and the first one removed: the state has one entry and
    the card left carries the number 1. *)
Definition tras_borrar (c : Editor.Clase) : Editor.t :=
  Editor.eliminarRestriccion si c 0
    (Editor.agregarRestriccion c (Editor.agregarRestriccion c inicio)).

End Taller.

(* ================================================================== *)
(** * The two catalogues and the handlers of the type selects *)
(* ================================================================== *)

Module Catalogo.

(** A parameter of a hard constraint. No entry of the catalogue has a
    [step]. *)
Record Parametro : Type := mkParametro
  { tipo : string;
    label : string;
    default : nat;
    min : nat;
    max : nat;
    step : option nat;
    help : option string }.

Record Dura : Type := mkDura
  { nombre : string;
    descripcion : string;
    icono : string;
    parametros : list (string * Parametro) }.

Record Blanda : Type := mkBlanda
  { b_nombre : string;
    b_descripcion : string;
    b_icono : string;
    peso_default : JsNum }.

(** [restriccionesDurasDefiniciones] *)
Definition duras : list (string * Dura) :=
  [ ("cobertura_minima",
     mkDura "Cobertura Mínima"
            "Cada turno debe tener un número mínimo de enfermeras" "fa-users"
            [("incremento_fines_semana",
              mkParametro "number" "Incremento fines de semana" 1 0 5 None
                (Some "Enfermeras adicionales requeridas en fines de semana"))]);
    ("cobertura_maxima",
     mkDura "Cobertura Máxima"
            "Cada turno no debe exceder el número máximo de enfermeras"
            "fa-user-minus" []);
    ("un_turno_por_dia",
     mkDura "Un Turno por Día"
            "Una enfermera no puede trabajar más de un turno al día" "fa-clock" []);
    ("descanso_minimo",
     mkDura "Descanso Mínimo" "Tiempo mínimo de descanso entre turnos" "fa-bed"
            [("horas_descanso",
              mkParametro "number" "Horas de descanso" 12 8 24 None
                (Some "Horas mínimas entre el fin de un turno y el inicio del siguiente"))]);
    ("horas_semanales_max",
     mkDura "Máximo Horas Semanales"
            "Máximo de turnos que una enfermera puede trabajar por semana"
            "fa-calendar-week"
            [("max_turnos_semana",
              mkParametro "number" "Máximo turnos por semana" 5 1 7 None
                (Some "Número máximo de turnos por semana"))]);
    ("horas_semanales_min",
     mkDura "Mínimo Horas Semanales"
            "Mínimo de turnos que una enfermera debe trabajar por semana"
            "fa-calendar-check"
            [("min_turnos_semana",
              mkParametro "number" "Mínimo turnos por semana" 3 0 7 None
                (Some "Número mínimo de turnos por semana"))]);
    ("turnos_consecutivos_max",
     mkDura "Máximo Turnos Consecutivos" "Máximo de días consecutivos trabajando"
            "fa-calendar-days"
            [("max_dias_consecutivos",
              mkParametro "number" "Máximo días consecutivos" 4 1 10 None
                (Some "Días máximos trabajando seguidos"))]);
    ("incompatibilidades",
     mkDura "Incompatibilidades" "Enfermeras que no pueden trabajar juntas"
            "fa-user-slash" []);
    ("disponibilidad_parcial",
     mkDura "Disponibilidad Parcial" "Enfermeras disponibles solo en ciertos turnos"
            "fa-user-clock" []);
    ("dias_libres_obligatorios",
     mkDura "Días Libres Obligatorios" "Días específicos que deben estar libres"
            "fa-calendar-xmark" []);
    ("dias_libres_minimos_semana",
     mkDura "Días Libres Mínimos por Semana" "Mínimo de días libres por semana"
            "fa-umbrella-beach"
            [("min_dias_libres_semana",
              mkParametro "number" "Mínimo días libres" 2 0 4 None
                (Some "Días libres mínimos por semana"))]);
    ("turnos_nocturnos_consecutivos_max",
     mkDura "Máximo Noches Consecutivas" "Máximo de turnos nocturnos consecutivos"
            "fa-moon"
            [("max_noches_consecutivas",
              mkParametro "number" "Máximo noches consecutivas" 3 1 7 None
                (Some "Noches máximas trabajando seguidas"))]);
    ("fines_semana_max",
     mkDura "Máximo Fines de Semana" "Máximo de fines de semana trabajados"
            "fa-calendar-plus"
            [("max_fines_semana",
              mkParametro "number" "Máximo fines de semana" 1 0 4 None
                (Some "Fines de semana máximos trabajando en el período"))]) ].

(** [restriccionesBlandasDefiniciones] *)
Definition blandas : list (string * Blanda) :=
  [ ("preferencias_turno",
     mkBlanda "Preferencias de Turno"
              "Respetar preferencias de turno de enfermeras" "fa-heart" (Num 3));
    ("preferencias_dias_libres",
     mkBlanda "Preferencias de Días Libres" "Respetar preferencias de días libres"
              "fa-calendar-heart" (Num 2));
    ("distribucion_equitativa_noches",
     mkBlanda "Distribución Equitativa de Noches"
              "Distribuir turnos nocturnos equitativamente" "fa-balance-scale"
              (Num 5));
    ("minimizar_cambios_turno",
     mkBlanda "Minimizar Cambios de Turno" "Evitar cambios frecuentes de turno"
              "fa-arrows-rotate" (Num (3 # 2)));
    ("evitar_turnos_aislados",
     mkBlanda "Evitar Turnos Aislados" "Preferir bloques de turnos consecutivos"
              "fa-object-group" (Num 2));
    ("cumplir_demanda_optima",
     mkBlanda "Cumplir Demanda Óptima"
              "Ajustarse a la demanda óptima, no solo mínima" "fa-bullseye" (Num 1));
    ("balanceo_carga_total",
     mkBlanda "Balanceo de Carga Total"
              "Distribuir carga de trabajo equitativamente" "fa-chart-pie" (Num 4)) ].

(** [catalogo[tipo]] for a key of the catalogue; any other value of a type
    select counts as missing. *)
Fixpoint buscar {A} (k : string) (cat : list (string * A)) : option A :=
  match cat with
  | [] => None
  | (k', v) :: rest => if (k' =? k)%string then Some v else buscar k rest
  end.

End Catalogo.

Module Handlers.
Import Dom Editor.

(** [`${x || ''}`] for a number that may be missing: empty for 0 as well. *)
Definition o_vacio (x : option nat) : string :=
  match x with
  | Some (S n) => Markup.dec (S n)
  | _ => ""
  end.

(** One parameter field as [actualizarParametros] writes it. *)
Definition campo (index : nat) (key : string) (param : Catalogo.Parametro)
  : Element :=
  Markup.node "div" [("class", "col-md-6 mb-3")]
    ([ Markup.node "label" [("class", "form-label fw-bold")] [];
       Markup.control "input"
         [("type", Catalogo.tipo param);
          ("class", "form-control");
          ("name", "restriccion_dura_param_" ++ Markup.dec index ++ "_" ++ key)%string;
          ("value", Markup.dec (Catalogo.default param));
          ("min", o_vacio (Some (Catalogo.min param)));
          ("max", o_vacio (Some (Catalogo.max param)));
          ("step", o_vacio (Catalogo.step param))]
         (Markup.dec (Catalogo.default param)) false ]
     ++ match Catalogo.help param with
        | Some _ => [Markup.node "small" [("class", "form-text text-muted")] []]
        | None => []
        end).

(** The markup assigned to [parametrosContenedor.innerHTML]: nothing for a
    type without parameters. *)
Definition campos (index : nat) (def : Catalogo.Dura) : list Element :=
  match Catalogo.parametros def with
  | [] => []
  | params =>
      [ Markup.node "div" [("class", "mt-3 p-3 bg-light rounded")]
          [ Markup.node "h6" [("class", "mb-3")] [];
            Markup.node "div" [("class", "row")]
              (map (fun kp => campo index (fst kp) (snd kp)) params) ] ]
  end.

(** The prefixes of a path, the longest first: a node and its ancestors. *)
Fixpoint prefixes (p : path) : list path :=
  match p with
  | [] => [[]]
  | i :: p' => map (cons i) (prefixes p') ++ [[]]
  end.

(** [node.closest(sel)]: the nearest of the node and its ancestors that
    matches. *)
Definition closest (sel : Selector) (p : path) (d : Element) : option path :=
  find (fun q => match get q d with
                 | Some x => matches sel x
                 | None => false
                 end) (prefixes p).

(** [node.querySelector(sel)] for the node at [q], as a reference. *)
Definition querySelector_at (sel : Selector) (q : path) (d : Element)
  : option path :=
  match get q d with
  | Some x =>
      option_map (app q)
        (hd_error (map fst (filter (fun pe => matches sel (snd pe)) (descendants x))))
  | None => None
  end.

(** A step of a handler: the state it leaves and how it ends. *)
Definition Paso : Type := Editor.t * Completion unit.

(** [select.closest('.card-body').querySelector(sel).textContent = texto] *)
Definition describir (select : path) (sel : Selector) (texto : string)
           (ed : Editor.t) : Paso :=
  match closest [Class "card-body"] select (pagina ed) with
  | None => (ed, Throw TypeError)
  | Some body =>
      match querySelector_at sel body (pagina ed) with
      | None => (ed, Throw TypeError)
      | Some descripcionEl => (set_text descripcionEl texto ed, Normal tt)
      end
  end.

(** [RestriccionesDuras.actualizarParametros(index)] *)
Definition actualizarParametros (index : nat) (ed : Editor.t) : Paso :=
  match document_querySelector
          [Class "restriccion-tipo-select"; AttrEq "data-index" (Markup.dec index)]
          (pagina ed) with
  | None => (ed, Normal tt)
  | Some select =>
      match value_at select (pagina ed) with
      | None | Some "" => (ed, Normal tt)
      | Some tipo =>
          match Catalogo.buscar tipo Catalogo.duras with
          | None => (ed, Throw TypeError)
          | Some definicion =>
              match describir select [Class "restriccion-descripcion"]
                              (Catalogo.descripcion definicion) ed with
              | (ed1, Throw e) => (ed1, Throw e)
              | (ed1, Normal _) =>
                  match document_querySelector
                          [Class "parametros-contenedor";
                           AttrEq "data-index" (Markup.dec index)]
                          (pagina ed1) with
                  | None => (ed1, Throw TypeError)
                  | Some parametrosContenedor =>
                      let d2 := Edit.set_children parametrosContenedor
                                  (campos index definicion) (pagina ed1) in
                      let ed2 := con_pagina d2 ed1 in
                      (con_estado Duras
                         (asignar index (EntradaDura tipo true []) (duras_st ed2))
                         ed2,
                       Normal tt)
                  end
              end
          end
      end
  end.

Section ConHost.

(** The host's conversion of a number to a string, as in
    [input.value = 1.5]. *)
Variable Number_toString : JsNum -> string.

(** [RestriccionesBlandas.actualizar(index)] *)
Definition actualizar (index : nat) (ed : Editor.t) : Paso :=
  match document_querySelector
          [Class "restriccion-blanda-tipo-select";
           AttrEq "data-index" (Markup.dec index)]
          (pagina ed) with
  | None => (ed, Normal tt)
  | Some select =>
      match value_at select (pagina ed) with
      | None | Some "" => (ed, Normal tt)
      | Some tipo =>
          match Catalogo.buscar tipo Catalogo.blandas with
          | None => (ed, Throw TypeError)
          | Some definicion =>
              match describir select [Class "restriccion-blanda-descripcion"]
                              (Catalogo.b_descripcion definicion) ed with
              | (ed1, Throw e) => (ed1, Throw e)
              | (ed1, Normal _) =>
                  let pesoInput :=
                    document_querySelector (Sel.peso_de index) (pagina ed1) in
                  let pesoRange :=
                    document_querySelector (Sel.peso_range_de index) (pagina ed1) in
                  match pesoInput, pesoRange with
                  | None, _ => (ed1, Throw TypeError)
                  | Some pn, None =>
                      (con_pagina
                         (set_value pn
                            (Number_toString (Catalogo.peso_default definicion))
                            (pagina ed1)) ed1,
                       Throw TypeError)
                  | Some pn, Some pr =>
                      let v := Number_toString (Catalogo.peso_default definicion) in
                      let ed2 := con_pagina
                                   (set_value pr v (set_value pn v (pagina ed1)))
                                   ed1 in
                      (con_estado Blandas
                         (asignar index
                            (EntradaBlanda tipo true
                               (Catalogo.peso_default definicion))
                            (blandas_st ed2))
                         ed2,
                       Normal tt)
                  end
              end
          end
      end
  end.

End ConHost.

(** The user picks [tipo] in the type select of the card numbered [index];
    the select then holds it and its [onchange] handler runs. *)
Definition elegir_dura (index : nat) (tipo : string) (ed : Editor.t) : Paso :=
  actualizarParametros index
    (con_pagina
       (assign_value
          (document_querySelector
             [Class "restriccion-tipo-select"; AttrEq "data-index" (Markup.dec index)]
             (pagina ed))
          tipo (pagina ed))
       ed).

Definition elegir_blanda (Number_toString : JsNum -> string)
           (index : nat) (tipo : string) (ed : Editor.t) : Paso :=
  actualizar Number_toString index
    (con_pagina
       (assign_value
          (document_querySelector
             [Class "restriccion-blanda-tipo-select";
              AttrEq "data-index" (Markup.dec index)]
             (pagina ed))
          tipo (pagina ed))
       ed).

(** The last underscore segment of a catalogue key. *)
Definition ultimo_segmento (key : string) : string :=
  match Str.pop (Str.split "_" key) with
  | Some k => k
  | None => "undefined"
  end.

(** What the backend is sent for a card that holds the defaults of its
    type: each default under the last segment of its key, a later
    parameter taking the place of an earlier one with the same segment. *)
Definition parametros_enviados (def : Catalogo.Dura) : list (string * JsVal) :=
  fold_left
    (fun o kp =>
       Obj.set (ultimo_segmento (fst kp))
               (VNum (Num (inject_Z (Z.of_nat (Catalogo.default (snd kp)))))) o)
    (Catalogo.parametros def) [].

(** Numbers with at most one decimal, printed as the host prints them. *)
Definition imprimir (n : JsNum) : string :=
  match n with
  | NaN => "NaN"
  | Infinity neg => if neg then "-Infinity" else "Infinity"
  | Num q =>
      let q10 := Qmult q (inject_Z 10) in
      let t := Z.div (Z.abs (Qnum q10)) (Z.pos (Qden q10)) in
      let entero := Z.to_nat (Z.div t 10) in
      let decimo := Z.to_nat (Z.modulo t 10) in
      ((if Z.ltb (Qnum q) 0 then "-" else "")
       ++ Markup.dec entero
       ++ match decimo with
          | O => ""
          | _ => "." ++ Markup.dec decimo
          end)%string
  end.

End Handlers.

(* ================================================================== *)
(** * The host's controls *)
(* ================================================================== *)

(** The value sanitization algorithm of the HTML Standard for the two
    kinds of control the weight handlers write to, [input type=range] and
    [input type=number]. Numbers are the exact rationals the texts denote,
    as in [Number.parseFloat]; the rounding to a double is not
    represented. *)
Module Host.
Import Dom.

(** What follows the mantissa of a valid floating-point number: nothing, or
    [e] or [E], an optional sign and one or more digits. *)
Definition valid_exponent (s : string) : bool :=
  match s with
  | EmptyString => true
  | String c s' =>
      if Ascii.eqb c "e" || Ascii.eqb c "E" then
        let (_, s'') := Number.sign s' in
        let '(_, n, rest) := Number.digits 0 0 s'' in
        negb (n =? 0)%nat && (rest =? "")%string
      else false
  end.

(** A valid floating-point number: an optional [-]; digits, or digits, a
    point and digits, or a point and digits; an optional exponent. *)
Definition valid_floating_point_number (s : string) : bool :=
  let s1 := match s with
            | String c t => if Ascii.eqb c "-" then t else s
            | EmptyString => s
            end in
  let '(_, ni, s2) := Number.digits 0 0 s1 in
  match s2 with
  | String "." s' =>
      let '(_, nf, s3) := Number.digits 0 0 s' in
      negb (nf =? 0)%nat && valid_exponent s3
  | _ => negb (ni =? 0)%nat && valid_exponent s2
  end.

(** The number a text denotes, if it starts with one. *)
Definition numero (t : string) : option Q :=
  match Number.parseFloat t with
  | Num q => Some q
  | _ => None
  end.

(** The number an attribute holds, if the element has it and it parses. *)
Definition atributo (a : string) (x : Element) : option Q :=
  match getAttribute a x with
  | Some t => numero t
  | None => None
  end.

Definition Qlt_bool (a b : Q) : bool := negb (Qle_bool b a).

(** The largest integer not above [q], and the smallest not below it. *)
Definition piso (q : Q) : Z := Z.div (Qnum q) (Z.pos (Qden q)).
Definition techo (q : Q) : Z := Z.opp (piso (Qopp q)).

(** The allowed value step of a slider: [step] when it is a positive
    number, 1 when it is missing or anything else, none for [any]. *)
Definition paso (x : Element) : option Q :=
  match getAttribute "step" x with
  | None => Some (inject_Z 1)
  | Some t =>
      if (t =? "any")%string then None
      else match numero t with
           | Some s => if Qle_bool s (inject_Z 0) then Some (inject_Z 1) else Some s
           | None => Some (inject_Z 1)
           end
  end.

(** The number nearest to [v] among [base + k * step] between [lo] and
    [hi] (with no upper limit when [hi] is below [lo]); of two equally
    near, the greater; [v] when there is none. *)
Definition cercano (base step lo hi v : Q) : Q :=
  let en_paso (k : Z) := Qplus base (Qmult (inject_Z k) step) in
  let c := en_paso (piso (Qplus (Qdiv (Qminus v base) step) (1 # 2))) in
  if Qle_bool lo hi && Qlt_bool hi c then
    let c' := en_paso (piso (Qdiv (Qminus hi base) step)) in
    if Qle_bool lo c' then c' else v
  else if Qlt_bool c lo then
    let c' := en_paso (techo (Qdiv (Qminus lo base) step)) in
    if Qlt_bool hi lo || Qle_bool c' hi then c' else v
  else c.

(** The digits of [r / d] after the point, for [0 <= r < d], at most
    [fuel] of them. *)
Fixpoint decimales (fuel : nat) (r d : Z) : string :=
  match fuel with
  | O => ""
  | S fuel' =>
      if Z.eqb r 0 then ""
      else String (ascii_of_nat (48 + Z.to_nat (Z.div (10 * r) d)))
                  (decimales fuel' (Z.modulo (10 * r) d) d)
  end.

(** The best representation of a number as a floating-point number, for a
    number with a finite decimal expansion of moderate size: the integer
    part, and after a point the decimals, if there are any. *)
Definition representacion (q : Q) : string :=
  let n := Z.abs (Qnum q) in
  let d := Z.pos (Qden q) in
  ((if Z.ltb (Qnum q) 0 then "-" else "")
   ++ Markup.dec (Z.to_nat (Z.div n d))
   ++ match decimales 20 (Z.modulo n d) d with
      | "" => ""
      | f => "." ++ f
      end)%string.

(** A slider. A text that is not a valid floating-point number gives the
    default value, half way between [min] and [max]; a number below [min]
    gives [min] and one above [max] gives [max]; a number off the steps,
    which start at [min], gives the nearest step. [min] is 0 and [max] is
    100 when the attribute is missing. *)
Definition rango (x : Element) (v : string) : string :=
  let min := match atributo "min" x with Some q => q | None => inject_Z 0 end in
  let max := match atributo "max" x with Some q => q | None => inject_Z 100 end in
  let base := match atributo "min" x with
              | Some q => q
              | None => match atributo "value" x with
                        | Some q => q
                        | None => inject_Z 0
                        end
              end in
  let defecto := if Qlt_bool max min then min
                 else Qplus min (Qdiv (Qminus max min) (inject_Z 2)) in
  let n := if valid_floating_point_number v
           then match numero v with Some q => q | None => defecto end
           else defecto in
  let n1 := if Qlt_bool n min then min
            else if Qle_bool min max && Qlt_bool max n then max
            else n in
  let n2 := match paso x with
            | Some s => cercano base s min max n1
            | None => n1
            end in
  representacion (Qred n2).

(** A number field keeps a valid floating-point number as it is written
    and turns anything else into the empty string; it takes no notice of
    [min], [max] and [step]. *)
Definition numerico (v : string) : string :=
  if valid_floating_point_number v then v else "".

(** [node.value = v] as the control stores it; a control of another kind
    is taken to keep the text. *)
Definition sanitize (x : Element) (v : string) : string :=
  if (type x =? "range")%string then rango x v
  else if (type x =? "number")%string then numerico v
  else v.

(** A text of decimal digits only. *)
Fixpoint solo_digitos (s : string) : bool :=
  match s with
  | EmptyString => true
  | String c s' =>
      match Number.digit c with
      | Some _ => solo_digitos s'
      | None => false
      end
  end.

(** The user sets the control at [p] to [v]: the control stores what the
    host makes of [v]. *)
Definition escribir (p : path) (v : string) (d : Element) : Element :=
  RestriccionesBlandas.assign_control sanitize (Some p) v d.

End Host.

Module Arreglos.

(** What [arr[index] = x] leaves of an array: the entry at [index], the
    entries it had elsewhere, and holes up to [index] beyond its end. *)
Definition asignado (index : nat) (x : Editor.Entrada) (antes despues : Editor.Arreglo) : Prop :=
  List.length despues = Nat.max (List.length antes) (S index)
  /\ nth_error despues index = Some (Some x)
  /\ (forall j, j <> index -> j < List.length antes ->
                nth_error despues j = nth_error antes j)
  /\ (forall j, List.length antes <= j -> j < index ->
                nth_error despues j = Some None).

End Arreglos.

Unset Implicit Arguments.

(* ================================================================== *)
(** * Facts about strings *)
(* ================================================================== *)

Module StrFacts.

Lemma length_append (a b : string) :
  String.length (a ++ b) = String.length a + String.length b.
Proof. induction a as [|c a IH]; simpl; [reflexivity | now rewrite IH]. Qed.

(** Comparing the first [length p] characters with [p] is the prefix test. *)
Lemma take_eqb_prefix (p e : string) :
  (Str.take (String.length p) e =? p)%string = String.prefix p e.
Proof.
  revert e; induction p as [|c p IH]; intros e.
  - destruct e; reflexivity.
  - destruct e as [|d e]; simpl; [reflexivity|].
    destruct (ascii_dec c d) as [->|Hne].
    + rewrite Ascii.eqb_refl. apply IH.
    + destruct (Ascii.eqb d c) eqn:E; [|reflexivity].
      apply Ascii.eqb_eq in E. congruence.
Qed.

Lemma substring_0 (s : string) (n : nat) : Str.substring s 0 n = Str.take n s.
Proof.
  unfold Str.substring. rewrite Nat.max_0_l, Nat.min_0_l, Nat.sub_0_r.
  reflexivity.
Qed.

Lemma prefix_append (a b : string) : String.prefix a (a ++ b) = true.
Proof.
  induction a as [|c a IH]; simpl; [now destruct b|].
  destruct (ascii_dec c c); [exact IH | congruence].
Qed.

(** A string that goes on with a character other than [c] after [a] does
    not start with [a] followed by [c]. *)
Lemma prefix_mismatch (a rest : string) (c d : ascii) :
  c <> d ->
  String.prefix (a ++ String c EmptyString) (a ++ String d rest) = false.
Proof.
  intros Hne. induction a as [|x a IH]; simpl.
  - destruct (ascii_dec c d); [congruence | reflexivity].
  - destruct (ascii_dec x x); [exact IH | congruence].
Qed.

Lemma mem_append (c : ascii) (a b : string) :
  Str.mem c (a ++ b) = Str.mem c a || Str.mem c b.
Proof.
  induction a as [|x a IH]; simpl; [reflexivity|].
  now rewrite IH, orb_assoc.
Qed.

Lemma split_nonempty (sep : ascii) (s : string) : Str.split sep s <> [].
Proof.
  induction s as [|c s IH]; simpl; [discriminate|].
  destruct (Ascii.eqb c sep); [discriminate|].
  destruct (Str.split sep s); discriminate.
Qed.

End StrFacts.

(* ================================================================== *)
(** * Facts about [getCookie] *)
(* ================================================================== *)

Section CookieFacts.

Variable decodeURIComponent : string -> Completion string.

Lemma cookie_matches_prefix (name e : string) :
  cookie_matches name e = String.prefix (name ++ "=") e.
Proof.
  unfold cookie_matches. rewrite StrFacts.substring_0.
  replace (String.length name + 1) with (String.length (name ++ "=")).
  - apply StrFacts.take_eqb_prefix.
  - now rewrite StrFacts.length_append.
Qed.

(** The loop returns the decoded remainder of the first entry that passes
    the test. *)
Lemma getCookie_loop_find (name : string) (cookies : list string) :
  getCookie_loop decodeURIComponent name cookies =
  match find (fun e => String.prefix (name ++ "=") e) (map Str.trim cookies) with
  | Some e =>
      v <-- decodeURIComponent (Str.substring_from e (String.length name + 1)) ;
      Normal (Some v)
  | None => Normal None
  end.
Proof.
  induction cookies as [|c rest IH]; simpl; [reflexivity|].
  rewrite cookie_matches_prefix.
  destruct (String.prefix (name ++ "=") (Str.trim c)); [reflexivity | exact IH].
Qed.

Lemma first_cookie_empty (name : string) : first_cookie "" name = None.
Proof.
  unfold first_cookie, cookie_entries. simpl.
  destruct name; reflexivity.
Qed.

(** The function as a whole, the guard on the empty string included. *)
Lemma getCookie_find (document_cookie name : string) :
  getCookie decodeURIComponent document_cookie name =
  match first_cookie document_cookie name with
  | Some e =>
      v <-- decodeURIComponent (Str.substring_from e (String.length name + 1)) ;
      Normal (Some v)
  | None => Normal None
  end.
Proof.
  unfold getCookie. destruct (document_cookie =? "")%string eqn:E; simpl.
  - apply String.eqb_eq in E. subst. now rewrite first_cookie_empty.
  - apply getCookie_loop_find.
Qed.

(** An entry whose cookie name is [name] followed by more characters does
    not pass the test for [name]. *)
Lemma longer_name_no_match (name more value : string) (c : ascii) :
  Str.mem "=" (String c more) = false ->
  cookie_matches name (name ++ String c more ++ "=" ++ value) = false.
Proof.
  intros Hmem. rewrite cookie_matches_prefix.
  apply StrFacts.prefix_mismatch.
  cbn [Str.mem] in Hmem. apply orb_false_elim in Hmem as [Hc _].
  apply Ascii.eqb_neq in Hc. exact Hc.
Qed.

End CookieFacts.

(** C10. [getCookie] returns the URI-decoded value of the first entry of the
    cookie string (split at [;], each entry trimmed) that starts with [name]
    followed by [=]; it returns [null] when the cookie string is empty and
    when no entry starts so; and an entry whose cookie name is [name] with
    further characters after it fails the test, so it is never the one
    returned. When [decodeURIComponent] throws on the value found, so does
    [getCookie]. *)
Theorem getCookie_first_match
        (decodeURIComponent : string -> Completion string)
        (document_cookie name : string) :
  getCookie decodeURIComponent document_cookie name =
    match first_cookie document_cookie name with
    | Some e =>
        v <-- decodeURIComponent (Str.substring_from e (String.length name + 1)) ;
        Normal (Some v)
    | None => Normal None
    end
  /\ getCookie decodeURIComponent "" name = Normal None
  /\ (first_cookie document_cookie name = None ->
      getCookie decodeURIComponent document_cookie name = Normal None)
  /\ (forall (c : ascii) (more value : string),
        Str.mem "=" (String c more) = false ->
        cookie_matches name (name ++ String c more ++ "=" ++ value) = false
        /\ first_cookie document_cookie name
           <> Some (name ++ String c more ++ "=" ++ value)%string).
Proof.
  pose proof (getCookie_find decodeURIComponent document_cookie name) as Hmain.
  split; [exact Hmain|]. split; [reflexivity|]. split.
  - intros Hnone. now rewrite Hmain, Hnone.
  - intros c more value Hmem.
    pose proof (longer_name_no_match name more value c Hmem) as Hno.
    split; [exact Hno|].
    intros Hfind. unfold first_cookie in Hfind.
    apply find_some in Hfind as [_ Hp].
    rewrite <- cookie_matches_prefix in Hp. congruence.
Qed.

(** The token cookie is found behind a cookie whose name merely starts with
    [csrftoken]. *)
Lemma getCookie_first_match_witness :
  getCookie (fun s => Normal s) "a=1; csrftoken2=zz; csrftoken=abc" "csrftoken"
    = Normal (Some "abc")
  /\ cookie_matches "csrftoken" "csrftoken2=zz" = false.
Proof.
  destruct (getCookie_first_match (fun s => Normal s)
              "a=1; csrftoken2=zz; csrftoken=abc" "csrftoken")
    as (Hmain & _ & _ & Hlong).
  split.
  - rewrite Hmain. reflexivity.
  - apply (Hlong "2"%char "" "zz"). reflexivity.
Defined.

(* ================================================================== *)
(** * Facts about the document tree *)
(* ================================================================== *)

Module DomFacts.
Import Dom.

(** Induction on an element with the hypothesis for all its children. *)
Lemma Element_ind' (P : Element -> Prop) :
  (forall t a v c cs, Forall P cs -> P (El t a v c cs)) ->
  forall e, P e.
Proof.
  intros H. fix IH 1. intros [t a v c cs]. apply H.
  induction cs as [|x cs IHcs]; constructor; [apply IH | exact IHcs].
Qed.

Lemma descendants_siblings (e : Element) :
  descendants e = siblings 0 (children e).
Proof.
  destruct e as [t a v c cs]. simpl. generalize 0.
  induction cs as [|x cs IH]; intros i; simpl; [reflexivity|].
  now rewrite IH.
Qed.

(** ** A listed path leads to the listed node *)

Lemma siblings_get (cs : list Element) :
  Forall (fun c => forall p x, In (p, x) (descendants c) -> get p c = Some x) cs ->
  forall i p x,
    In (p, x) (siblings i cs) ->
    exists j c p', p = (i + j) :: p' /\ nth_error cs j = Some c /\ get p' c = Some x.
Proof.
  induction 1 as [|c cs Hc _ IH]; intros i p x Hin; simpl in Hin; [contradiction|].
  destruct Hin as [Heq | Hin].
  - inversion Heq; subst. exists 0, x, []. rewrite Nat.add_0_r. now repeat split.
  - apply in_app_or in Hin as [Hin | Hin].
    + apply in_map_iff in Hin as [[p' x'] [Heq Hin]]. inversion Heq; subst.
      exists 0, c, p'. rewrite Nat.add_0_r. repeat split. now apply Hc.
    + apply IH in Hin as (j & c' & p' & -> & Hnth & Hget).
      exists (S j), c', p'. rewrite Nat.add_succ_r. now repeat split.
Qed.

Lemma descendants_get (e : Element) :
  forall p x, In (p, x) (descendants e) -> get p e = Some x.
Proof.
  induction e as [t a v c cs IH] using Element_ind'. intros p x Hin.
  rewrite descendants_siblings in Hin. simpl in Hin.
  apply (siblings_get cs IH) in Hin as (j & c' & p' & -> & Hnth & Hget).
  simpl. now rewrite Hnth.
Qed.

Lemma inclusive_get (e : Element) (p : path) (x : Element) :
  In (p, x) (inclusive e) -> get p e = Some x.
Proof.
  intros [Heq | Hin]; [now inversion Heq | now apply descendants_get].
Qed.

Lemma hd_error_map_fst {A B} (l : list (A * B)) (a : A) :
  hd_error (map fst l) = Some a -> exists b, In (a, b) l.
Proof.
  destruct l as [|[a' b] l]; simpl; [discriminate|].
  intros [= ->]. exists b. now left.
Qed.

(** A node found by [document.querySelector] is in the tree and matches. *)
Lemma document_querySelector_get (sel : Selector) (d : Element) (p : path) :
  document_querySelector sel d = Some p ->
  exists e, get p d = Some e /\ matches sel e = true.
Proof.
  unfold document_querySelector, document_querySelectorAll. intros H.
  apply hd_error_map_fst in H as [e Hin].
  apply filter_In in Hin as [Hin Hm]. exists e. split; [|exact Hm].
  now apply inclusive_get.
Qed.

(** ** Writing a value *)

Lemma nth_error_update_nth_eq {A} (f : A -> A) (l : list A) (i : nat) :
  nth_error (update_nth i f l) i = option_map f (nth_error l i).
Proof.
  revert i; induction l as [|x l IH]; intros [|i]; simpl; auto.
Qed.

Lemma nth_error_update_nth_neq {A} (f : A -> A) (l : list A) (i j : nat) :
  i <> j -> nth_error (update_nth i f l) j = nth_error l j.
Proof.
  revert i j; induction l as [|x l IH]; intros [|i] [|j] Hne; simpl; auto.
  congruence.
Qed.

Lemma children_set_value_cons (i : nat) (p : path) (v : string) (e : Element) :
  children (set_value (i :: p) v e) = update_nth i (set_value p v) (children e).
Proof. now destruct e. Qed.

Lemma value_set_value_cons (i : nat) (p : path) (v : string) (e : Element) :
  value (set_value (i :: p) v e) = value e.
Proof. now destruct e. Qed.

(** The node written to holds the value written. *)
Lemma value_at_set_value_same (p : path) (v : string) (d e : Element) :
  get p d = Some e -> value_at p (set_value p v d) = Some v.
Proof.
  unfold value_at. revert d; induction p as [|i p IH]; intros d Hget.
  - now destruct d.
  - cbn [get] in *. rewrite children_set_value_cons, nth_error_update_nth_eq.
    destruct (nth_error (children d) i) as [c|]; [|discriminate].
    cbn [option_map]. now apply IH.
Qed.

(** Every other node holds what it held. *)
Lemma value_at_set_value_other (p q : path) (v : string) (d : Element) :
  p <> q -> value_at q (set_value p v d) = value_at q d.
Proof.
  unfold value_at. revert q d; induction p as [|i p IH]; intros q d Hne.
  - destruct q as [|j q]; [congruence|]. now destruct d.
  - destruct q as [|j q].
    + cbn [get option_map]. now rewrite value_set_value_cons.
    + cbn [get]. rewrite children_set_value_cons.
      destruct (Nat.eq_dec i j) as [->|Hij].
      * rewrite nth_error_update_nth_eq.
        destruct (nth_error (children d) j) as [c|]; [|reflexivity].
        cbn [option_map]. apply IH. congruence.
      * now rewrite nth_error_update_nth_neq.
Qed.

(** ** Writing a value moves no node and changes no selector *)

Lemma matches_shallow (sel : Selector) (e1 e2 : Element) :
  shallow e1 = shallow e2 -> matches sel e1 = matches sel e2.
Proof.
  intros H. unfold shallow in H. inversion H as [[Ht Ha]].
  unfold matches. induction sel as [|s sel IHsel]; [reflexivity|].
  cbn [forallb]. rewrite IHsel. f_equal.
  destruct s; unfold matches_simple, classList, getAttribute; now rewrite ?Ht, ?Ha.
Qed.

Lemma shallow_set_value (p : path) (v : string) (e : Element) :
  shallow (set_value p v e) = shallow e.
Proof. destruct p, e; reflexivity. Qed.

Lemma sh_shift (i : nat) (l : list (path * Element)) :
  map sh (map (fun pe => (i :: fst pe, snd pe)) l)
  = map (fun ps => (i :: fst ps, snd ps)) (map sh l).
Proof. rewrite !map_map. reflexivity. Qed.

Lemma siblings_update (f : Element -> Element) (cs : list Element) :
  Forall (fun c => shallow (f c) = shallow c
                   /\ map sh (descendants (f c)) = map sh (descendants c)) cs ->
  forall i j, map sh (siblings j (update_nth i f cs)) = map sh (siblings j cs).
Proof.
  induction 1 as [|c cs [Hs Hd] _ IH]; intros i j; [now destruct i|].
  destruct i as [|i]; simpl.
  - unfold sh at 1 3. simpl. rewrite Hs. f_equal.
    rewrite !map_app, !sh_shift, Hd. reflexivity.
  - f_equal. rewrite !map_app. f_equal. apply IH.
Qed.

Lemma descendants_set_value (v : string) (e : Element) :
  forall p, map sh (descendants (set_value p v e)) = map sh (descendants e).
Proof.
  induction e as [t a x c cs IH] using Element_ind'. intros [|i p].
  - reflexivity.
  - rewrite !descendants_siblings, children_set_value_cons. simpl.
    apply siblings_update.
    eapply Forall_impl; [|exact IH]. intros c' Hc'. split.
    + apply shallow_set_value.
    + apply Hc'.
Qed.

Lemma filter_sh (sel : Selector) (l1 l2 : list (path * Element)) :
  map sh l1 = map sh l2 ->
  map fst (filter (fun pe => matches sel (snd pe)) l1)
  = map fst (filter (fun pe => matches sel (snd pe)) l2).
Proof.
  revert l2; induction l1 as [|[p1 e1] l1 IH]; intros [|[p2 e2] l2] H;
    try discriminate; [reflexivity|].
  simpl in H. injection H as Hp Ht Ha Hl. simpl.
  rewrite (matches_shallow sel e1 e2) by (unfold shallow; congruence).
  destruct (matches sel e2); simpl; [f_equal; [exact Hp|]|]; now apply IH.
Qed.

(** [document.querySelector] finds the same node after a write. *)
Lemma document_querySelector_set_value
      (sel : Selector) (p : path) (v : string) (d : Element) :
  document_querySelector sel (set_value p v d) = document_querySelector sel d.
Proof.
  unfold document_querySelector, document_querySelectorAll, inclusive.
  f_equal. apply filter_sh. simpl. f_equal.
  - unfold sh. simpl. now rewrite shallow_set_value.
  - apply descendants_set_value.
Qed.

Lemma document_querySelector_assign
      (sel : Selector) (node : option path) (v : string) (d : Element) :
  document_querySelector sel (assign_value node v d) = document_querySelector sel d.
Proof.
  destruct node; [apply document_querySelector_set_value | reflexivity].
Qed.

End DomFacts.

(* ================================================================== *)
(** * The two weight controls *)
(* ================================================================== *)

Section Pesos.
Import Dom DomFacts.

(** After [node.value = v] on a node found in the tree, that node holds
    [v] and a node that held [v] still holds it. *)
Lemma set_value_keeps (p q : path) (v : string) (d e : Element) :
  get p d = Some e ->
  value_at q d = Some v ->
  value_at q (set_value p v d) = Some v.
Proof.
  intros Hget Hq. destruct (list_eq_dec Nat.eq_dec p q) as [->|Hne].
  - now apply value_at_set_value_same with e.
  - now rewrite value_at_set_value_other.
Qed.

End Pesos.

(** C8, as the code has it. When [`.restriccion-blanda-peso[data-index="i"]`]
    and [`.restriccion-blanda-peso-range[data-index="i"]`] select a number
    field and a slider, which are the first in the document with that
    index: [actualizarPeso(i, v)] gives [v] to that number field and
    [sincronizarPeso(i, v)] gives [v] to that slider; the control then
    holds what the host makes of [v] for it, and every other node keeps its
    value. When the other control holds [v], both hold [v] after the call
    exactly when the host stores [v] in the target as it is written.
    Neither call moves a node: the same two nodes are selected
    afterwards. *)
Theorem pesos_sincronizados
        (sanitize : Dom.Element -> string -> string)
        (index : nat) (v : string) (d : Dom.Element) (pn pr : Dom.path) :
  Dom.document_querySelector (Sel.peso_de index) d = Some pn ->
  Dom.document_querySelector (Sel.peso_range_de index) d = Some pr ->
  let d1 := RestriccionesBlandas.actualizarPeso sanitize index v d in
  let d2 := RestriccionesBlandas.sincronizarPeso sanitize index v d in
  exists xn xr,
    Dom.get pn d = Some xn
    /\ Dom.get pr d = Some xr
    /\ Dom.value_at pn d1 = Some (sanitize xn v)
    /\ Dom.value_at pr d2 = Some (sanitize xr v)
    /\ (forall q, q <> pn -> Dom.value_at q d1 = Dom.value_at q d)
    /\ (forall q, q <> pr -> Dom.value_at q d2 = Dom.value_at q d)
    /\ (Dom.value_at pr d = Some v ->
        (Dom.value_at pr d1 = Some v /\ Dom.value_at pn d1 = Some v
         <-> sanitize xn v = v))
    /\ (Dom.value_at pn d = Some v ->
        (Dom.value_at pn d2 = Some v /\ Dom.value_at pr d2 = Some v
         <-> sanitize xr v = v))
    /\ (Dom.document_querySelector (Sel.peso_de index) d1 = Some pn
        /\ Dom.document_querySelector (Sel.peso_range_de index) d1 = Some pr
        /\ Dom.document_querySelector (Sel.peso_de index) d2 = Some pn
        /\ Dom.document_querySelector (Sel.peso_range_de index) d2 = Some pr).
Proof.
  intros Hn Hr d1 d2. subst d1 d2.
  unfold RestriccionesBlandas.actualizarPeso, RestriccionesBlandas.sincronizarPeso,
    RestriccionesBlandas.assign_control.
  rewrite Hn, Hr.
  destruct (DomFacts.document_querySelector_get _ _ _ Hn) as (xn & Hgn & _).
  destruct (DomFacts.document_querySelector_get _ _ _ Hr) as (xr & Hgr & _).
  rewrite Hgn, Hgr. exists xn, xr.
  assert (Hsn : forall w, Dom.value_at pn (Dom.set_value pn w d) = Some w)
    by (intros w; now apply DomFacts.value_at_set_value_same with xn).
  assert (Hsr : forall w, Dom.value_at pr (Dom.set_value pr w d) = Some w)
    by (intros w; now apply DomFacts.value_at_set_value_same with xr).
  split; [reflexivity|]. split; [reflexivity|].
  split; [apply Hsn|]. split; [apply Hsr|].
  split; [intros q Hq; apply DomFacts.value_at_set_value_other; congruence|].
  split; [intros q Hq; apply DomFacts.value_at_set_value_other; congruence|].
  split; [|split].
  - intros Hv. split.
    + intros [_ H]. rewrite Hsn in H. now injection H.
    + intros Heq. rewrite Heq. split; [|apply Hsn].
      now apply set_value_keeps with xn.
  - intros Hv. split.
    + intros [_ H]. rewrite Hsr in H. now injection H.
    + intros Heq. rewrite Heq. split; [|apply Hsr].
      now apply set_value_keeps with xr.
  - rewrite !DomFacts.document_querySelector_set_value. now repeat split.
Qed.

(** With the controls of the host: the slider of card 0 is moved to [7.5]
    while the number field shows [1.0], and [7.5] is typed into the number
    field while the slider shows [1]. Both controls show [7.5]
    afterwards. *)
Lemma pesos_sincronizados_witness :
  (Dom.value_at Ejemplos.ruta_rango
     (RestriccionesBlandas.actualizarPeso Host.sanitize 0 "7.5"
        (Ejemplos.con_blanda "7.5" "1.0"))
     = Some "7.5"
   /\ Dom.value_at Ejemplos.ruta_peso
        (RestriccionesBlandas.actualizarPeso Host.sanitize 0 "7.5"
           (Ejemplos.con_blanda "7.5" "1.0"))
        = Some "7.5")
  /\ (Dom.value_at Ejemplos.ruta_peso
        (RestriccionesBlandas.sincronizarPeso Host.sanitize 0 "7.5"
           (Ejemplos.con_blanda "1" "7.5"))
        = Some "7.5"
      /\ Dom.value_at Ejemplos.ruta_rango
           (RestriccionesBlandas.sincronizarPeso Host.sanitize 0 "7.5"
              (Ejemplos.con_blanda "1" "7.5"))
           = Some "7.5").
Proof.
  split.
  - destruct (pesos_sincronizados Host.sanitize 0 "7.5"
                (Ejemplos.con_blanda "7.5" "1.0")
                Ejemplos.ruta_peso Ejemplos.ruta_rango eq_refl eq_refl)
      as (xn & xr & Hgn & _ & _ & _ & _ & _ & H & _ & _).
    injection Hgn as <-. apply H; reflexivity.
  - destruct (pesos_sincronizados Host.sanitize 0 "7.5"
                (Ejemplos.con_blanda "1" "7.5")
                Ejemplos.ruta_peso Ejemplos.ruta_rango eq_refl eq_refl)
      as (xn & xr & _ & Hgr & _ & _ & _ & _ & _ & H & _).
    injection Hgr as <-. apply H; reflexivity.
Defined.

(** What the host makes of some texts given to the slider and to the
    number field of a soft card. *)
Example controles_del_host :
  let rango := Markup.control "input"
                 [("type", "range"); ("min", "0"); ("max", "10"); ("step", "0.5")]
                 "1" false in
  let numero := Markup.control "input"
                  [("type", "number"); ("min", "0"); ("max", "10"); ("step", "0.5")]
                  "1.0" false in
  map (Host.sanitize rango) ["50"; "-3"; "7.3"; "7.25"; "7.5"; "1.0"; "abc"; ""]
  = ["10"; "0"; "7.5"; "7.5"; "7.5"; "1"; "5"; "5"]
  /\ map (Host.sanitize numero) ["50"; "-3"; "7.3"; "1.0"; "abc"; ""]
     = ["50"; "-3"; "7.3"; "1.0"; ""; ""].
Proof.
  split; reflexivity.
Qed.

(** Whatever a slider holds, a number field keeps as it is written. *)
Module HostFacts.
Import Host.

Lemma digit_ascii (k : nat) :
  k <= 9 -> Number.digit (ascii_of_nat (48 + k)) = Some (Z.of_nat k).
Proof.
  intros H. do 10 (destruct k as [|k]; [reflexivity|]). lia.
Qed.

Lemma append_empty (s : string) : (s ++ "")%string = s.
Proof. induction s as [|c s IH]; cbn; [reflexivity | now rewrite IH]. Qed.

(** [Number.digits] reads a run of digits to its end. *)
Lemma digits_solo (s rest : string) :
  solo_digitos s = true ->
  match rest with
  | EmptyString => True
  | String c _ => Number.digit c = None
  end ->
  forall acc n,
    exists v, Number.digits acc n (s ++ rest) = (v, n + String.length s, rest).
Proof.
  intros Hs Hrest. induction s as [|c s IH]; intros acc n.
  - exists acc. cbn [append String.length]. rewrite Nat.add_0_r.
    destruct rest as [|c r]; [reflexivity|]. cbn [Number.digits].
    now rewrite Hrest.
  - cbn [solo_digitos] in Hs. cbn [append Number.digits String.length].
    destruct (Number.digit c) as [dg|]; [|discriminate].
    destruct (IH Hs (10 * acc + dg)%Z (S n)) as (v & Hv).
    exists v. rewrite Hv. now rewrite Nat.add_succ_r.
Qed.

Lemma string_of_uint_solo (d : Decimal.uint) :
  solo_digitos (NilEmpty.string_of_uint d) = true.
Proof. induction d; cbn; assumption || reflexivity. Qed.

Lemma dec_solo (n : nat) :
  solo_digitos (Markup.dec n) = true /\ Markup.dec n <> "".
Proof.
  unfold Markup.dec, NilZero.string_of_uint.
  destruct (Nat.to_uint n) as [|u|u|u|u|u|u|u|u|u|u];
    [split; [reflexivity | discriminate] | ..];
    (split; [|discriminate]);
    cbn [NilEmpty.string_of_uint solo_digitos]; apply string_of_uint_solo.
Qed.

Lemma decimales_solo (fuel : nat) :
  forall r d, (0 <= r < d)%Z -> solo_digitos (decimales fuel r d) = true.
Proof.
  induction fuel as [|fuel IH]; intros r d Hr; cbn [decimales]; [reflexivity|].
  destruct (Z.eqb r 0); [reflexivity|]. cbn [solo_digitos].
  assert (Hq : (0 <= 10 * r / d < 10)%Z).
  { split; [apply Z.div_pos; lia | apply Z.div_lt_upper_bound; lia]. }
  rewrite digit_ascii by lia.
  apply IH. apply Z.mod_pos_bound. lia.
Qed.

(** A number is printed as a valid floating-point number. *)
Lemma representacion_valida (q : Q) :
  valid_floating_point_number (representacion q) = true.
Proof.
  unfold representacion.
  set (N := Markup.dec _). set (F := decimales _ _ _).
  assert (HN : solo_digitos N = true /\ N <> "") by apply dec_solo.
  assert (HF : solo_digitos F = true).
  { apply decimales_solo. apply Z.mod_pos_bound. reflexivity. }
  destruct HN as [HN HN0].
  set (cola := match F with EmptyString => _ | String _ _ => _ end).
  assert (Hcola : valid_floating_point_number (N ++ cola) = true).
  { unfold valid_floating_point_number.
    destruct N as [|c N'] eqn:EN; [congruence|].
    assert (Hc : Ascii.eqb c "-" = false).
    { cbn [solo_digitos] in HN. destruct (Ascii.eqb_spec c "-") as [->|]; [|reflexivity].
      discriminate HN. }
    cbn [append]. rewrite Hc. change (String c (N' ++ cola)) with (String c N' ++ cola)%string.
    rewrite <- EN in *.
    assert (Hrest : match cola with
                    | EmptyString => True
                    | String c' _ => Number.digit c' = None
                    end) by (subst cola; destruct F; [exact I | reflexivity]).
    destruct (digits_solo N cola HN Hrest 0%Z 0) as (v & Hv). rewrite Hv.
    assert (HlenN : Nat.eqb (0 + String.length N) 0 = false).
    { apply Nat.eqb_neq. rewrite EN. cbn. lia. }
    subst cola. destruct F as [|f F'] eqn:EF.
    - rewrite HlenN. reflexivity.
    - cbn [append]. rewrite <- EF in *.
      destruct (digits_solo F "" HF I 0%Z 0) as (w & Hw).
      rewrite append_empty in Hw. rewrite Hw.
      assert (HlenF : Nat.eqb (0 + String.length F) 0 = false).
      { apply Nat.eqb_neq. rewrite EF. cbn. lia. }
      rewrite HlenF. reflexivity. }
  destruct (Z.ltb (Qnum q) 0).
  - unfold valid_floating_point_number in Hcola |- *.
    destruct N as [|c N']; [congruence|].
    assert (Hc : Ascii.eqb c "-" = false).
    { cbn [solo_digitos] in HN. destruct (Ascii.eqb_spec c "-") as [->|]; [|reflexivity].
      discriminate HN. }
    cbn [append] in Hcola |- *. rewrite Hc in Hcola. rewrite Ascii.eqb_refl.
    exact Hcola.
  - exact Hcola.
Qed.

(** The number field of a card always takes the position of a slider. *)
Lemma rango_a_numero (xr xn : Dom.Element) (t : string) :
  Dom.type xr = "range" -> Dom.type xn = "number" ->
  sanitize xn (sanitize xr t) = sanitize xr t.
Proof.
  intros Hr Hn. unfold sanitize. rewrite Hr, Hn. cbn [String.eqb Ascii.eqb Bool.eqb].
  unfold numerico, rango. now rewrite representacion_valida.
Qed.

End HostFacts.

(** C8, as stated, fails in two ways. [50] typed into the number field of
    card 0 goes to the slider, which holds [10] afterwards while the number
    field holds [50]. And after two soft cards were added, the first was
    removed and a third was added, both cards carry the index 1: moving the
    slider of the second card to [7.5] writes [7.5] into the number field
    of the first card, and the number field of the second card still shows
    [1.0]. *)
Lemma pesos_desincronizados :
  (let d := RestriccionesBlandas.sincronizarPeso Host.sanitize 0 "50"
              (Ejemplos.con_blanda "1" "50") in
   Dom.value_at Ejemplos.ruta_peso d = Some "50"
   /\ Dom.value_at Ejemplos.ruta_rango d = Some "10")
  /\ (let d0 := Editor.pagina
                  (Editor.agregarRestriccion Editor.Blandas
                     (Taller.tras_borrar Editor.Blandas)) in
      let d := RestriccionesBlandas.actualizarPeso Host.sanitize 1 "7.5"
                 (Host.escribir [1; 2; 1; 1; 1; 0; 1; 0; 1] "7.5" d0) in
      Editor.indices Editor.Blandas d0 = [Some "1"; Some "1"]
      /\ Dom.value_at [1; 2; 1; 1; 1; 0; 1; 0; 1] d = Some "7.5"
      /\ Dom.value_at [1; 2; 1; 1; 1; 0; 1; 0; 2] d = Some "1.0"
      /\ Dom.value_at [1; 2; 1; 0; 1; 0; 1; 0; 2] d = Some "7.5").
Proof.
  split; [split; reflexivity|].
  cbv zeta. split; [reflexivity|]. split; [reflexivity|].
  split; reflexivity.
Qed.

(* ================================================================== *)
(** * Facts about [serializarRestricciones] *)
(* ================================================================== *)

Module SerFacts.
Import Dom.

Lemma tipo_de_none_dura (duras0 : list Dura.t) (card : Element) :
  tipo_de Sel.restriccion_tipo_select card = None ->
  dura_body duras0 card = Normal duras0.
Proof.
  unfold tipo_de, dura_body.
  destruct (querySelector Sel.restriccion_tipo_select card) as [s|]; [|reflexivity].
  destruct (value s =? "")%string; [reflexivity | discriminate].
Qed.

Lemma tipo_de_none_blanda (blandas0 : list Blanda.t) (card : Element) :
  tipo_de Sel.restriccion_blanda_tipo_select card = None ->
  blanda_body blandas0 card = Normal blandas0.
Proof.
  unfold tipo_de, blanda_body.
  destruct (querySelector Sel.restriccion_blanda_tipo_select card) as [s|];
    [|reflexivity].
  destruct (value s =? "")%string; [reflexivity | discriminate].
Qed.

(** A card with a type adds exactly one entry, and the entry describes
    the card. *)
Lemma dura_body_some (duras0 r : list Dura.t) (card : Element) (n : string) :
  tipo_de Sel.restriccion_tipo_select card = Some n ->
  dura_body duras0 card = Normal r ->
  exists e, r = duras0 ++ [e] /\ dura_de card e.
Proof.
  unfold tipo_de, dura_body, dura_de, tipo_de.
  destruct (querySelector Sel.restriccion_tipo_select card) as [s|]; [|discriminate].
  destruct (value s =? "")%string; [discriminate|]. intros _.
  destruct (querySelector Sel.checkbox card) as [chk|]; simpl; [|discriminate].
  intros [= <-]. eexists. split; [reflexivity|]. simpl.
  repeat split. exists chk. now split.
Qed.

Lemma blanda_body_some (blandas0 r : list Blanda.t) (card : Element) (n : string) :
  tipo_de Sel.restriccion_blanda_tipo_select card = Some n ->
  blanda_body blandas0 card = Normal r ->
  exists b, r = blandas0 ++ [b] /\ blanda_de card b.
Proof.
  unfold tipo_de, blanda_body, blanda_de, tipo_de.
  destruct (querySelector Sel.restriccion_blanda_tipo_select card) as [s|];
    [|discriminate].
  destruct (value s =? "")%string; [discriminate|]. intros _.
  destruct (querySelector Sel.checkbox card) as [chk|]; simpl; [|discriminate].
  destruct (querySelector Sel.restriccion_blanda_peso card) as [pi|]; simpl;
    [|discriminate].
  intros [= <-]. eexists. split; [reflexivity|]. simpl.
  repeat split.
  - exists chk. now split.
  - exists pi. now split.
Qed.

(** The first loop: one entry per card with a type, in the cards' order. *)
Lemma forEach_dura (cs : list Element) :
  forall acc r,
    forEach dura_body cs acc = Normal r ->
    exists es, r = acc ++ es
               /\ Forall2 dura_de (filter (con_tipo Sel.restriccion_tipo_select) cs) es.
Proof.
  induction cs as [|card cs IH]; intros acc r H; simpl in H.
  - injection H as <-. exists []. now rewrite app_nil_r.
  - destruct (dura_body acc card) as [acc'|] eqn:Hb; simpl in H; [|discriminate].
    apply IH in H as (es & -> & HF). simpl. unfold con_tipo at 1.
    destruct (tipo_de Sel.restriccion_tipo_select card) as [n|] eqn:Ht.
    + destruct (dura_body_some acc acc' card n Ht Hb) as (e & -> & He).
      exists (e :: es). rewrite <- app_assoc. split; [reflexivity|].
      now constructor.
    + rewrite (tipo_de_none_dura acc card Ht) in Hb. injection Hb as <-.
      now exists es.
Qed.

Lemma forEach_blanda (cs : list Element) :
  forall acc r,
    forEach blanda_body cs acc = Normal r ->
    exists es, r = acc ++ es
               /\ Forall2 blanda_de
                    (filter (con_tipo Sel.restriccion_blanda_tipo_select) cs) es.
Proof.
  induction cs as [|card cs IH]; intros acc r H; simpl in H.
  - injection H as <-. exists []. now rewrite app_nil_r.
  - destruct (blanda_body acc card) as [acc'|] eqn:Hb; simpl in H; [|discriminate].
    apply IH in H as (es & -> & HF). simpl. unfold con_tipo at 1.
    destruct (tipo_de Sel.restriccion_blanda_tipo_select card) as [n|] eqn:Ht.
    + destruct (blanda_body_some acc acc' card n Ht Hb) as (e & -> & He).
      exists (e :: es). rewrite <- app_assoc. split; [reflexivity|].
      now constructor.
    + rewrite (tipo_de_none_blanda acc card Ht) in Hb. injection Hb as <-.
      now exists es.
Qed.

(** Both loops at once. *)
Lemma serializar_entries (d : Element) (r : Restricciones) :
  serializarRestricciones d = Normal r ->
  Forall2 dura_de
    (filter (con_tipo Sel.restriccion_tipo_select) (cards Sel.restriccion_dura d))
    (duras r)
  /\ Forall2 blanda_de
       (filter (con_tipo Sel.restriccion_blanda_tipo_select)
               (cards Sel.restriccion_blanda d))
       (blandas r).
Proof.
  unfold serializarRestricciones. intros H.
  destruct (forEach dura_body _ _) as [ds|] eqn:Hd; simpl in H; [|discriminate].
  destruct (forEach blanda_body _ _) as [bs|] eqn:Hb; simpl in H; [|discriminate].
  injection H as <-. simpl.
  apply forEach_dura in Hd as (es & -> & Hes).
  apply forEach_blanda in Hb as (bs' & -> & Hbs).
  now split.
Qed.

Lemma tipos_filter (sel : Selector) (cs : list Element) :
  tipos sel cs = tipos sel (filter (con_tipo sel) cs).
Proof.
  induction cs as [|c cs IH]; simpl; [reflexivity|]. unfold con_tipo at 1.
  destruct (tipo_de sel c) as [n|] eqn:Ht; simpl; [rewrite Ht|]; now rewrite IH.
Qed.

Lemma Forall2_names {E} (R : Element -> E -> Prop) (nm : E -> string)
      (sel : Selector) (cs : list Element) (es : list E) :
  (forall c e, R c e -> tipo_de sel c = Some (nm e)) ->
  Forall2 R cs es -> map nm es = tipos sel cs.
Proof.
  intros HR. induction 1 as [|c e cs es Hce _ IH]; simpl; [reflexivity|].
  rewrite (HR c e Hce). simpl. now rewrite IH.
Qed.

Lemma Forall2_in_r {A B} (R : A -> B -> Prop) (l1 : list A) (l2 : list B) :
  Forall2 R l1 l2 -> forall b, In b l2 -> exists a, In a l1 /\ R a b.
Proof.
  induction 1 as [|a b l1 l2 Hab _ IH]; intros b' Hin; [contradiction|].
  destruct Hin as [<- | Hin].
  - exists a. split; [now left | exact Hab].
  - destruct (IH b' Hin) as (a' & Ha' & HR). exists a'. split; [now right | exact HR].
Qed.

(** ** When the serialization returns

    The only way out of a loop other than its end is the [TypeError] of
    reading [checked] or [value] from a missing control of a card that has a
    type. *)

Lemma forEach_returns {A B} (body : B -> A -> Completion B) (xs : list A) :
  (forall x, In x xs -> forall acc, exists acc', body acc x = Normal acc') ->
  forall acc, exists r, forEach body xs acc = Normal r.
Proof.
  induction xs as [|x xs IH]; intros Hbody acc; simpl.
  - now exists acc.
  - destruct (Hbody x (or_introl eq_refl) acc) as [acc' ->]. simpl.
    apply IH. intros y Hy. apply Hbody. now right.
Qed.

Lemma serializar_returns (d : Element) :
  (forall card, In card (cards Sel.restriccion_dura d) ->
                con_tipo Sel.restriccion_tipo_select card = true ->
                querySelector Sel.checkbox card <> None) ->
  (forall card, In card (cards Sel.restriccion_blanda d) ->
                con_tipo Sel.restriccion_blanda_tipo_select card = true ->
                querySelector Sel.checkbox card <> None
                /\ querySelector Sel.restriccion_blanda_peso card <> None) ->
  exists r, serializarRestricciones d = Normal r.
Proof.
  intros Hd Hb. unfold serializarRestricciones.
  destruct (forEach_returns dura_body (cards Sel.restriccion_dura d)) with (acc := @nil Dura.t)
    as [ds ->].
  { intros card Hin acc. specialize (Hd card Hin).
    unfold con_tipo, tipo_de in Hd. unfold dura_body.
    destruct (querySelector Sel.restriccion_tipo_select card) as [s|]; [|now eexists].
    destruct (value s =? "")%string; [now eexists|].
    destruct (querySelector Sel.checkbox card); [now eexists | now destruct Hd]. }
  simpl.
  destruct (forEach_returns blanda_body (cards Sel.restriccion_blanda d))
    with (acc := @nil Blanda.t) as [bs ->].
  { intros card Hin acc. specialize (Hb card Hin).
    unfold con_tipo, tipo_de in Hb. unfold blanda_body.
    destruct (querySelector Sel.restriccion_blanda_tipo_select card) as [s|];
      [|now eexists].
    destruct (value s =? "")%string; [now eexists|].
    destruct (Hb eq_refl) as [Hc Hp].
    destruct (querySelector Sel.checkbox card); [|now destruct Hc].
    destruct (querySelector Sel.restriccion_blanda_peso card); [|now destruct Hp].
    now eexists. }
  simpl. now eexists.
Qed.

(** ** The parameter object *)

Lemma get_set_same (k : string) (v : JsVal) (o : list (string * JsVal)) :
  Obj.get k (Obj.set k v o) = Some v.
Proof.
  induction o as [|[k' v'] o IH]; simpl.
  - now rewrite String.eqb_refl.
  - destruct (k' =? k)%string eqn:E; simpl.
    + now rewrite String.eqb_refl.
    + now rewrite E.
Qed.

Lemma get_set_other (k k0 : string) (v : JsVal) (o : list (string * JsVal)) :
  k0 <> k -> Obj.get k (Obj.set k0 v o) = Obj.get k o.
Proof.
  intros Hne. apply String.eqb_neq in Hne.
  induction o as [|[k' v'] o IH]; simpl.
  - now rewrite Hne.
  - destruct (k' =? k0)%string eqn:E; simpl.
    + apply String.eqb_eq in E. subst k'. now rewrite Hne.
    + destruct (k' =? k)%string; [reflexivity | exact IH].
Qed.

(** A key of the object is the [paramName] of some field, and its value
    is that of the last such field. *)
Lemma get_fold (k : string) (inputs : list Element) (o : list (string * JsVal)) :
  Obj.get k
    (fold_left (fun parametros input =>
                  Obj.set (paramName input) (valor_de input) parametros)
               inputs o)
  = match find (fun input => (paramName input =? k)%string) (rev inputs) with
    | Some input => Some (valor_de input)
    | None => Obj.get k o
    end.
Proof.
  revert o. induction inputs as [|i inputs IH] using rev_ind; intros o.
  - reflexivity.
  - rewrite fold_left_app, rev_app_distr. simpl.
    destruct (paramName i =? k)%string eqn:E.
    + apply String.eqb_eq in E. subst k. apply get_set_same.
    + apply String.eqb_neq in E. rewrite get_set_other by exact E. apply IH.
Qed.

Lemma recoger_parametros_get (k : string) (card : Element) :
  Obj.get k (recoger_parametros card)
  = option_map valor_de
      (find (fun input => (paramName input =? k)%string)
            (rev (querySelectorAll Sel.restriccion_dura_param card))).
Proof.
  unfold recoger_parametros.
  change (fun parametros input =>
            Obj.set (paramName input)
              (if (type input =? "number")%string
               then VNum (Number.parseFloat (value input))
               else VStr (value input)) parametros)
    with (fun parametros input =>
            Obj.set (paramName input) (valor_de input) parametros).
  rewrite get_fold.
  now destruct (find _ _).
Qed.

End SerFacts.

(* ================================================================== *)
(** * What reaches the payload *)
(* ================================================================== *)

(** C9. A card whose type select is missing or holds the empty value adds
    nothing: the loop body returns the array it was given, for hard and for
    soft cards, whatever else the card contains. So when
    [serializarRestricciones] returns, the names in [duras] and in [blandas]
    are the types of the cards that have one, in document order, one entry
    per such card. *)
Theorem sin_tipo_excluida (d : Dom.Element) (r : Restricciones) :
  serializarRestricciones d = Normal r ->
  map Dura.nombre (duras r)
    = tipos Sel.restriccion_tipo_select (cards Sel.restriccion_dura d)
  /\ map Blanda.nombre (blandas r)
     = tipos Sel.restriccion_blanda_tipo_select (cards Sel.restriccion_blanda d)
  /\ List.length (duras r)
     = List.length (filter (con_tipo Sel.restriccion_tipo_select)
                           (cards Sel.restriccion_dura d))
  /\ List.length (blandas r)
     = List.length (filter (con_tipo Sel.restriccion_blanda_tipo_select)
                           (cards Sel.restriccion_blanda d))
  /\ (forall card acc,
        tipo_de Sel.restriccion_tipo_select card = None ->
        dura_body acc card = Normal acc)
  /\ (forall card acc,
        tipo_de Sel.restriccion_blanda_tipo_select card = None ->
        blanda_body acc card = Normal acc).
Proof.
  intros H. destruct (SerFacts.serializar_entries d r H) as [Hd Hb].
  repeat split.
  - rewrite SerFacts.tipos_filter.
    apply (SerFacts.Forall2_names dura_de); [|exact Hd]. now intros c e (Ht & _).
  - rewrite SerFacts.tipos_filter.
    apply (SerFacts.Forall2_names blanda_de); [|exact Hb]. now intros c e (Ht & _).
  - symmetry. exact (Forall2_length Hd).
  - symmetry. exact (Forall2_length Hb).
  - intros card acc Ht. now apply SerFacts.tipo_de_none_dura.
  - intros card acc Ht. now apply SerFacts.tipo_de_none_blanda.
Qed.

(** Two cards at the placeholder and one with a type: one entry. *)
Lemma sin_tipo_excluida_witness :
  serializarRestricciones Ejemplos.con_placeholders
    = Normal (mkRestricciones [Dura.mk "cobertura_maxima" true []] [])
  /\ List.length (cards Sel.restriccion_dura Ejemplos.con_placeholders) = 2
  /\ List.length (cards Sel.restriccion_blanda Ejemplos.con_placeholders) = 1
  /\ map Dura.nombre [Dura.mk "cobertura_maxima" true []]
     = tipos Sel.restriccion_tipo_select
             (cards Sel.restriccion_dura Ejemplos.con_placeholders).
Proof.
  assert (H : serializarRestricciones Ejemplos.con_placeholders
              = Normal (mkRestricciones [Dura.mk "cobertura_maxima" true []] []))
    by reflexivity.
  split; [exact H|]. split; [reflexivity|]. split; [reflexivity|].
  exact (proj1 (sin_tipo_excluida _ _ H)).
Defined.

(** C6. A document with exactly one hard card, whose type select holds a
    non-empty value and whose switch is checked, and with no soft card,
    serializes to [{duras: [r], blandas: []}]; [r.nombre] is the selected
    value, [r.activa] is [true], and [r.parametros] maps the last segment of
    each parameter field's name to the field's value, a number for a field
    of type [number] and the text otherwise (the last field wins when two
    share a key). *)
Theorem una_dura_activa
        (d card tipoSelect activaCheck : Dom.Element) :
  cards Sel.restriccion_dura d = [card] ->
  cards Sel.restriccion_blanda d = [] ->
  Dom.querySelector Sel.restriccion_tipo_select card = Some tipoSelect ->
  Dom.value tipoSelect <> "" ->
  Dom.querySelector Sel.checkbox card = Some activaCheck ->
  Dom.checked activaCheck = true ->
  serializarRestricciones d
    = Normal (mkRestricciones
                [Dura.mk (Dom.value tipoSelect) true (recoger_parametros card)] [])
  /\ (forall k,
        Obj.get k (recoger_parametros card)
        = option_map valor_de
            (find (fun input => (paramName input =? k)%string)
                  (rev (Dom.querySelectorAll Sel.restriccion_dura_param card))))
  /\ (forall k v,
        Obj.get k (recoger_parametros card) = Some v ->
        (exists n, v = VNum n) \/ (exists s, v = VStr s)).
Proof.
  intros Hd Hb Hsel Hval Hchk Hon. split; [|split].
  - unfold serializarRestricciones. rewrite Hd, Hb. simpl.
    unfold dura_body. rewrite Hsel, Hchk.
    apply String.eqb_neq in Hval. rewrite Hval. simpl. now rewrite Hon.
  - intros k. apply SerFacts.recoger_parametros_get.
  - intros k v. rewrite SerFacts.recoger_parametros_get.
    destruct (find _ _) as [input|]; [|discriminate]. simpl. intros [= <-].
    unfold valor_de. destruct (Dom.type input =? "number")%string; eauto.
Qed.

(** The page with one [descanso_minimo] card. The key of its parameter is
    the last segment of the field name [restriccion_dura_param_0_horas_descanso]. *)
Lemma una_dura_activa_witness :
  serializarRestricciones Ejemplos.una_dura
  = Normal (mkRestricciones
              [Dura.mk "descanso_minimo" true [("descanso", VNum (Num 12))]] []).
Proof.
  pose (card := Markup.card_dura 0 "descanso_minimo" true
                  [Markup.parametro 0 "horas_descanso" "number" "12"]).
  destruct (una_dura_activa Ejemplos.una_dura card
              (Dom.El "select"
                 [("class", "form-select restriccion-tipo-select");
                  ("data-index", "0"); ("required", "")]
                 "descanso_minimo" false (Markup.options Markup.claves_duras))
              (Markup.control "input"
                 [("class", "form-check-input"); ("type", "checkbox");
                  ("checked", ""); ("data-index", "0");
                  ("name", "restriccion_dura_activa_0")] "on" true)
              eq_refl eq_refl eq_refl ltac:(discriminate) eq_refl eq_refl)
    as (H & _).
  exact H.
Defined.

(** C3, as the code has it. The entries of [blandas] are those of the soft
    cards with a type, one for each card and in the order of the document;
    an entry has the type of its card as name, and its [peso] is
    [parseFloat] of the text held by the number field of its own card,
    taken as it is. So the [peso] lies in [0, 10] exactly when that text
    reads as a number between 0 and 10. *)
Theorem peso_es_el_del_campo (d : Dom.Element) (r : Restricciones) :
  serializarRestricciones d = Normal r ->
  Forall2
    (fun card b =>
       tipo_de Sel.restriccion_blanda_tipo_select card = Some (Blanda.nombre b)
       /\ exists pesoInput,
            Dom.querySelector Sel.restriccion_blanda_peso card = Some pesoInput
            /\ Blanda.peso b = Number.parseFloat (Dom.value pesoInput)
            /\ (Number.in_0_10 (Blanda.peso b)
                <-> exists q,
                      Number.parseFloat (Dom.value pesoInput) = Num q
                      /\ (0 <= q)%Q /\ (q <= 10)%Q))
    (filter (con_tipo Sel.restriccion_blanda_tipo_select)
            (cards Sel.restriccion_blanda d))
    (blandas r).
Proof.
  intros H. destruct (SerFacts.serializar_entries d r H) as [_ Hb].
  revert Hb. apply Forall2_impl. intros card b (Ht & _ & (pesoInput & Hq & Hp) & _).
  split; [exact Ht|]. exists pesoInput. split; [exact Hq|]. split; [exact Hp|].
  rewrite Hp. unfold Number.in_0_10.
  destruct (Number.parseFloat (Dom.value pesoInput)) as [| neg | q].
  - split; [contradiction | intros (q & Hq' & _); discriminate].
  - split; [contradiction | intros (q & Hq' & _); discriminate].
  - split.
    + intros [H0 H10]. exists q. now repeat split.
    + intros (q' & [= <-] & H0 & H10). now split.
Qed.

(** Two soft cards whose number fields show [2] and [9]: the first entry
    weighs 2 and the second 9, each the weight of its own card. *)
Lemma peso_es_el_del_campo_witness :
  let d := Markup.formulario
             [Markup.card_dura 0 "cobertura_maxima" true []]
             [Markup.card_blanda 0 "preferencias_turno" "2" "2" true;
              Markup.card_blanda 1 "balanceo_carga_total" "9" "9" true] "" "" in
  serializarRestricciones d
  = Normal (mkRestricciones
              [Dura.mk "cobertura_maxima" true []]
              [Blanda.mk "preferencias_turno" true (Num 2) [];
               Blanda.mk "balanceo_carga_total" true (Num 9) []])
  /\ Forall2
       (fun card b =>
          exists pesoInput,
            Dom.querySelector Sel.restriccion_blanda_peso card = Some pesoInput
            /\ Blanda.peso b = Number.parseFloat (Dom.value pesoInput))
       (cards Sel.restriccion_blanda d)
       [Blanda.mk "preferencias_turno" true (Num 2) [];
        Blanda.mk "balanceo_carga_total" true (Num 9) []].
Proof.
  intros d.
  assert (H : serializarRestricciones d
              = Normal (mkRestricciones
                          [Dura.mk "cobertura_maxima" true []]
                          [Blanda.mk "preferencias_turno" true (Num 2) [];
                           Blanda.mk "balanceo_carga_total" true (Num 9) []]))
    by reflexivity.
  split; [exact H|].
  generalize (peso_es_el_del_campo d _ H).
  change (filter (con_tipo Sel.restriccion_blanda_tipo_select)
                 (cards Sel.restriccion_blanda d))
    with (cards Sel.restriccion_blanda d).
  apply Forall2_impl.
  intros card b (_ & pesoInput & Hq & Hp & _). now exists pesoInput.
Defined.

(** C3, as stated, fails: [50] typed into the number field of a soft card
    is passed on by [sincronizarPeso] to the slider, which keeps to its
    range, and the form is serialized with the weight 50 of the number
    field. *)
Lemma peso_fuera_de_rango :
  serializarRestricciones
    (RestriccionesBlandas.sincronizarPeso Host.sanitize 0 "50"
       (Ejemplos.con_blanda "1" "50"))
  = Normal (mkRestricciones
              [Dura.mk "cobertura_maxima" true []]
              [Blanda.mk "preferencias_turno" true (Num 50) []])
  /\ ~ Number.in_0_10 (Num 50).
Proof.
  split; [reflexivity|].
  unfold Number.in_0_10, Qle. simpl. lia.
Qed.

(* ================================================================== *)
(** * Validation and the hidden fields *)
(* ================================================================== *)

Section ValidacionFacts.
Import Dom DomFacts.

Lemma matches_id (i : string) (e : Element) :
  matches [AttrEq "id" i] e = true -> getAttribute "id" e = Some i.
Proof.
  unfold matches. simpl. destruct (getAttribute "id" e) as [x|]; [|discriminate].
  rewrite andb_true_r. intros H. apply String.eqb_eq in H. now subst.
Qed.

(** Two different ids name two different nodes. *)
Lemma ids_distinct (i1 i2 : string) (d : Element) (p1 p2 : path) :
  i1 <> i2 ->
  getElementById i1 d = Some p1 ->
  getElementById i2 d = Some p2 ->
  p1 <> p2.
Proof.
  intros Hne H1 H2 ->.
  apply document_querySelector_get in H1 as (e1 & Hg1 & Hm1).
  apply document_querySelector_get in H2 as (e2 & Hg2 & Hm2).
  rewrite Hg1 in Hg2. injection Hg2 as <-.
  apply matches_id in Hm1, Hm2. congruence.
Qed.

(** What the two assignments of [validarRestriccionesFormulario] leave in
    the document. *)
Lemma two_fields (i1 i2 s1 s2 : string) (d : Element) :
  i1 <> i2 ->
  let d2 := assign_value (getElementById i2 d) s2
              (assign_value (getElementById i1 d) s1 d) in
  (forall p, getElementById i1 d = Some p -> value_at p d2 = Some s1)
  /\ (forall p, getElementById i2 d = Some p -> value_at p d2 = Some s2)
  /\ (forall q, getElementById i1 d <> Some q ->
                getElementById i2 d <> Some q ->
                value_at q d2 = value_at q d)
  /\ getElementById i1 d2 = getElementById i1 d
  /\ getElementById i2 d2 = getElementById i2 d.
Proof.
  intros Hne d2. subst d2. repeat split.
  - intros p1 H1. rewrite H1. cbn [assign_value].
    destruct (document_querySelector_get _ _ _ H1) as (e1 & Hg1 & _).
    destruct (getElementById i2 d) as [p2|] eqn:H2; cbn [assign_value].
    + rewrite value_at_set_value_other.
      * now apply value_at_set_value_same with e1.
      * intros ->. now apply (ids_distinct i1 i2 d p1 p1).
    + now apply value_at_set_value_same with e1.
  - intros p2 H2. rewrite H2. cbn [assign_value].
    assert (H2' : getElementById i2 (assign_value (getElementById i1 d) s1 d)
                  = Some p2)
      by (unfold getElementById; now rewrite document_querySelector_assign).
    destruct (document_querySelector_get _ _ _ H2') as (e2 & Hg2 & _).
    now apply value_at_set_value_same with e2.
  - intros q Hq1 Hq2.
    destruct (getElementById i2 d) as [p2|]; cbn [assign_value];
      [rewrite value_at_set_value_other by congruence|];
      (destruct (getElementById i1 d) as [p1|]; cbn [assign_value];
       [rewrite value_at_set_value_other by congruence|]); reflexivity.
  - unfold getElementById. now rewrite !document_querySelector_assign.
  - unfold getElementById. now rewrite !document_querySelector_assign.
Qed.

End ValidacionFacts.

(** C4. Let the form serialize to [r]. If [r.duras] is empty,
    [validarRestriccionesFormulario] shows the alert and returns [false],
    and the document, the two hidden fields included, is what it was. If
    [r.duras] is not empty it returns [true]; the field with id
    [restricciones_duras_json], when the page has one, then holds
    [JSON.stringify(r.duras)], the field with id
    [restricciones_blandas_json] holds [JSON.stringify(r.blandas)], every
    other node holds what it held, and nothing else on the page changes. *)
Theorem validar_campos_ocultos
        (JSON_stringify : JsVal -> string) (pg : Page) (r : Restricciones) :
  serializarRestricciones (document pg) = Normal r ->
  (duras r = [] ->
   exists pg',
     validarRestriccionesFormulario JSON_stringify pg = Normal (false, pg')
     /\ document pg' = document pg
     /\ cookie pg' = cookie pg
     /\ alerts pg' = alerts pg ++ ["Debes añadir al menos una restricción dura"])
  /\ (duras r <> [] ->
      exists pg',
        validarRestriccionesFormulario JSON_stringify pg = Normal (true, pg')
        /\ (forall p,
              Dom.getElementById "restricciones_duras_json" (document pg) = Some p ->
              Dom.value_at p (document pg')
              = Some (JSON_stringify (VArr (map dura_to_js (duras r)))))
        /\ (forall p,
              Dom.getElementById "restricciones_blandas_json" (document pg) = Some p ->
              Dom.value_at p (document pg')
              = Some (JSON_stringify (VArr (map blanda_to_js (blandas r)))))
        /\ (forall q,
              Dom.getElementById "restricciones_duras_json" (document pg) <> Some q ->
              Dom.getElementById "restricciones_blandas_json" (document pg) <> Some q ->
              Dom.value_at q (document pg') = Dom.value_at q (document pg))
        /\ cookie pg' = cookie pg
        /\ alerts pg' = alerts pg).
Proof.
  intros Hser. unfold validarRestriccionesFormulario. rewrite Hser. simpl.
  split; intros Hd.
  - rewrite Hd. simpl. eexists. split; [reflexivity|]. now repeat split.
  - destruct (duras r) as [|x xs] eqn:E; [congruence|]. simpl.
    eexists. split; [reflexivity|].
    destruct (two_fields "restricciones_duras_json" "restricciones_blandas_json"
                (JSON_stringify (VArr (map dura_to_js (x :: xs))))
                (JSON_stringify (VArr (map blanda_to_js (blandas r))))
                (document pg) ltac:(discriminate))
      as (H1 & H2 & H3 & _).
    simpl. repeat split; assumption.
Qed.

(** With one hard card the fields are filled; with an empty form the page
    keeps its old fields. The stand-in for [JSON.stringify] prints the
    number of items only. *)
Lemma validar_campos_ocultos_witness :
  let stringify := fun v => match v with
                            | VArr items => Markup.dec (List.length items)
                            | _ => ""
                            end in
  (exists pg',
     validarRestriccionesFormulario stringify (mkPage Ejemplos.una_dura "" [])
       = Normal (true, pg')
     /\ Dom.value_at Ejemplos.ruta_duras_json (document pg') = Some "1"
     /\ Dom.value_at Ejemplos.ruta_blandas_json (document pg') = Some "0")
  /\ (exists pg',
        validarRestriccionesFormulario stringify (mkPage Ejemplos.vacio "" [])
          = Normal (false, pg')
        /\ document pg' = Ejemplos.vacio).
Proof.
  intros stringify. split.
  - destruct (validar_campos_ocultos stringify (mkPage Ejemplos.una_dura "" [])
                (mkRestricciones
                   [Dura.mk "descanso_minimo" true [("descanso", VNum (Num 12))]] [])
                eq_refl) as [_ H].
    destruct (H ltac:(discriminate)) as (pg' & Hv & H1 & H2 & _).
    exists pg'. split; [exact Hv|]. split.
    + exact (H1 Ejemplos.ruta_duras_json eq_refl).
    + exact (H2 Ejemplos.ruta_blandas_json eq_refl).
  - destruct (validar_campos_ocultos stringify (mkPage Ejemplos.vacio "" [])
                (mkRestricciones [] []) eq_refl) as [H _].
    destruct (H eq_refl) as (pg' & Hv & Hdoc & _).
    exists pg'. split; [exact Hv | exact Hdoc].
Defined.

(* ================================================================== *)
(** * The request token *)
(* ================================================================== *)

(** C5. [getCSRFToken] takes the value of the first element named
    [csrfmiddlewaretoken] when there is one and its value is not empty;
    failing that, the content of the first [meta] element named [csrf-token]
    when there is one and its content is not empty; failing that, whatever
    [getCookie('csrftoken')] gives. With no such element, no such [meta] and
    no such cookie the result is [null]. *)
Theorem csrf_prioridad
        (decodeURIComponent : string -> Completion string) (pg : Page) :
  let campo := option_map Dom.value (document_find Sel.csrf_field (document pg)) in
  let meta := option_map Dom.content (document_find Sel.csrf_meta (document pg)) in
  (forall v, campo = Some v -> v <> "" ->
             getCSRFToken decodeURIComponent pg = Normal (Some v))
  /\ (forall c, falsy campo -> meta = Some c -> c <> "" ->
                getCSRFToken decodeURIComponent pg = Normal (Some c))
  /\ (falsy campo -> falsy meta ->
      getCSRFToken decodeURIComponent pg
      = getCookie decodeURIComponent (cookie pg) "csrftoken")
  /\ (campo = None -> meta = None ->
      first_cookie (cookie pg) "csrftoken" = None ->
      getCSRFToken decodeURIComponent pg = Normal None).
Proof.
  intros campo meta. unfold getCSRFToken. fold campo. fold meta.
  assert (Hskip : forall a b, falsy a -> or_else a b = b).
  { intros a b [-> | ->]; reflexivity. }
  assert (Htake : forall v b, v <> "" -> or_else (Some v) b = Normal (Some v)).
  { intros v b Hv. simpl. apply String.eqb_neq in Hv. now rewrite Hv. }
  repeat split.
  - intros v -> Hv. now apply Htake.
  - intros c Hc -> Hne. rewrite (Hskip _ _ Hc). now apply Htake.
  - intros Hc Hm. now rewrite (Hskip _ _ Hc), (Hskip _ _ Hm).
  - intros Hc Hm Hk. rewrite Hc, Hm. simpl.
    now rewrite getCookie_find, Hk.
Qed.

(** The three sources one after the other, and a page with none of them. *)
Lemma csrf_prioridad_witness :
  let decode := fun s : string => Normal s in
  getCSRFToken decode
    (mkPage (Ejemplos.pagina_csrf (Some "F") (Some "M")) "csrftoken=C" [])
    = Normal (Some "F")
  /\ getCSRFToken decode
       (mkPage (Ejemplos.pagina_csrf None (Some "M")) "csrftoken=C" [])
       = Normal (Some "M")
  /\ getCSRFToken decode
       (mkPage (Ejemplos.pagina_csrf (Some "") None) "a=1; csrftoken=C" [])
       = Normal (Some "C")
  /\ getCSRFToken decode
       (mkPage (Ejemplos.pagina_csrf None None) "a=1; csrftoken2=C" [])
       = Normal None.
Proof.
  intros decode. split; [|split; [|split]].
  - destruct (csrf_prioridad decode
                (mkPage (Ejemplos.pagina_csrf (Some "F") (Some "M")) "csrftoken=C" []))
      as (H & _).
    apply H; [reflexivity | discriminate].
  - destruct (csrf_prioridad decode
                (mkPage (Ejemplos.pagina_csrf None (Some "M")) "csrftoken=C" []))
      as (_ & H & _).
    apply H; [now left | reflexivity | discriminate].
  - destruct (csrf_prioridad decode
                (mkPage (Ejemplos.pagina_csrf (Some "") None) "a=1; csrftoken=C" []))
      as (_ & _ & H & _).
    rewrite H; [reflexivity | now right | now left].
  - destruct (csrf_prioridad decode
                (mkPage (Ejemplos.pagina_csrf None None) "a=1; csrftoken2=C" []))
      as (_ & _ & _ & H).
    apply H; reflexivity.
Defined.

(* ================================================================== *)
(** * Facts about polling *)
(* ================================================================== *)

Module PollFacts.
Import Poll.

Section WithArgs.

Variable U : Type.
Variable a : Args U.

Lemma requests_app (s : State U) (t1 t2 : list Effect) :
  trace s = t1 ++ t2 ->
  requests s
  = flat_map (fun x => match x with Fetch u => [u] | _ => [] end) t1
    ++ flat_map (fun x => match x with Fetch u => [u] | _ => [] end) t2.
Proof. unfold requests. intros ->. apply flat_map_app. Qed.

(** ** The handler up to the [await] *)

Lemma step_Tick (s : State U) :
  active s = true ->
  step a Tick s
  = Some (mkState (attempts s + 1) true (S (in_flight s))
                  (trace s ++ [Fetch (url a ++ "?")]) (user s)).
Proof. intros H. unfold step, before_await, bind, increment_attempts, get_send.
       rewrite H. reflexivity. Qed.

Lemma step_Tick_inactive (s : State U) :
  active s = false -> step a Tick s = None.
Proof. intros H. simpl. now rewrite H. Qed.

(** ** The handler from the [await] on *)

(** A failed request: both handlers log, the timer is cleared, nothing
    else happens, and the handler returns. *)
Lemma after_await_rejected (e : JsError) (s : State U) :
  after_await a (Rejected e) s
  = (Normal tt,
     mkState (attempts s) false (in_flight s)
             (trace s ++ [ErrorGET e; ErrorPolling e; ClearInterval])
             (user s)).
Proof.
  unfold after_await, try_catch, bind, get_settled, emit, throw, clearInterval.
  simpl. now rewrite <- !app_assoc.
Qed.

(** A request that delivered data: the callback runs once, with the
    counter as it stands, and the timer is cleared when the callback
    throws, returns a falsy value, or the counter has reached the cap. *)
Lemma after_await_resolved (data : JsVal) (s : State U) :
  after_await a (Resolved data) s
  = let (r, u) := callback a data (attempts s) (user s) in
    let t := trace s ++ [Invoke data (attempts s)] in
    match r with
    | Normal shouldContinue =>
        if negb shouldContinue || (maxAttempts a <=? attempts s)%Z
        then (Normal tt,
              mkState (attempts s) false (in_flight s) (t ++ [ClearInterval]) u)
        else (Normal tt, mkState (attempts s) (active s) (in_flight s) t u)
    | Throw e =>
        (Normal tt,
         mkState (attempts s) false (in_flight s)
                 (t ++ [ErrorPolling e; ClearInterval]) u)
    end.
Proof.
  unfold after_await, try_catch, bind, get_settled, ret, read_attempts, call,
    emit, clearInterval.
  destruct (callback a data (attempts s) (user s)) as [[sc|e] u]; simpl.
  - destruct (negb sc || (maxAttempts a <=? attempts s)%Z); reflexivity.
  - now rewrite <- !app_assoc.
Qed.

(** Whatever settles: the handler returns, sends nothing, and leaves
    the timer armed only if it was armed and the counter is below the
    cap. *)
Lemma after_await_facts (r : Response) (s : State U) :
  fst (after_await a r s) = Normal tt
  /\ attempts (snd (after_await a r s)) = attempts s
  /\ in_flight (snd (after_await a r s)) = in_flight s
  /\ requests (snd (after_await a r s)) = requests s
  /\ (active (snd (after_await a r s)) = true ->
      active s = true /\ (attempts s < maxAttempts a)%Z).
Proof.
  destruct r as [data|e].
  - rewrite after_await_resolved.
    destruct (callback a data (attempts s) (user s)) as [[sc|e] u]; cbv zeta.
    + destruct (negb sc || (maxAttempts a <=? attempts s)%Z) eqn:E; simpl.
      * repeat split; try discriminate.
        unfold requests. simpl. rewrite !flat_map_app. simpl.
        now rewrite !app_nil_r.
      * apply orb_false_elim in E as [_ E]. apply Z.leb_gt in E.
        repeat split; try assumption.
        unfold requests. simpl. rewrite !flat_map_app. simpl.
        now rewrite !app_nil_r.
    + simpl. repeat split; try discriminate.
      unfold requests. simpl. rewrite !flat_map_app. simpl.
      now rewrite !app_nil_r.
  - rewrite after_await_rejected. simpl. repeat split; try discriminate.
    unfold requests. simpl. rewrite !flat_map_app. simpl.
    now rewrite !app_nil_r.
Qed.

Lemma step_Settle (r : Response) (s : State U) (n : nat) :
  in_flight s = S n ->
  step a (Settle r) s
  = Some (snd (after_await a r
                 (mkState (attempts s) (active s) n (trace s) (user s)))).
Proof. intros H. simpl. now rewrite H. Qed.

(** ** A cleared timer stays cleared and sends nothing *)

Lemma step_inactive (ev : Event) (s s' : State U) :
  active s = false -> step a ev s = Some s' ->
  active s' = false /\ requests s' = requests s.
Proof.
  intros Hoff Hstep. destruct ev as [|r].
  - now rewrite step_Tick_inactive in Hstep.
  - simpl in Hstep. destruct (in_flight s) as [|n]; [discriminate|].
    injection Hstep as <-.
    destruct (after_await_facts r
                (mkState (attempts s) (active s) n (trace s) (user s)))
      as (_ & _ & _ & Hreq & Hact).
    split; [|exact Hreq].
    destruct (active (snd (after_await a r _))) eqn:E; [|reflexivity].
    destruct (Hact eq_refl) as [Hon _]. simpl in Hon. congruence.
Qed.

Lemma run_inactive (evs : list Event) :
  forall s s', active s = false -> run a evs s = Some s' ->
               active s' = false /\ requests s' = requests s.
Proof.
  induction evs as [|ev evs IH]; intros s s' Hoff Hrun; simpl in Hrun.
  - injection Hrun as <-. now split.
  - destruct (step a ev s) as [s1|] eqn:Hstep; [|discriminate].
    destruct (step_inactive ev s s1 Hoff Hstep) as [Hoff1 Hreq1].
    destruct (IH s1 s' Hoff1 Hrun) as [Hoff' Hreq'].
    split; [exact Hoff' | congruence].
Qed.

(** ** One request at a time *)

Lemma rounds_bound (rs : list Response) :
  forall s s',
    in_flight s = 0 ->
    (active s = true -> (attempts s < maxAttempts a)%Z) ->
    run a (rounds rs) s = Some s' ->
    in_flight s' = 0
    /\ attempts s' = (attempts s + Z.of_nat (List.length rs))%Z
    /\ (active s' = true -> (attempts s' < maxAttempts a)%Z)
    /\ (rs <> [] -> (attempts s' <= maxAttempts a)%Z)
    /\ List.length (requests s') = List.length (requests s) + List.length rs.
Proof.
  induction rs as [|r rs IH]; intros s s' Hfl Hlt Hrun.
  - simpl in Hrun. injection Hrun as <-. simpl.
    repeat split; [exact Hfl | lia | exact Hlt | congruence | lia].
  - change (rounds (r :: rs)) with (Tick :: Settle r :: rounds rs) in Hrun.
    cbn [run] in Hrun.
    destruct (active s) eqn:Hon;
      [|now rewrite (step_Tick_inactive s Hon) in Hrun].
    rewrite (step_Tick s Hon) in Hrun.
    rewrite (step_Settle r (mkState (attempts s + 1) true (S (in_flight s))
                                    (trace s ++ [Fetch (url a ++ "?")]) (user s))
                         (in_flight s) eq_refl) in Hrun.
    cbn [attempts active trace user] in Hrun.
    set (s1 := mkState (attempts s + 1) true (in_flight s)
                       (trace s ++ [Fetch (url a ++ "?")]) (user s)) in Hrun.
    destruct (after_await_facts r s1) as (_ & Hatt & Hfl1 & Hreq & Hact).
    set (s2 := snd (after_await a r s1)) in *.
    assert (Hlt2 : active s2 = true -> (attempts s2 < maxAttempts a)%Z).
    { intros H2. destruct (Hact H2) as [_ Hc]. rewrite Hatt. exact Hc. }
    destruct (IH s2 s' ltac:(rewrite Hfl1; exact Hfl) Hlt2 Hrun)
      as (Hfl' & Hatt' & Hlt' & Hle' & Hreq').
    specialize (Hlt eq_refl).
    assert (Hs1 : attempts s1 = (attempts s + 1)%Z) by reflexivity.
    repeat split.
    + exact Hfl'.
    + rewrite Hatt', Hatt, Hs1. cbn [List.length]. lia.
    + exact Hlt'.
    + intros _. destruct rs as [|r' rs'].
      * simpl in Hrun. injection Hrun as <-. rewrite Hatt, Hs1. lia.
      * apply Hle'. discriminate.
    + rewrite Hreq'. fold s2 in Hreq. rewrite Hreq.
      unfold requests, s1. cbn [trace]. rewrite flat_map_app, length_app.
      cbn. lia.
Qed.

End WithArgs.

End PollFacts.

(* ================================================================== *)
(** * Facts about [monitorizarEjecucion] *)
(* ================================================================== *)

Module MonitorFacts.
Import Poll Monitor.

Lemma callback_log (data : JsVal) (n : Z) (log : list Call) :
  snd (callback data n log) = log ++ calls (Resolved data).
Proof.
  unfold callback, calls, terminal.
  destruct (estado data) as [est|e]; simpl; [|reflexivity].
  destruct (is_string "COMPLETADA" est || is_string "ERROR" est); simpl;
    [now rewrite <- app_assoc | reflexivity].
Qed.

Lemma callback_terminal (data : JsVal) (n : Z) (log : list Call) :
  terminal data = true ->
  callback data n log = (Normal false, log ++ [OnUpdate data; OnComplete data]).
Proof.
  unfold callback, terminal.
  destruct (estado data) as [est|e]; [|discriminate].
  intros ->. now rewrite <- app_assoc.
Qed.

Section WithId.

Variable ejecucionId : string.
Local Abbreviation a := (monitorizarEjecucion ejecucionId).

(** Each event adds to the log the calls of the response it delivers. *)
Lemma user_step (ev : Event) (s s' : State (list Call)) :
  step a ev s = Some s' ->
  user s' = user s ++ match ev with Settle r => calls r | Tick => [] end.
Proof.
  destruct ev as [|r]; simpl.
  - destruct (active s); [|discriminate]. intros [= <-]. simpl.
    now rewrite app_nil_r.
  - destruct (in_flight s) as [|n]; [discriminate|]. intros [= <-].
    destruct r as [data|e].
    + rewrite PollFacts.after_await_resolved. simpl.
      pose proof (callback_log data (attempts s) (user s)) as Hlog.
      destruct (callback data (attempts s) (user s)) as [[sc|e] u];
        cbn [snd] in Hlog.
      * destruct (negb sc || (120 <=? attempts s)%Z); exact Hlog.
      * exact Hlog.
    + rewrite PollFacts.after_await_rejected. simpl. now rewrite app_nil_r.
Qed.

Lemma user_run (evs : list Event) :
  forall s s', run a evs s = Some s' ->
               user s' = user s ++ flat_map calls (settled evs).
Proof.
  induction evs as [|ev evs IH]; intros s s' Hrun; simpl in Hrun.
  - injection Hrun as <-. simpl. now rewrite app_nil_r.
  - destruct (step a ev s) as [s1|] eqn:Hstep; [|discriminate].
    rewrite (IH s1 s' Hrun), (user_step ev s s1 Hstep), <- app_assoc.
    f_equal. destruct ev; reflexivity.
Qed.

(** A terminal state clears the timer. *)
Lemma step_terminal (data : JsVal) (s : State (list Call)) (n : nat) :
  in_flight s = S n -> terminal data = true ->
  exists s', step a (Settle (Resolved data)) s = Some s' /\ active s' = false.
Proof.
  intros Hfl Ht. rewrite (PollFacts.step_Settle _ a (Resolved data) s n Hfl).
  eexists. split; [reflexivity|].
  rewrite PollFacts.after_await_resolved. simpl.
  now rewrite (callback_terminal data (attempts s) (user s) Ht).
Qed.

Lemma run_ends (evs : list Event) :
  forall s s', run a evs s = Some s' ->
               active s = false \/ Exists ends (settled evs) ->
               active s' = false.
Proof.
  induction evs as [|ev evs IH]; intros s s' Hrun Hor; simpl in Hrun.
  - injection Hrun as <-. destruct Hor as [H | H]; [exact H | inversion H].
  - destruct (step a ev s) as [s1|] eqn:Hstep; [|discriminate].
    apply (IH s1 s' Hrun).
    destruct Hor as [Hoff | Hex].
    + left. now apply (PollFacts.step_inactive _ a ev s s1).
    + destruct ev as [|r]; simpl in Hex; [now right|].
      apply Exists_cons in Hex as [Hr | Hex]; [left | now right].
      destruct (in_flight s) as [|n] eqn:Hfl;
        [simpl in Hstep; rewrite Hfl in Hstep; discriminate|].
      rewrite (PollFacts.step_Settle _ a r s n Hfl) in Hstep.
      destruct r as [data|e].
      * destruct (step_terminal data s n Hfl Hr) as (s2 & Hs2 & Hoff).
        rewrite (PollFacts.step_Settle _ a (Resolved data) s n Hfl) in Hs2.
        congruence.
      * rewrite PollFacts.after_await_rejected in Hstep.
        injection Hstep as <-. reflexivity.
Qed.

End WithId.

End MonitorFacts.

(* ================================================================== *)
(** * Polling: what the callers are promised *)
(* ================================================================== *)

(** C1. Take any order of timer ticks and settlements in which the requests
    of [monitorizarEjecucion] deliver, in this order, three times
    [{estado: 'PENDIENTE'}] and then [{estado: 'COMPLETADA'}]. Then
    [onUpdate] was called four times, once per response and in their order,
    [onComplete] once, last, with the terminal response; the timer is
    cleared, so it cannot fire, and whatever happens afterwards no request
    is sent and the calls stay as they are unless a request sent earlier
    still settles. *)
Theorem monitor_cuatro_respuestas
        (ejecucionId : string) (evs : list Poll.Event)
        (st : Poll.State (list Monitor.Call)) :
  Poll.run (Monitor.monitorizarEjecucion ejecucionId) evs (Poll.start [])
    = Some st ->
  Poll.settled evs = Ejemplos.cuatro_respuestas ->
  Poll.user st
    = [Monitor.OnUpdate (Monitor.respuesta "PENDIENTE");
       Monitor.OnUpdate (Monitor.respuesta "PENDIENTE");
       Monitor.OnUpdate (Monitor.respuesta "PENDIENTE");
       Monitor.OnUpdate (Monitor.respuesta "COMPLETADA");
       Monitor.OnComplete (Monitor.respuesta "COMPLETADA")]
  /\ Poll.active st = false
  /\ Poll.step (Monitor.monitorizarEjecucion ejecucionId) Poll.Tick st = None
  /\ (forall evs' st',
        Poll.run (Monitor.monitorizarEjecucion ejecucionId) evs' st = Some st' ->
        Poll.requests st' = Poll.requests st /\ Poll.active st' = false).
Proof.
  intros Hrun Hset.
  assert (Hoff : Poll.active st = false).
  { apply (MonitorFacts.run_ends ejecucionId evs _ st Hrun). right.
    rewrite Hset. unfold Ejemplos.cuatro_respuestas.
    do 3 apply Exists_cons_tl. apply Exists_cons_hd. reflexivity. }
  split; [|split; [exact Hoff | split]].
  - rewrite (MonitorFacts.user_run ejecucionId evs _ st Hrun), Hset. reflexivity.
  - now apply PollFacts.step_Tick_inactive.
  - intros evs' st' Hrun'.
    destruct (PollFacts.run_inactive _ _ evs' st st' Hoff Hrun') as [H1 H2].
    now split.
Qed.

(** One request at a time: four requests, five calls, a cleared timer. *)
Lemma monitor_cuatro_respuestas_witness :
  exists st,
    Poll.run (Monitor.monitorizarEjecucion "7")
             (Poll.rounds Ejemplos.cuatro_respuestas) (Poll.start [])
      = Some st
    /\ List.length (Poll.requests st) = 4
    /\ List.length (Poll.user st) = 5
    /\ Poll.active st = false.
Proof.
  destruct (Poll.run (Monitor.monitorizarEjecucion "7")
                     (Poll.rounds Ejemplos.cuatro_respuestas) (Poll.start []))
    as [st|] eqn:Hrun; [|discriminate Hrun].
  exists st. split; [reflexivity|].
  destruct (monitor_cuatro_respuestas "7" (Poll.rounds Ejemplos.cuatro_respuestas)
              st Hrun eq_refl) as (Hu & Hoff & _).
  split; [|split; [now rewrite Hu | exact Hoff]].
  vm_compute in Hrun. injection Hrun as <-. reflexivity.
Defined.

(** C7. When a request of [poll] fails, [AjaxHelper.get] logs the failure
    and throws it again, and the handler of [poll] catches it: it logs, then
    clears the timer, and returns. The callback is not called, the counter
    and the caller's state are untouched, the timer cannot fire any more,
    and whatever happens afterwards no request is sent. *)
Theorem poll_fallo_terminal
        (U : Type) (a : Poll.Args U) (s : Poll.State U) (n : nat) (e : JsError) :
  Poll.in_flight s = S n ->
  exists s',
    Poll.step a (Poll.Settle (Poll.Rejected e)) s = Some s'
    /\ Poll.trace s'
       = Poll.trace s ++ [Poll.ErrorGET e; Poll.ErrorPolling e; Poll.ClearInterval]
    /\ Poll.active s' = false
    /\ Poll.user s' = Poll.user s
    /\ Poll.attempts s' = Poll.attempts s
    /\ Poll.requests s' = Poll.requests s
    /\ fst (Poll.get_settled (Poll.Rejected e) s) = Throw e
    /\ fst (Poll.after_await a (Poll.Rejected e) s) = Normal tt
    /\ Poll.step a Poll.Tick s' = None
    /\ (forall evs s'',
          Poll.run a evs s' = Some s'' ->
          Poll.requests s'' = Poll.requests s' /\ Poll.active s'' = false).
Proof.
  intros Hfl. rewrite (PollFacts.step_Settle _ a (Poll.Rejected e) s n Hfl).
  rewrite PollFacts.after_await_rejected. eexists. split; [reflexivity|].
  cbn [Poll.trace Poll.active Poll.user Poll.attempts].
  do 4 (split; [reflexivity|]).
  split; [|split; [reflexivity|split; [|split; [reflexivity|]]]].
  - unfold Poll.requests. cbn [snd Poll.trace]. rewrite flat_map_app. simpl.
    now rewrite app_nil_r.
  - now rewrite PollFacts.after_await_rejected.
  - intros evs s'' Hrun.
    cbn [snd] in Hrun.
    apply PollFacts.run_inactive in Hrun; [|reflexivity].
    destruct Hrun as [H1 H2]. now split.
Qed.

(** The second request of a monitored execution fails. *)
Lemma poll_fallo_terminal_witness :
  exists s s',
    Poll.run (Monitor.monitorizarEjecucion "7")
             [Poll.Tick; Poll.Settle (Poll.Resolved (Monitor.respuesta "PENDIENTE"));
              Poll.Tick] (Poll.start [])
      = Some s
    /\ Poll.step (Monitor.monitorizarEjecucion "7")
                 (Poll.Settle (Poll.Rejected NetworkError)) s = Some s'
    /\ Poll.user s' = [Monitor.OnUpdate (Monitor.respuesta "PENDIENTE")]
    /\ Poll.active s' = false
    /\ List.length (Poll.requests s') = 2.
Proof.
  eexists. 
  destruct (poll_fallo_terminal _ (Monitor.monitorizarEjecucion "7")
              (Poll.mkState 2 true 1
                 [Poll.Fetch "/turnos/ajax/ejecucion/7/estado/?";
                  Poll.Invoke (Monitor.respuesta "PENDIENTE") 1;
                  Poll.Fetch "/turnos/ajax/ejecucion/7/estado/?"]
                 [Monitor.OnUpdate (Monitor.respuesta "PENDIENTE")])
              0 NetworkError eq_refl)
    as (s' & Hstep & _ & Hoff & Hu & _ & Hreq & _).
  exists s'. split; [reflexivity|]. split; [exact Hstep|].
  split; [exact Hu|]. split; [exact Hoff|]. now rewrite Hreq.
Defined.

(** C2, as the code has it. For every callback and every cap of at least 1,
    as long as each request settles before the timer fires again: the
    number of attempts equals the number of requests sent, never exceeds
    [maxAttempts], and the timer is cleared once it reaches [maxAttempts].
    In any order of events the timer is cleared when the callback returns a
    falsy value. [monitorizarEjecucion] polls every 5000 ms with a cap of
    120, so with one request at a time it makes at most 120 attempts; and in
    any order of events a terminal state clears the timer, after which no
    request is sent. *)
Theorem poll_tope :
  (forall (U : Type) (a : Poll.Args U),
      (forall rs u st,
          (1 <= Poll.maxAttempts a)%Z ->
          Poll.run a (Poll.rounds rs) (Poll.start u) = Some st ->
          Poll.attempts st = Z.of_nat (List.length rs)
          /\ List.length (Poll.requests st) = List.length rs
          /\ (Poll.attempts st <= Poll.maxAttempts a)%Z
          /\ (Poll.attempts st = Poll.maxAttempts a -> Poll.active st = false))
      /\ (forall s n data u',
             Poll.in_flight s = S n ->
             Poll.callback a data (Poll.attempts s) (Poll.user s) = (Normal false, u') ->
             exists s',
               Poll.step a (Poll.Settle (Poll.Resolved data)) s = Some s'
               /\ Poll.active s' = false
               /\ Poll.step a Poll.Tick s' = None))
  /\ (forall ejecucionId,
         Poll.interval (Monitor.monitorizarEjecucion ejecucionId) = 5000%Z
         /\ Poll.maxAttempts (Monitor.monitorizarEjecucion ejecucionId) = 120%Z
         /\ (forall rs st,
                Poll.run (Monitor.monitorizarEjecucion ejecucionId)
                         (Poll.rounds rs) (Poll.start []) = Some st ->
                (Poll.attempts st <= 120)%Z
                /\ List.length (Poll.requests st) <= 120)
         /\ (forall s n data,
                Poll.in_flight s = S n ->
                Monitor.terminal data = true ->
                exists s',
                  Poll.step (Monitor.monitorizarEjecucion ejecucionId)
                            (Poll.Settle (Poll.Resolved data)) s = Some s'
                  /\ Poll.active s' = false
                  /\ (forall evs s'',
                         Poll.run (Monitor.monitorizarEjecucion ejecucionId) evs s'
                           = Some s'' ->
                         Poll.requests s'' = Poll.requests s'))).
Proof.
  assert (HA : forall (U : Type) (a : Poll.Args U) rs u st,
             (1 <= Poll.maxAttempts a)%Z ->
             Poll.run a (Poll.rounds rs) (Poll.start u) = Some st ->
             Poll.attempts st = Z.of_nat (List.length rs)
             /\ List.length (Poll.requests st) = List.length rs
             /\ (Poll.attempts st <= Poll.maxAttempts a)%Z
             /\ (Poll.attempts st = Poll.maxAttempts a -> Poll.active st = false)).
  { intros U a rs u st Hcap Hrun.
    destruct (PollFacts.rounds_bound U a rs (Poll.start u) st eq_refl
                ltac:(intros _; simpl; lia) Hrun)
      as (_ & Hatt & Hlt & Hle & Hreq).
    simpl in Hatt, Hreq. repeat split.
    - exact Hatt.
    - exact Hreq.
    - destruct rs as [|r rs]; [rewrite Hatt; simpl; lia | apply Hle; discriminate].
    - intros Heq. destruct (Poll.active st); [|reflexivity].
      specialize (Hlt eq_refl). lia. }
  split.
  - intros U a. split; [apply HA|].
    intros s n data u' Hfl Hcb.
    rewrite (PollFacts.step_Settle U a (Poll.Resolved data) s n Hfl).
    eexists. split; [reflexivity|].
    rewrite PollFacts.after_await_resolved.
    cbn [Poll.attempts Poll.user]. rewrite Hcb. cbn. split; reflexivity.
  - intros ejecucionId. split; [reflexivity|]. split; [reflexivity|]. split.
    + intros rs st Hrun.
      destruct (HA _ (Monitor.monitorizarEjecucion ejecucionId) rs [] st
                  ltac:(simpl; lia) Hrun) as (Hatt & Hreq & Hle & _).
      simpl in Hle. split; [exact Hle|]. rewrite Hreq. lia.
    + intros s n data Hfl Ht.
      destruct (MonitorFacts.step_terminal ejecucionId data s n Hfl Ht)
        as (s' & Hstep & Hoff).
      exists s'. split; [exact Hstep|]. split; [exact Hoff|].
      intros evs s'' Hrun.
      now destruct (PollFacts.run_inactive _ _ evs s' s'' Hoff Hrun).
Qed.

(** Four rounds of a monitored execution stay under the cap, and the
    terminal state of the fourth clears the timer. *)
Lemma poll_tope_witness :
  exists st,
    Poll.run (Monitor.monitorizarEjecucion "7")
             (Poll.rounds Ejemplos.cuatro_respuestas) (Poll.start []) = Some st
    /\ Poll.attempts st = 4%Z
    /\ (Poll.attempts st <= 120)%Z.
Proof.
  destruct (Poll.run (Monitor.monitorizarEjecucion "7")
                     (Poll.rounds Ejemplos.cuatro_respuestas) (Poll.start []))
    as [st|] eqn:Hrun; [|discriminate Hrun].
  exists st. split; [reflexivity|].
  destruct poll_tope as [HA _].
  destruct (HA _ (Monitor.monitorizarEjecucion "7")) as [Hrounds _].
  destruct (Hrounds Ejemplos.cuatro_respuestas [] st ltac:(simpl; lia) Hrun)
    as (Hatt & _ & Hle & _).
  split; [exact Hatt | exact Hle].
Defined.

(** The cap at work: with a cap of 2 and answers that ask to go on, the
    second settled attempt clears the timer and a third tick cannot happen. *)
Lemma poll_tope_alcanzado :
  let a := Poll.poll_args "/estado/"
             (fun (_ : JsVal) (_ : Z) (u : unit) => (Normal true, u))
             None (Some 2%Z) in
  option_map (fun st => (Poll.attempts st, Poll.active st))
             (Poll.run a (Poll.rounds [Poll.Resolved VNull; Poll.Resolved VNull])
                       (Poll.start tt))
    = Some (2%Z, false)
  /\ Poll.run a (Poll.rounds [Poll.Resolved VNull; Poll.Resolved VNull;
                              Poll.Resolved VNull])
              (Poll.start tt) = None.
Proof. split; reflexivity. Qed.

(** C2, as stated, fails. With a cap of 0 the first attempt is still made:
    one attempt, more than [maxAttempts]. And the timer does not wait for a
    request to settle: when no response arrives it fires a 121st time under
    [monitorizarEjecucion] and is still armed. *)
Lemma poll_tope_excedido :
  (exists st,
      Poll.run Ejemplos.sondeo_cap_0 (Poll.rounds [Poll.Resolved VNull])
               (Poll.start tt) = Some st
      /\ Poll.attempts st = 1%Z
      /\ (Poll.maxAttempts Ejemplos.sondeo_cap_0 < Poll.attempts st)%Z)
  /\ (exists st,
         Poll.run (Monitor.monitorizarEjecucion "7") (repeat Poll.Tick 121)
                  (Poll.start []) = Some st
         /\ Poll.attempts st = 121%Z
         /\ List.length (Poll.requests st) = 121
         /\ Poll.active st = true).
Proof.
  split.
  - eexists. split; [reflexivity|]. split; [reflexivity|]. reflexivity.
  - eexists. split; [vm_compute; reflexivity|]. repeat split.
Qed.

(* ================================================================== *)
(** * The request helpers: token, status, logging *)
(* ================================================================== *)

Module HttpFacts.
Import Http.

Section WithHost.

Variable URLSearchParams_toString : list (string * string) -> string.
Variable JSON_stringify : JsVal -> string.
Variable decodeURIComponent : string -> Completion string.
Variable net : Request -> Outcome.

(** What can be said of a run that goes through [catch_log]. *)
Lemma catch_log_console {A} (label : string) (reqs : list Request)
      (c : Completion A) :
  console (catch_log label reqs c)
  = match result (catch_log label reqs c) with
    | Throw e => [(label, e)]
    | Normal _ => []
    end.
Proof. reflexivity. Qed.

Lemma with_token_throw (pg : Page) (label : string)
      (build : option string -> Request) (e : JsError) :
  getCSRFToken decodeURIComponent pg = Throw e ->
  with_token decodeURIComponent net pg label build
  = mkRun [] [(label, e)] (Throw e).
Proof. intros H. unfold with_token. now rewrite H. Qed.

Lemma with_token_normal (pg : Page) (label : string)
      (build : option string -> Request) (token : option string) :
  getCSRFToken decodeURIComponent pg = Normal token ->
  with_token decodeURIComponent net pg label build
  = catch_log label [build token] (settle (net (build token))).
Proof. intros H. unfold with_token. now rewrite H. Qed.

Lemma settle_answered (a : Answer) :
  settle (Answered a) = if ok a then json a else Throw (HttpError (status a)).
Proof. reflexivity. Qed.

End WithHost.

End HttpFacts.

(** X1. [post], [put], [delete] and [submitForm] read the token before they
    send anything. When [getCSRFToken] throws, none of them sends a request:
    the error is logged once under the helper's label and the promise
    rejects with it. Otherwise each sends exactly one request, with
    credentials [same-origin], whose header [X-CSRFToken] holds what
    [getCSRFToken] returned ([null] included), and the promise settles as
    that request's answer decides. [get] never reads the token: it always
    sends one request, and that request has no [X-CSRFToken] header. *)
Theorem http_token
        (URLSearchParams_toString : list (string * string) -> string)
        (JSON_stringify : JsVal -> string)
        (decodeURIComponent : string -> Completion string)
        (net : Http.Request -> Http.Outcome)
        (pg : Page) (url : string) (data : option JsVal)
        (form : Http.Form) (furl : option string) (params : Http.Params) :
  let writers :=
    [("Error en petición POST:",
      Http.post JSON_stringify decodeURIComponent net pg url data);
     ("Error en petición PUT:",
      Http.put JSON_stringify decodeURIComponent net pg url data);
     ("Error en petición DELETE:",
      Http.delete decodeURIComponent net pg url);
     ("Error en envío de formulario:",
      Http.submitForm decodeURIComponent net pg form furl)] in
  match getCSRFToken decodeURIComponent pg with
  | Throw e =>
      Forall (fun lr => snd lr = Http.mkRun [] [(fst lr, e)] (Throw e)) writers
  | Normal token =>
      Forall (fun lr =>
                exists req,
                  Http.sent (snd lr) = [req]
                  /\ Http.header "X-CSRFToken" req = Some token
                  /\ Http.credentials req = Some "same-origin"
                  /\ Http.result (snd lr) = Http.settle (net req))
             writers
  end
  /\ exists req,
       Http.sent (Http.get URLSearchParams_toString net url params) = [req]
       /\ Http.header "X-CSRFToken" req = None
       /\ Http.result (Http.get URLSearchParams_toString net url params)
          = Http.settle (net req).
Proof.
  intros writers. subst writers. split.
  - destruct (getCSRFToken decodeURIComponent pg) as [token|e] eqn:Htok.
    + repeat constructor; cbn [snd fst];
        unfold Http.post, Http.put, Http.delete, Http.submitForm;
        rewrite (HttpFacts.with_token_normal decodeURIComponent net pg _ _ token Htok);
        eexists; (split; [reflexivity|]); repeat split.
    + repeat constructor; cbn [snd fst];
        unfold Http.post, Http.put, Http.delete, Http.submitForm;
        now rewrite (HttpFacts.with_token_throw decodeURIComponent net pg _ _ e Htok).
  - eexists. split; [reflexivity|]. split; reflexivity.
Qed.

(** X2. In [get], [post], [put], [delete] and [submitForm] the status is
    tested before the body is read: an answer whose [ok] flag is off makes
    the promise reject with the HTTP error of that status whatever the body
    holds, and an answer whose flag is on settles the promise as
    [response.json()] does. Every rejection, whatever its cause, is written
    to the console exactly once, under the helper's own label, and thrown
    again; a call that resolves writes nothing. *)
Theorem http_estado
        (URLSearchParams_toString : list (string * string) -> string)
        (JSON_stringify : JsVal -> string)
        (decodeURIComponent : string -> Completion string)
        (net : Http.Request -> Http.Outcome)
        (pg : Page) (url : string) (data : option JsVal)
        (form : Http.Form) (furl : option string) (params : Http.Params) :
  Forall (fun lr =>
            Http.console (snd lr)
            = match Http.result (snd lr) with
              | Throw e => [(fst lr, e)]
              | Normal _ => []
              end
            /\ (forall req a,
                   In req (Http.sent (snd lr)) ->
                   net req = Http.Answered a ->
                   Http.result (snd lr)
                   = if Http.ok a then Http.json a
                     else Throw (HttpError (Http.status a)))
            /\ (forall req e,
                   In req (Http.sent (snd lr)) ->
                   net req = Http.Failed e ->
                   Http.result (snd lr) = Throw e))
         [("Error en petición GET:",
           Http.get URLSearchParams_toString net url params);
          ("Error en petición POST:",
           Http.post JSON_stringify decodeURIComponent net pg url data);
          ("Error en petición PUT:",
           Http.put JSON_stringify decodeURIComponent net pg url data);
          ("Error en petición DELETE:",
           Http.delete decodeURIComponent net pg url);
          ("Error en envío de formulario:",
           Http.submitForm decodeURIComponent net pg form furl)].
Proof.
  assert (Hcl : forall label req,
             let r := Http.catch_log label [req] (Http.settle (net req)) in
             Http.console r
             = match Http.result r with
               | Throw e => [(label, e)]
               | Normal _ => []
               end
             /\ (forall req' a,
                    In req' (Http.sent r) -> net req' = Http.Answered a ->
                    Http.result r
                    = if Http.ok a then Http.json a
                      else Throw (HttpError (Http.status a)))
             /\ (forall req' e,
                    In req' (Http.sent r) -> net req' = Http.Failed e ->
                    Http.result r = Throw e)).
  { intros label req r. subst r. split; [reflexivity|]. split.
    - intros req' a [<- | []] Hnet. cbn [Http.result Http.catch_log].
      now rewrite Hnet.
    - intros req' e [<- | []] Hnet. cbn [Http.result Http.catch_log].
      now rewrite Hnet. }
  constructor; [apply Hcl|].
  destruct (getCSRFToken decodeURIComponent pg) as [token|e] eqn:Htok.
  - repeat constructor; cbn [snd fst];
      unfold Http.post, Http.put, Http.delete, Http.submitForm;
      rewrite (HttpFacts.with_token_normal decodeURIComponent net pg _ _ token Htok);
      apply Hcl.
  - repeat constructor; cbn [snd fst];
      unfold Http.post, Http.put, Http.delete, Http.submitForm;
      rewrite (HttpFacts.with_token_throw decodeURIComponent net pg _ _ e Htok);
      cbn; try reflexivity; intros ? ? [].
Qed.

(* ================================================================== *)
(** * Polling: accounting, progress, failures seen through [get] *)
(* ================================================================== *)

Module PollMore.
Import Poll.

Section WithArgs.

Variable U : Type.
Variable a : Args U.

Lemma requests_snoc_fetch (s : State U) (t : list Effect) (u : string) :
  flat_map (fun x => match x with Fetch u => [u] | _ => [] end) (t ++ [Fetch u])
  = flat_map (fun x => match x with Fetch u => [u] | _ => [] end) t ++ [u].
Proof. now rewrite flat_map_app. Qed.

(** One event: what it does to the counter, to the requests sent and to
    the requests in flight. *)
Lemma step_accounting (ev : Event) (s s' : State U) :
  step a ev s = Some s' ->
  match ev with
  | Tick =>
      attempts s' = (attempts s + 1)%Z
      /\ requests s' = requests s ++ [(url a ++ "?")%string]
      /\ in_flight s' = S (in_flight s)
  | Settle _ =>
      attempts s' = attempts s
      /\ requests s' = requests s
      /\ S (in_flight s') = in_flight s
  end.
Proof.
  destruct ev as [|r]; intros Hstep.
  - destruct (active s) eqn:Hon;
      [|now rewrite (PollFacts.step_Tick_inactive U a s Hon) in Hstep].
    rewrite (PollFacts.step_Tick U a s Hon) in Hstep. injection Hstep as <-.
    cbn [attempts in_flight]. repeat split.
    unfold requests. cbn [trace]. now rewrite flat_map_app.
  - destruct (in_flight s) as [|n] eqn:Hfl;
      [simpl in Hstep; rewrite Hfl in Hstep; discriminate|].
    rewrite (PollFacts.step_Settle U a r s n Hfl) in Hstep. injection Hstep as <-.
    destruct (PollFacts.after_await_facts U a r
                (mkState (attempts s) (active s) n (trace s) (user s)))
      as (_ & Hatt & Hfl' & Hreq & _).
    rewrite Hatt, Hfl', Hreq. now repeat split.
Qed.

Lemma run_accounting (evs : list Event) :
  forall s s',
    run a evs s = Some s' ->
    attempts s' = (attempts s + Z.of_nat (Cuenta.ticks evs))%Z
    /\ requests s' = requests s ++ repeat (url a ++ "?")%string (Cuenta.ticks evs)
    /\ in_flight s' + List.length (settled evs) = in_flight s + Cuenta.ticks evs.
Proof.
  induction evs as [|ev evs IH]; intros s s' Hrun; simpl in Hrun.
  - injection Hrun as <-. cbn. rewrite app_nil_r. repeat split; lia.
  - destruct (step a ev s) as [s1|] eqn:Hstep; [|discriminate].
    destruct (IH s1 s' Hrun) as (Hatt & Hreq & Hfl).
    pose proof (step_accounting ev s s1 Hstep) as Hacc.
    destruct ev as [|r]; destruct Hacc as (Ha1 & Hr1 & Hf1).
    + change (Cuenta.ticks (Tick :: evs)) with (S (Cuenta.ticks evs)).
      change (settled (Tick :: evs)) with (settled evs).
      rewrite Hatt, Hreq, Ha1, Hr1, <- app_assoc. cbn [repeat app].
      repeat split; lia.
    + change (Cuenta.ticks (Settle r :: evs)) with (Cuenta.ticks evs).
      change (settled (Settle r :: evs)) with (r :: settled evs).
      rewrite Hatt, Hreq, Ha1, Hr1. cbn [List.length].
      repeat split; lia.
Qed.

(** ** Going on, one request at a time *)

Lemma round_continues (r : Response) (s : State U) :
  in_flight s = 0 -> active s = true -> Cuenta.continues a r ->
  exists s',
    run a [Tick; Settle r] s = Some s'
    /\ in_flight s' = 0
    /\ attempts s' = (attempts s + 1)%Z
    /\ active s' = negb (maxAttempts a <=? attempts s + 1)%Z.
Proof.
  intros Hfl Hon (data & -> & Hcb). cbn [run].
  rewrite (PollFacts.step_Tick U a s Hon).
  rewrite (PollFacts.step_Settle U a (Resolved data)
             (mkState (attempts s + 1) true (S (in_flight s))
                      (trace s ++ [Fetch (url a ++ "?")]) (user s))
             (in_flight s) eq_refl).
  eexists. split; [reflexivity|].
  rewrite PollFacts.after_await_resolved. cbn [attempts active in_flight trace user].
  specialize (Hcb (attempts s + 1)%Z (user s)).
  destruct (callback a data (attempts s + 1) (user s)) as [res u'].
  cbn [fst] in Hcb. subst res. cbn zeta. cbn [negb orb].
  destruct (maxAttempts a <=? attempts s + 1)%Z; cbn; now repeat split.
Qed.

Lemma rounds_continue (rs : list Response) :
  forall s,
    in_flight s = 0 -> active s = true ->
    Forall (Cuenta.continues a) rs ->
    (attempts s + Z.of_nat (List.length rs) <= maxAttempts a)%Z ->
    exists s',
      run a (rounds rs) s = Some s'
      /\ in_flight s' = 0
      /\ attempts s' = (attempts s + Z.of_nat (List.length rs))%Z
      /\ (rs <> [] -> active s' = negb (maxAttempts a <=? attempts s')%Z).
Proof.
  induction rs as [|r rs IH]; intros s Hfl Hon Hall Hle.
  - exists s. cbn. repeat split; [exact Hfl | lia | congruence].
  - inversion Hall as [|? ? Hr Hrs]; subst.
    destruct (round_continues r s Hfl Hon Hr) as (s1 & Hrun1 & Hfl1 & Hatt1 & Hon1).
    cbn [List.length] in Hle.
    change (rounds (r :: rs)) with ([Tick; Settle r] ++ rounds rs).
    destruct rs as [|r' rs'].
    + exists s1. rewrite app_nil_r. split; [exact Hrun1|].
      cbn [List.length]. repeat split; [exact Hfl1 | lia |].
      intros _. now rewrite Hatt1.
    + assert (Hon1' : active s1 = true).
      { rewrite Hon1. apply negb_true_iff, Z.leb_gt.
        cbn [List.length] in Hle. lia. }
      destruct (IH s1 Hfl1 Hon1' Hrs ltac:(rewrite Hatt1; cbn [List.length] in *; lia))
        as (s' & Hrun & Hfl' & Hatt' & Hon').
      exists s'. split.
      * cbn [app run] in *.
        destruct (step a Tick s) as [x|]; [|discriminate].
        destruct (step a (Settle r) x) as [y|]; [|discriminate].
        injection Hrun1 as ->. exact Hrun.
      * repeat split; [exact Hfl' | rewrite Hatt', Hatt1; cbn [List.length]; lia |].
        intros _. apply Hon'. discriminate.
Qed.

End WithArgs.

End PollMore.

(** X3. From the moment [poll] returns, in any order of events: the counter
    [attempts] equals the number of requests sent, which is the number of
    times the timer fired; every request goes to [url?]; and the requests
    in flight are those sent and not yet settled. *)
Theorem poll_contabilidad
        (U : Type) (a : Poll.Args U) (evs : list Poll.Event) (u : U)
        (st : Poll.State U) :
  Poll.run a evs (Poll.start u) = Some st ->
  Poll.attempts st = Z.of_nat (List.length (Poll.requests st))
  /\ List.length (Poll.requests st) = Cuenta.ticks evs
  /\ Poll.requests st = repeat (Poll.url a ++ "?")%string (Cuenta.ticks evs)
  /\ Poll.in_flight st + List.length (Poll.settled evs) = Cuenta.ticks evs.
Proof.
  intros Hrun.
  destruct (PollMore.run_accounting U a evs (Poll.start u) st Hrun)
    as (Hatt & Hreq & Hfl).
  cbn in Hatt, Hreq, Hfl. rewrite Hreq, repeat_length.
  repeat split; [exact Hatt | exact Hfl].
Qed.

(** Two ticks before the first answer: two requests sent, one in flight. *)
Lemma poll_contabilidad_witness :
  exists st,
    Poll.run (Monitor.monitorizarEjecucion "7")
             [Poll.Tick; Poll.Tick;
              Poll.Settle (Poll.Resolved (Monitor.respuesta "PENDIENTE"))]
             (Poll.start []) = Some st
    /\ Poll.attempts st = 2%Z
    /\ Poll.in_flight st = 1.
Proof.
  destruct (Poll.run (Monitor.monitorizarEjecucion "7")
              [Poll.Tick; Poll.Tick;
               Poll.Settle (Poll.Resolved (Monitor.respuesta "PENDIENTE"))]
              (Poll.start [])) as [st|] eqn:Hrun; [|discriminate Hrun].
  exists st. split; [reflexivity|].
  destruct (poll_contabilidad _ _ _ _ _ Hrun) as (Hatt & Hlen & _ & Hfl).
  cbn in Hlen, Hfl. rewrite Hlen in Hatt. split; [exact Hatt | lia].
Defined.

(** X4. The handler of [poll] never lets an error out and never sends a
    request of its own: whatever settles and whatever the callback does
    (return anything, throw), the part of the handler after the [await]
    returns normally, leaves the counter and the requests as they were, and
    never arms a timer that was cleared. *)
Theorem poll_manejador_total
        (U : Type) (a : Poll.Args U) (r : Poll.Response) (s : Poll.State U) :
  fst (Poll.after_await a r s) = Normal tt
  /\ Poll.attempts (snd (Poll.after_await a r s)) = Poll.attempts s
  /\ Poll.requests (snd (Poll.after_await a r s)) = Poll.requests s
  /\ Poll.in_flight (snd (Poll.after_await a r s)) = Poll.in_flight s
  /\ (Poll.active s = false -> Poll.active (snd (Poll.after_await a r s)) = false).
Proof.
  destruct (PollFacts.after_await_facts U a r s) as (H1 & H2 & H3 & H4 & H5).
  repeat split; try assumption.
  intros Hoff. destruct (Poll.active (snd (Poll.after_await a r s))) eqn:E;
    [|reflexivity].
  destruct (H5 eq_refl) as [Hon _]. congruence.
Qed.

(** X5. The cap is reached, not only respected. With a cap of at least 1,
    answers that all make the callback ask to go on, and one request at a
    time: as many rounds as there are answers take place when there are at
    most [maxAttempts] of them, the timer stays armed before the cap and is
    cleared by the round that reaches it, and no round can follow that
    one. *)
Theorem poll_agota_tope
        (U : Type) (a : Poll.Args U) (rs : list Poll.Response) (u : U) :
  (1 <= Poll.maxAttempts a)%Z ->
  Forall (Cuenta.continues a) rs ->
  (Z.of_nat (List.length rs) <= Poll.maxAttempts a)%Z ->
  exists st,
    Poll.run a (Poll.rounds rs) (Poll.start u) = Some st
    /\ Poll.attempts st = Z.of_nat (List.length rs)
    /\ Poll.active st = negb (Poll.maxAttempts a <=? Z.of_nat (List.length rs))%Z
    /\ ((Z.of_nat (List.length rs) = Poll.maxAttempts a)%Z ->
        forall r, Poll.run a (Poll.rounds (rs ++ [r])) (Poll.start u) = None).
Proof.
  intros Hcap Hall Hle.
  destruct (PollMore.rounds_continue U a rs (Poll.start u) eq_refl eq_refl Hall
              ltac:(cbn; lia)) as (st & Hrun & Hfl & Hatt & Hon).
  cbn in Hatt. exists st. split; [exact Hrun|]. split; [exact Hatt|].
  assert (Hact : Poll.active st
                 = negb (Poll.maxAttempts a <=? Z.of_nat (List.length rs))%Z).
  { destruct rs as [|r rs'].
    - cbn in Hrun. injection Hrun as <-. cbn.
      symmetry. apply negb_true_iff, Z.leb_gt. lia.
    - rewrite <- Hatt. apply Hon. discriminate. }
  split; [exact Hact|].
  intros Heq r. unfold Poll.rounds. rewrite flat_map_app.
  fold (Poll.rounds rs).
  assert (Hoff : Poll.active st = false).
  { rewrite Hact. apply negb_false_iff, Z.leb_le. lia. }
  clear - Hrun Hoff. revert Hrun. generalize (Poll.start u).
  induction (Poll.rounds rs) as [|ev evs IH]; intros s0 Hrun.
  - cbn in Hrun. injection Hrun as ->. cbn [app flat_map Poll.run].
    now rewrite (PollFacts.step_Tick_inactive U a st Hoff).
  - cbn [app Poll.run] in *. destruct (Poll.step a ev s0) as [s1|]; [|discriminate].
    now apply IH.
Qed.

(** [monitorizarEjecucion] with nothing but [PENDIENTE]: 120 requests, then
    the timer is cleared and a 121st round cannot take place. *)
Lemma poll_agota_tope_witness :
  exists st,
    Poll.run (Monitor.monitorizarEjecucion "7")
             (Poll.rounds (repeat (Poll.Resolved (Monitor.respuesta "PENDIENTE")) 120))
             (Poll.start []) = Some st
    /\ Poll.attempts st = 120%Z
    /\ Poll.active st = false
    /\ Poll.run (Monitor.monitorizarEjecucion "7")
                (Poll.rounds (repeat (Poll.Resolved (Monitor.respuesta "PENDIENTE")) 120
                              ++ [Poll.Resolved (Monitor.respuesta "PENDIENTE")]))
                (Poll.start []) = None.
Proof.
  assert (Hall : Forall (Cuenta.continues (Monitor.monitorizarEjecucion "7"))
                        (repeat (Poll.Resolved (Monitor.respuesta "PENDIENTE")) 120)).
  { apply Forall_forall. intros r Hr. apply repeat_spec in Hr. subst r.
    exists (Monitor.respuesta "PENDIENTE"). split; [reflexivity|]. reflexivity. }
  destruct (poll_agota_tope _ (Monitor.monitorizarEjecucion "7")
              (repeat (Poll.Resolved (Monitor.respuesta "PENDIENTE")) 120) []
              ltac:(cbn; lia) Hall ltac:(rewrite repeat_length; cbn; lia))
    as (st & Hrun & Hatt & Hact & Hnext).
  exists st. split; [exact Hrun|]. rewrite repeat_length in *.
  split; [exact Hatt|]. split; [exact Hact|].
  apply Hnext. reflexivity.
Defined.

(* ================================================================== *)
(** * [monitorizarEjecucion]: every schedule, and one request at a time *)
(* ================================================================== *)

Module MonitorMore.
Import Poll Monitor.

Lemma updates_calls (rs : list Response) :
  Cuenta.updates (flat_map calls rs) = Cuenta.bodies rs.
Proof.
  induction rs as [|[data|e] rs IH]; cbn; [reflexivity| |exact IH].
  unfold Cuenta.updates in *. rewrite flat_map_app, IH.
  destruct (terminal data); reflexivity.
Qed.

Lemma completes_calls (rs : list Response) :
  Cuenta.completes (flat_map calls rs) = filter terminal (Cuenta.bodies rs).
Proof.
  induction rs as [|[data|e] rs IH]; cbn; [reflexivity| |exact IH].
  unfold Cuenta.completes in *. rewrite flat_map_app, IH.
  destruct (terminal data); reflexivity.
Qed.

Lemma settled_rounds (rs : list Response) : settled (rounds rs) = rs.
Proof.
  induction rs as [|r rs IH]; [reflexivity|].
  change (settled (rounds (r :: rs))) with (r :: settled (rounds rs)).
  now rewrite IH.
Qed.

(** The callback asks to go on exactly for a body that has an [estado] to
    read and is not in a terminal state. *)
Lemma callback_true (data : JsVal) (n : Z) (log : list Call) :
  fst (callback data n log) = Normal true ->
  terminal data = false /\ calls (Resolved data) = [OnUpdate data].
Proof.
  unfold callback, calls, terminal.
  destruct (estado data) as [est|e]; [|discriminate].
  destruct (is_string "COMPLETADA" est || is_string "ERROR" est);
    [discriminate | now split].
Qed.

Section WithArgs.

Variable U : Type.
Variable a : Args U.

(** A timer still armed after a settlement: data arrived and the callback
    asked to go on. *)
Lemma after_await_active (r : Response) (s : State U) :
  active (snd (after_await a r s)) = true ->
  exists data, r = Resolved data
               /\ fst (Poll.callback a data (attempts s) (user s)) = Normal true.
Proof.
  destruct r as [data|e].
  - rewrite PollFacts.after_await_resolved. intros H. exists data.
    split; [reflexivity|].
    destruct (Poll.callback a data (attempts s) (user s)) as [[sc|e] u];
      cbv zeta in H; cbn [fst].
    + destruct sc; [reflexivity|]. cbn in H. discriminate.
    + cbn in H. discriminate.
  - rewrite PollFacts.after_await_rejected. cbn. discriminate.
Qed.

(** One request at a time: every answer but the last made the callback ask
    to go on. *)
Lemma rounds_all_but_last (rs : list Response) :
  forall r s st,
    run a (rounds (rs ++ [r])) s = Some st ->
    Forall (fun r' => exists data n u,
                r' = Resolved data
                /\ fst (Poll.callback a data n u) = Normal true) rs.
Proof.
  induction rs as [|r' rs IH]; intros r s st Hrun; [constructor|].
  change (rounds ((r' :: rs) ++ [r]))
    with (Tick :: Settle r' :: rounds (rs ++ [r])) in Hrun.
  cbn [run] in Hrun.
  destruct (step a Tick s) as [s1|] eqn:H1; [|discriminate].
  destruct (step a (Settle r') s1) as [s2|] eqn:H2; [|discriminate].
  constructor; [|now apply (IH r s2 st)].
  assert (Hon : active s2 = true).
  { destruct (active s2) eqn:E; [reflexivity|].
    destruct rs as [|x rs']; cbn [app rounds flat_map run] in Hrun;
      now rewrite (PollFacts.step_Tick_inactive U a s2 E) in Hrun. }
  destruct (in_flight s1) as [|n] eqn:Hfl;
    [simpl in H2; rewrite Hfl in H2; discriminate|].
  rewrite (PollFacts.step_Settle U a r' s1 n Hfl) in H2. injection H2 as <-.
  apply after_await_active in Hon as (data & -> & Hcb).
  now exists data, (attempts s1), (user s1).
Qed.

End WithArgs.

End MonitorMore.

(** X6. In any order of events, [monitorizarEjecucion] calls [onUpdate]
    once for every request that delivers a body, with that body and in the
    order of delivery, and [onComplete] once for every delivered body whose
    [estado] is [COMPLETADA] or [ERROR], right after the [onUpdate] for the
    same body. A failed request causes no call. *)
Theorem monitor_llamadas
        (ejecucionId : string) (evs : list Poll.Event)
        (st : Poll.State (list Monitor.Call)) :
  Poll.run (Monitor.monitorizarEjecucion ejecucionId) evs (Poll.start [])
    = Some st ->
  Poll.user st = flat_map Monitor.calls (Poll.settled evs)
  /\ Cuenta.updates (Poll.user st) = Cuenta.bodies (Poll.settled evs)
  /\ Cuenta.completes (Poll.user st)
     = filter Monitor.terminal (Cuenta.bodies (Poll.settled evs)).
Proof.
  intros Hrun.
  pose proof (MonitorFacts.user_run ejecucionId evs _ st Hrun) as Hu.
  cbn [Poll.user Poll.start app] in Hu. rewrite Hu.
  split; [reflexivity|]. split.
  - apply MonitorMore.updates_calls.
  - apply MonitorMore.completes_calls.
Qed.

(** Two requests in flight, both answered [COMPLETADA]: [onComplete] is
    called twice. *)
Lemma monitor_llamadas_witness :
  exists st,
    Poll.run (Monitor.monitorizarEjecucion "7")
             [Poll.Tick; Poll.Tick;
              Poll.Settle (Poll.Resolved (Monitor.respuesta "COMPLETADA"));
              Poll.Settle (Poll.Resolved (Monitor.respuesta "COMPLETADA"))]
             (Poll.start []) = Some st
    /\ Cuenta.completes (Poll.user st)
       = [Monitor.respuesta "COMPLETADA"; Monitor.respuesta "COMPLETADA"].
Proof.
  destruct (Poll.run (Monitor.monitorizarEjecucion "7")
              [Poll.Tick; Poll.Tick;
               Poll.Settle (Poll.Resolved (Monitor.respuesta "COMPLETADA"));
               Poll.Settle (Poll.Resolved (Monitor.respuesta "COMPLETADA"))]
              (Poll.start [])) as [st|] eqn:Hrun; [|discriminate Hrun].
  exists st. split; [reflexivity|].
  destruct (monitor_llamadas "7" _ st Hrun) as (_ & _ & Hc).
  rewrite Hc. reflexivity.
Defined.

(** X7. With one request at a time, [onComplete] is called at most once and
    nothing is called after it: every answer before the last one delivered
    a body that is not in a terminal state and caused exactly one
    [onUpdate]; only the last answer can cause [onComplete]. *)
Theorem monitor_una_vez
        (ejecucionId : string) (rs : list Poll.Response) (r : Poll.Response)
        (st : Poll.State (list Monitor.Call)) :
  Poll.run (Monitor.monitorizarEjecucion ejecucionId)
           (Poll.rounds (rs ++ [r])) (Poll.start []) = Some st ->
  Forall (fun r' => exists data,
              r' = Poll.Resolved data /\ Monitor.terminal data = false) rs
  /\ Poll.user st = map Monitor.OnUpdate (Cuenta.bodies rs) ++ Monitor.calls r
  /\ List.length (Cuenta.completes (Poll.user st)) <= 1.
Proof.
  intros Hrun.
  pose proof (MonitorMore.rounds_all_but_last _
                (Monitor.monitorizarEjecucion ejecucionId) rs r _ st Hrun) as Hall.
  assert (Hgo : Forall (fun r' => exists data,
                          r' = Poll.Resolved data
                          /\ Monitor.terminal data = false
                          /\ Monitor.calls r' = [Monitor.OnUpdate data]) rs).
  { eapply Forall_impl; [|exact Hall]. intros r' (data & n & u & -> & Hcb).
    cbn in Hcb. destruct (MonitorMore.callback_true data n u Hcb) as [Ht Hc].
    now exists data. }
  assert (Hcalls : flat_map Monitor.calls rs
                   = map Monitor.OnUpdate (Cuenta.bodies rs)).
  { clear - Hgo. induction Hgo as [|r' rs' (data & -> & _ & Hc) _ IH];
      [reflexivity|].
    cbn [flat_map]. rewrite Hc, IH. reflexivity. }
  assert (Hnone : Cuenta.completes (map Monitor.OnUpdate (Cuenta.bodies rs)) = []).
  { clear. induction (Cuenta.bodies rs) as [|d ds IH]; [reflexivity | exact IH]. }
  pose proof (MonitorFacts.user_run ejecucionId _ _ st Hrun) as Hu.
  rewrite MonitorMore.settled_rounds, flat_map_app in Hu.
  cbn [Poll.user Poll.start app flat_map] in Hu. rewrite app_nil_r, Hcalls in Hu.
  split; [|split; [exact Hu|]].
  - eapply Forall_impl; [|exact Hgo]. intros r' (data & H1 & H2 & _). now exists data.
  - rewrite Hu. unfold Cuenta.completes in *. rewrite flat_map_app, Hnone.
    destruct r as [data|e]; cbn; [|lia].
    destruct (Monitor.terminal data); cbn; lia.
Qed.

(** The run of the four answers [PENDIENTE], [PENDIENTE], [PENDIENTE],
    [COMPLETADA]. *)
Lemma monitor_una_vez_witness :
  exists st,
    Poll.run (Monitor.monitorizarEjecucion "7")
             (Poll.rounds Ejemplos.cuatro_respuestas) (Poll.start []) = Some st
    /\ List.length (Cuenta.completes (Poll.user st)) <= 1.
Proof.
  destruct (Poll.run (Monitor.monitorizarEjecucion "7")
              (Poll.rounds Ejemplos.cuatro_respuestas) (Poll.start []))
    as [st|] eqn:Hrun; [|discriminate Hrun].
  exists st. split; [reflexivity|].
  exact (proj2 (proj2 (monitor_una_vez "7"
           [Poll.Resolved (Monitor.respuesta "PENDIENTE");
            Poll.Resolved (Monitor.respuesta "PENDIENTE");
            Poll.Resolved (Monitor.respuesta "PENDIENTE")]
           (Poll.Resolved (Monitor.respuesta "COMPLETADA")) st Hrun))).
Defined.

(** X8. A body that is [null] ends the polling without [onComplete]:
    [onUpdate] is called with it, reading [data.estado] then throws, the
    handler of [poll] catches the error, logs it and clears the timer. *)
Theorem monitor_cuerpo_null
        (ejecucionId : string) (s : Poll.State (list Monitor.Call)) (n : nat) :
  Poll.in_flight s = S n ->
  exists s',
    Poll.step (Monitor.monitorizarEjecucion ejecucionId)
              (Poll.Settle (Poll.Resolved VNull)) s = Some s'
    /\ Poll.user s' = Poll.user s ++ [Monitor.OnUpdate VNull]
    /\ Poll.trace s'
       = Poll.trace s ++ [Poll.Invoke VNull (Poll.attempts s);
                          Poll.ErrorPolling TypeError; Poll.ClearInterval]
    /\ Poll.active s' = false
    /\ (forall evs s'',
          Poll.run (Monitor.monitorizarEjecucion ejecucionId) evs s' = Some s'' ->
          Cuenta.completes (Poll.user s'')
          = Cuenta.completes (Poll.user s)
            ++ filter Monitor.terminal (Cuenta.bodies (Poll.settled evs))).
Proof.
  intros Hfl.
  rewrite (PollFacts.step_Settle _ (Monitor.monitorizarEjecucion ejecucionId)
             (Poll.Resolved VNull) s n Hfl).
  eexists. split; [reflexivity|].
  rewrite PollFacts.after_await_resolved. cbn.
  split; [reflexivity|]. split; [now rewrite <- app_assoc|].
  split; [reflexivity|].
  intros evs s'' Hrun.
  rewrite (MonitorFacts.user_run ejecucionId evs _ s'' Hrun). cbn [Poll.user].
  unfold Cuenta.completes at 1. rewrite !flat_map_app. cbn [flat_map app].
  rewrite app_nil_r. f_equal. apply MonitorMore.completes_calls.
Qed.

(** The first answer of a monitored execution has a [null] body. *)
Lemma monitor_cuerpo_null_witness :
  exists s',
    Poll.run (Monitor.monitorizarEjecucion "7")
             [Poll.Tick; Poll.Settle (Poll.Resolved VNull)] (Poll.start [])
      = Some s'
    /\ Poll.user s' = [Monitor.OnUpdate VNull]
    /\ Poll.active s' = false.
Proof.
  destruct (monitor_cuerpo_null "7"
              (Poll.mkState 1 true 1
                 [Poll.Fetch "/turnos/ajax/ejecucion/7/estado/?"] [])
              0 eq_refl) as (s' & Hstep & Hu & _ & Hoff & _).
  exists s'. split; [exact Hstep|]. split; [exact Hu | exact Hoff].
Defined.



(* ================================================================== *)
(** * The key a parameter field is serialized under *)
(* ================================================================== *)

Module ClaveFacts.

Lemma split_app_sep (sep : ascii) (a b : string) :
  Str.split sep (a ++ String sep b) = Str.split sep a ++ Str.split sep b.
Proof.
  induction a as [|c a IH]; cbn [String.append Str.split].
  - now rewrite Ascii.eqb_refl.
  - destruct (Ascii.eqb c sep); [now rewrite IH|].
    rewrite IH. pose proof (StrFacts.split_nonempty sep a) as Hne.
    destruct (Str.split sep a) as [|seg rest]; [congruence | reflexivity].
Qed.

Lemma split_no_sep (sep : ascii) (s : string) :
  Str.mem sep s = false -> Str.split sep s = [s].
Proof.
  induction s as [|c s IH]; cbn [Str.mem Str.split]; [reflexivity|].
  intros H. apply orb_false_elim in H as [Hc Hs].
  rewrite Ascii.eqb_sym, Hc, (IH Hs). reflexivity.
Qed.

Lemma pop_app (l1 l2 : list string) :
  l2 <> [] -> Str.pop (l1 ++ l2) = Str.pop l2.
Proof.
  intros Hne. unfold Str.pop. rewrite rev_app_distr.
  destruct (rev l2) as [|x xs] eqn:E; [|reflexivity].
  apply (f_equal (@rev string)) in E. rewrite rev_involutive in E. now subst.
Qed.

(** The last segment of [a_b] is the last segment of [b]. *)
Lemma pop_split_app (a b : string) :
  Str.pop (Str.split "_" (a ++ "_" ++ b)) = Str.pop (Str.split "_" b).
Proof.
  change (a ++ "_" ++ b)%string with (a ++ String "_" b)%string.
  rewrite split_app_sep. apply pop_app. apply StrFacts.split_nonempty.
Qed.

Lemma append_assoc (a b c : string) : ((a ++ b) ++ c = a ++ (b ++ c))%string.
Proof. induction a as [|x a IH]; cbn; [reflexivity | now rewrite IH]. Qed.

End ClaveFacts.

(** X10. The field that [actualizarParametros] names
    [restriccion_dura_param_<index>_<key>] is serialized under the last
    underscore segment of [key], not under [key]: a key without an
    underscore is kept, and of a key [a_b] whose [b] has no underscore only
    [b] is left, whatever the index. *)
Theorem clave_de_parametro (index : nat) (key : string) (input : Dom.Element) :
  Dom.name input
  = ("restriccion_dura_param_" ++ Markup.dec index ++ "_" ++ key)%string ->
  (Str.mem "_" key = false -> paramName input = key)
  /\ (forall a b,
         key = (a ++ "_" ++ b)%string -> Str.mem "_" b = false ->
         paramName input = b).
Proof.
  intros Hname.
  assert (Hpop : Str.pop (Str.split "_" (Dom.name input))
                 = Str.pop (Str.split "_" key)).
  { rewrite Hname.
    rewrite <- (ClaveFacts.append_assoc "restriccion_dura_param_"
                  (Markup.dec index) ("_" ++ key)).
    apply ClaveFacts.pop_split_app. }
  unfold paramName. rewrite Hpop. split.
  - intros Hno. now rewrite (ClaveFacts.split_no_sep "_" key Hno).
  - intros a b -> Hno. rewrite ClaveFacts.pop_split_app.
    now rewrite (ClaveFacts.split_no_sep "_" b Hno).
Qed.

(** The parameters [max_turnos_semana] and [min_dias_libres_semana] of the
    catalogue both come out as [semana]. *)
Lemma clave_de_parametro_witness :
  paramName (Markup.control "input"
               [("type", "number"); ("class", "form-control");
                ("name", "restriccion_dura_param_3_max_turnos_semana")] "5" false)
    = "semana"
  /\ paramName (Markup.control "input"
                  [("type", "number"); ("class", "form-control");
                   ("name", "restriccion_dura_param_12_min_dias_libres_semana")]
                  "2" false)
     = "semana".
Proof.
  split.
  - destruct (clave_de_parametro 3 "max_turnos_semana"
                (Markup.control "input"
                   [("type", "number"); ("class", "form-control");
                    ("name", "restriccion_dura_param_3_max_turnos_semana")] "5" false)
                eq_refl) as [_ H].
    apply (H "max_turnos" "semana"); reflexivity.
  - destruct (clave_de_parametro 12 "min_dias_libres_semana"
                (Markup.control "input"
                   [("type", "number"); ("class", "form-control");
                    ("name", "restriccion_dura_param_12_min_dias_libres_semana")]
                   "2" false)
                eq_refl) as [_ H].
    apply (H "min_dias_libres" "semana"); reflexivity.
Defined.

(* ================================================================== *)
(** * Facts about editing the tree *)
(* ================================================================== *)

Module EditFacts.
Import Dom Edit.

Lemma nodes_siblings (cs : list Element) :
  forall i, map snd (siblings i cs) = flat_map (fun c => map snd (inclusive c)) cs.
Proof.
  induction cs as [|c cs IH]; intros i; [reflexivity|].
  change (siblings i (c :: cs))
    with (([i], c) :: map (fun pe => (i :: fst pe, snd pe)) (descendants c)
                   ++ siblings (S i) cs).
  rewrite map_cons, map_app, map_map. cbn [flat_map]. unfold inclusive at 1.
  cbn [map snd app]. f_equal. apply f_equal2; [|apply IH].
  apply map_ext. now intros [q y].
Qed.

(** The view of an element: itself, then the views of its children. *)
Lemma vista_El (t : string) (a : list (string * string)) (v : string) (k : bool)
      (cs : list Element) :
  vista (El t a v k cs) = (t, a) :: flat_map vista cs.
Proof.
  unfold vista, inclusive. rewrite DomFacts.descendants_siblings.
  cbn [map snd children shallow tagName attributes].
  rewrite nodes_siblings. f_equal.
  induction cs as [|c cs IH]; [reflexivity|].
  cbn [flat_map]. now rewrite map_app, IH.
Qed.

Lemma update_nth_app {A} (f : A -> A) (l1 l2 : list A) (x : A) :
  update_nth (List.length l1) f (l1 ++ x :: l2) = l1 ++ f x :: l2.
Proof. induction l1 as [|y l1 IH]; cbn; [reflexivity | now rewrite IH]. Qed.

Lemma remove_nth_app {A} (l1 l2 : list A) (x : A) :
  remove_nth (List.length l1) (l1 ++ x :: l2) = l1 ++ l2.
Proof. induction l1 as [|y l1 IH]; cbn; [reflexivity | now rewrite IH]. Qed.

Lemma children_split (e : Element) (i : nat) (ch : Element) :
  nth_error (children e) i = Some ch ->
  exists c1 c2, children e = c1 ++ ch :: c2 /\ List.length c1 = i.
Proof. apply nth_error_split. Qed.

Lemma get_cons (i : nat) (p : path) (e x : Element) :
  get (i :: p) e = Some x ->
  exists ch, nth_error (children e) i = Some ch /\ get p ch = Some x.
Proof.
  cbn [get]. destruct (nth_error (children e) i) as [ch|]; [|discriminate].
  intros H. now exists ch.
Qed.

(** ** Appending a child *)

Lemma vista_append (c : Element) (p : path) :
  forall e x,
    get p e = Some x ->
    exists l1 l2,
      vista e = l1 ++ l2 /\ vista (append_child p c e) = l1 ++ vista c ++ l2.
Proof.
  induction p as [|i p IH]; intros [t a v k cs] x Hget.
  - exists (vista (El t a v k cs)), []. split; [now rewrite app_nil_r|].
    cbn [append_child]. rewrite !vista_El, flat_map_app. cbn [flat_map].
    now rewrite !app_nil_r.
  - apply get_cons in Hget as (ch & Hnth & Hget).
    destruct (children_split _ _ _ Hnth) as (c1 & c2 & Hcs & Hlen).
    cbn [children] in Hcs. subst cs i.
    destruct (IH ch x Hget) as (m1 & m2 & Hm & Hm').
    exists ((t, a) :: flat_map vista c1 ++ m1), (m2 ++ flat_map vista c2).
    cbn [append_child]. rewrite update_nth_app, !vista_El, !flat_map_app.
    cbn [flat_map]. rewrite Hm, Hm'. split.
    + cbn [app]. f_equal. now rewrite <- !app_assoc.
    + cbn [app]. f_equal. now rewrite <- !app_assoc.
Qed.

(** ** Removing a node *)

Lemma remove_single (i : nat) (e : Element) :
  remove [i] e
  = El (tagName e) (attributes e) (value e) (checked e) (remove_nth i (children e)).
Proof. now destruct e. Qed.

Lemma remove_deeper (i j : nat) (p : path) (e : Element) :
  remove (i :: j :: p) e
  = El (tagName e) (attributes e) (value e) (checked e)
       (update_nth i (remove (j :: p)) (children e)).
Proof. now destruct e. Qed.

Lemma vista_remove (p : path) :
  forall e x,
    p <> [] -> get p e = Some x ->
    exists l1 l2, vista e = l1 ++ vista x ++ l2 /\ vista (remove p e) = l1 ++ l2.
Proof.
  induction p as [|i p IH]; intros [t a v k cs] x Hne Hget; [congruence|].
  apply get_cons in Hget as (ch & Hnth & Hget).
  destruct (children_split _ _ _ Hnth) as (c1 & c2 & Hcs & Hlen).
  cbn [children] in Hcs. subst cs i.
  destruct p as [|j p].
  - cbn [get] in Hget. injection Hget as ->.
    exists ((t, a) :: flat_map vista c1), (flat_map vista c2).
    rewrite remove_single. cbn [tagName attributes value checked children].
    rewrite remove_nth_app, !vista_El, !flat_map_app. cbn [flat_map].
    split; reflexivity.
  - destruct (IH ch x ltac:(discriminate) Hget) as (m1 & m2 & Hm & Hm').
    exists ((t, a) :: flat_map vista c1 ++ m1), (m2 ++ flat_map vista c2).
    rewrite remove_deeper. cbn [tagName attributes value checked children].
    rewrite update_nth_app, !vista_El, !flat_map_app. cbn [flat_map].
    rewrite Hm, Hm'. split; cbn [app]; f_equal; now rewrite <- !app_assoc.
Qed.

(** ** Replacing children by what was there *)

Lemma update_nth_id {A} (f : A -> A) (l : list A) (i : nat) (x : A) :
  nth_error l i = Some x -> f x = x -> update_nth i f l = l.
Proof.
  revert i; induction l as [|y l IH]; intros [|i] Hn Hf; cbn in *;
    try discriminate.
  - injection Hn as ->. now rewrite Hf.
  - now rewrite (IH i Hn Hf).
Qed.

Lemma set_children_same (p : path) :
  forall e x,
    get p e = Some x -> set_children p (children x) e = e.
Proof.
  induction p as [|i p IH]; intros [t a v k cs] x Hget.
  - cbn in Hget. injection Hget as <-. reflexivity.
  - apply get_cons in Hget as (ch & Hnth & Hget). cbn [children] in Hnth.
    cbn [set_children]. f_equal.
    apply (update_nth_id _ cs i ch Hnth). now apply IH.
Qed.

(** ** Queries on the view *)

Lemma coincide_shallow (sel : Selector) (x : Element) :
  matches sel x = coincide sel (shallow x).
Proof. apply DomFacts.matches_shallow. now destruct x. Qed.

Lemma filter_map_shallow (sel : Selector) (l : list Element) :
  map shallow (filter (matches sel) l) = filter (coincide sel) (map shallow l).
Proof.
  induction l as [|x l IH]; [reflexivity|]. cbn [filter map].
  rewrite <- coincide_shallow. destruct (matches sel x); cbn [map]; now rewrite IH.
Qed.

Lemma filter_snd {A B} (f : B -> bool) (l : list (A * B)) :
  map snd (filter (fun ab => f (snd ab)) l) = filter f (map snd l).
Proof.
  induction l as [|[a b] l IH]; [reflexivity|]. cbn [filter map snd].
  destruct (f b); cbn [map snd]; now rewrite IH.
Qed.

(** What [document.querySelectorAll] finds, as the view shows it. *)
Lemma cards_vista (sel : Selector) (d : Element) :
  map shallow (cards sel d) = filter (coincide sel) (vista d).
Proof.
  unfold cards, document_querySelectorAll, vista.
  now rewrite filter_snd, filter_map_shallow.
Qed.

End EditFacts.

Module EditorFacts.
Import Dom Edit Editor.

(** The [data-index] list is that of the cards [document.querySelectorAll]
    finds. *)
Lemma indices_cards (c : Clase) (d : Element) :
  indices c d = map dataset_index (cards [Class (clase_card c)] d).
Proof.
  unfold indices. rewrite <- EditFacts.cards_vista, map_map.
  apply map_ext. now intros [t a v k cs].
Qed.

Lemma indices_app (c : Clase) (l1 l2 : list (string * list (string * string))) :
  map (fun sh => lookup "data-index" (snd sh))
      (filter (coincide [Class (clase_card c)]) (l1 ++ l2))
  = map (fun sh => lookup "data-index" (snd sh))
        (filter (coincide [Class (clase_card c)]) l1)
    ++ map (fun sh => lookup "data-index" (snd sh))
           (filter (coincide [Class (clase_card c)]) l2).
Proof. now rewrite filter_app, map_app. Qed.

(** A new card is one card of its class and none of the other. *)
Lemma indices_plantilla (c c' : Clase) (index : nat) :
  map (fun sh => lookup "data-index" (snd sh))
      (filter (coincide [Class (clase_card c')]) (vista (plantilla c index)))
  = match c, c' with
    | Duras, Duras | Blandas, Blandas => [Some (Markup.dec index)]
    | _, _ => []
    end.
Proof. destruct c, c'; reflexivity. Qed.

Lemma indices_plantilla_same (c : Clase) (index : nat) :
  map (fun sh => lookup "data-index" (snd sh))
      (filter (coincide [Class (clase_card c)]) (vista (plantilla c index)))
  = [Some (Markup.dec index)].
Proof. destruct c; reflexivity. Qed.

End EditorFacts.

(* ================================================================== *)
(** * Adding and removing cards *)
(* ================================================================== *)

Module EditorMore.
Import Dom Edit Editor.

Lemma estado_con_estado (c c' : Clase) (arr : Arreglo) (ed : t) :
  estado c' (con_estado c arr ed)
  = match c, c' with
    | Duras, Duras | Blandas, Blandas => arr
    | _, _ => estado c' ed
    end.
Proof. destruct c, c'; reflexivity. Qed.

Lemma ultimo_texto_snoc (p : path) (s : string) (l : list (path * string))
      (d : Element) (a b : Arreglo) (qs : list string) :
  ultimo_texto p (mk d a b (l ++ [(p, s)]) qs) = Some s.
Proof.
  unfold ultimo_texto. cbn [textos]. rewrite rev_app_distr. cbn [rev app find fst].
  destruct (list_eq_dec Nat.eq_dec p p); [reflexivity | congruence].
Qed.

(** [actualizarContador] writes the length of the state into the counter
    and leaves a counter that holds text only as it is in the tree. *)
Lemma actualizarContador_spec (c : Clase) (ed : t) :
  estado Duras (actualizarContador c ed) = estado Duras ed
  /\ estado Blandas (actualizarContador c ed) = estado Blandas ed
  /\ preguntas (actualizarContador c ed) = preguntas ed
  /\ (contador_hoja c (pagina ed) -> pagina (actualizarContador c ed) = pagina ed)
  /\ (forall q, getElementById (contador_id c) (pagina ed) = Some q ->
                ultimo_texto q (actualizarContador c ed)
                = Some (Markup.dec (List.length (estado c ed)))).
Proof.
  unfold actualizarContador.
  destruct (getElementById (contador_id c) (pagina ed)) as [q|] eqn:Hq.
  - repeat split.
    + intros Hleaf. cbn [set_text pagina].
      destruct (DomFacts.document_querySelector_get _ _ _ Hq) as (x & Hx & _).
      rewrite <- (Hleaf q x Hq Hx). now apply EditFacts.set_children_same.
    + intros q' [= <-]. apply ultimo_texto_snoc.
  - repeat split. intros q' [=].
Qed.

Lemma length_remove_nth {A} (l : list A) (i : nat) :
  List.length (remove_nth i l)
  = if (i <? List.length l)%nat then List.length l - 1 else List.length l.
Proof.
  revert i; induction l as [|x l IH]; intros [|i]; cbn [remove_nth List.length];
    try reflexivity.
  - destruct (Nat.ltb_spec 0 (S (List.length l))); lia.
  - rewrite IH.
    destruct (Nat.ltb_spec i (List.length l)),
             (Nat.ltb_spec (S i) (S (List.length l))); lia.
Qed.

Lemma nth_error_remove_nth_lt {A} (l : list A) (i j : nat) :
  j < i -> nth_error (remove_nth i l) j = nth_error l j.
Proof.
  revert i j; induction l as [|x l IH]; intros [|i] [|j] H;
    cbn [remove_nth nth_error]; try reflexivity; try lia.
  apply IH. lia.
Qed.

Lemma nth_error_remove_nth_ge {A} (l : list A) (i j : nat) :
  i <= j -> nth_error (remove_nth i l) j = nth_error l (S j).
Proof.
  revert i j; induction l as [|x l IH]; intros [|i] [|j] H;
    cbn [remove_nth nth_error]; try reflexivity; try lia.
  refine (IH i j _). lia.
Qed.

Lemma remove_nth_out {A} (l : list A) (i : nat) :
  List.length l <= i -> remove_nth i l = l.
Proof.
  revert i; induction l as [|x l IH]; intros [|i] H; cbn in *; try reflexivity;
    try lia.
  rewrite IH; [reflexivity | lia].
Qed.

(** The view of a node that matches a card selector starts with a card. *)
Lemma indices_card_nonempty (c : Clase) (index : nat) (x : Element) :
  matches (card_de c index) x = true ->
  exists rest,
    map (fun sh => lookup "data-index" (snd sh))
        (filter (coincide [Class (clase_card c)]) (vista x))
    = Some (Markup.dec index) :: rest.
Proof.
  intros Hm. destruct x as [t a v k cs]. rewrite EditFacts.vista_El.
  unfold card_de, matches in Hm. cbn [forallb] in Hm.
  apply andb_prop in Hm as [Hc Hi]. apply andb_prop in Hi as [Hi _].
  cbn [filter].
  assert (Hco : coincide [Class (clase_card c)] (t, a) = true).
  { unfold coincide, matches. cbn [forallb fst snd]. rewrite andb_true_r.
    exact Hc. }
  rewrite Hco. cbn [map snd]. eexists. f_equal.
  unfold matches_simple, getAttribute in Hi. cbn [attributes] in Hi.
  destruct (lookup "data-index" a) as [s|]; [|discriminate].
  apply String.eqb_eq in Hi. now subst.
Qed.

End EditorMore.

(** X11. [agregarRestriccion] does nothing without its container. With it,
    the state of its class grows by one empty entry and the page by one
    card of that class, the last child of the container, numbered with the
    length the state had; the other class keeps its state and its cards; no
    question is asked; and the counter, when the page has one, is assigned
    the new length (a counter that holds text only leaves the rest of the
    page as the insertion left it). *)
Theorem agregar_una_tarjeta (c : Editor.Clase) (ed : Editor.t) :
  match Dom.getElementById (Editor.contenedor_id c) (Editor.pagina ed) with
  | None => Editor.agregarRestriccion c ed = ed
  | Some p =>
      let n := List.length (Editor.estado c ed) in
      let d1 := Edit.append_child p (Editor.plantilla c n) (Editor.pagina ed) in
      let ed' := Editor.agregarRestriccion c ed in
      Editor.estado c ed' = Editor.estado c ed ++ [Some Editor.Vacia]
      /\ (forall c', c' <> c -> Editor.estado c' ed' = Editor.estado c' ed)
      /\ (exists l1 l2,
             Editor.indices c (Editor.pagina ed) = l1 ++ l2
             /\ Editor.indices c d1 = l1 ++ Some (Markup.dec n) :: l2)
      /\ (forall c', c' <> c ->
                     Editor.indices c' d1 = Editor.indices c' (Editor.pagina ed))
      /\ (Editor.contador_hoja c d1 -> Editor.pagina ed' = d1)
      /\ (forall q,
             Dom.getElementById (Editor.contador_id c) d1 = Some q ->
             Editor.ultimo_texto q ed' = Some (Markup.dec (S n)))
      /\ Editor.preguntas ed' = Editor.preguntas ed
  end.
Proof.
  unfold Editor.agregarRestriccion.
  destruct (Dom.getElementById (Editor.contenedor_id c) (Editor.pagina ed))
    as [p|] eqn:Hp; [|reflexivity].
  cbv zeta.
  set (n := List.length (Editor.estado c ed)).
  set (d1 := Edit.append_child p (Editor.plantilla c n) (Editor.pagina ed)).
  set (ed2 := Editor.con_estado c _ _).
  destruct (EditorMore.actualizarContador_spec c ed2) as (Hd & Hb & Hq & Hpag & Htxt).
  assert (Hest : Editor.estado c ed2 = Editor.estado c ed ++ [Some Editor.Vacia]).
  { subst ed2. rewrite EditorMore.estado_con_estado. now destruct c. }
  assert (Hpag2 : Editor.pagina ed2 = d1) by (subst ed2; now destruct c).
  destruct (DomFacts.document_querySelector_get _ _ _ Hp) as (x & Hx & _).
  destruct (EditFacts.vista_append (Editor.plantilla c n) p _ x Hx)
    as (v1 & v2 & Hv & Hv').
  fold d1 in Hv'.
  split; [|split; [|split; [|split; [|split; [|split]]]]].
  - destruct c; [now rewrite Hd | now rewrite Hb].
  - intros c' Hne. destruct c, c'; try congruence;
      [rewrite Hb | rewrite Hd]; reflexivity.
  - exists (map (fun sh => Dom.lookup "data-index" (snd sh))
                (filter (Edit.coincide [Dom.Class (Editor.clase_card c)]) v1)),
           (map (fun sh => Dom.lookup "data-index" (snd sh))
                (filter (Edit.coincide [Dom.Class (Editor.clase_card c)]) v2)).
    unfold Editor.indices. rewrite Hv, Hv'.
    rewrite !EditorFacts.indices_app, EditorFacts.indices_plantilla_same.
    split; reflexivity.
  - intros c' Hne. unfold Editor.indices. rewrite Hv, Hv'.
    rewrite !EditorFacts.indices_app, EditorFacts.indices_plantilla.
    destruct c, c'; try congruence; reflexivity.
  - intros Hleaf. rewrite Hpag; [exact Hpag2 | now rewrite Hpag2].
  - intros q Hq'. rewrite (Htxt q); [|now rewrite Hpag2].
    rewrite Hest, length_app. cbn [List.length].
    replace (List.length (Editor.estado c ed) + 1) with (S n)
      by (subst n; lia).
    reflexivity.
  - rewrite Hq. subst ed2. now destruct c.
Qed.

(** X12. [agregarRestriccion] takes the number of the new card from the
    length of the state and does not look at the page: when a card of the
    class already carries that number, two cards carry it afterwards. *)
Theorem indice_repetido (c : Editor.Clase) (ed : Editor.t) (p : Dom.path) :
  Dom.getElementById (Editor.contenedor_id c) (Editor.pagina ed) = Some p ->
  Editor.contador_hoja c
    (Edit.append_child p
       (Editor.plantilla c (List.length (Editor.estado c ed))) (Editor.pagina ed)) ->
  In (Some (Markup.dec (List.length (Editor.estado c ed))))
     (Editor.indices c (Editor.pagina ed)) ->
  exists l1 l2 l3,
    Editor.indices c (Editor.pagina (Editor.agregarRestriccion c ed))
    = l1 ++ Some (Markup.dec (List.length (Editor.estado c ed)))
         :: l2 ++ Some (Markup.dec (List.length (Editor.estado c ed))) :: l3.
Proof.
  intros Hp Hleaf Hin.
  unfold Editor.agregarRestriccion. rewrite Hp. cbv zeta.
  set (n := List.length (Editor.estado c ed)) in *.
  set (d1 := Edit.append_child p (Editor.plantilla c n) (Editor.pagina ed)) in *.
  set (ed2 := Editor.con_estado c _ _).
  assert (Hpag2 : Editor.pagina ed2 = d1) by (subst ed2; now destruct c).
  destruct (EditorMore.actualizarContador_spec c ed2) as (_ & _ & _ & Hpag & _).
  rewrite Hpag, Hpag2 by (now rewrite Hpag2).
  destruct (DomFacts.document_querySelector_get _ _ _ Hp) as (x & Hx & _).
  destruct (EditFacts.vista_append (Editor.plantilla c n) p _ x Hx)
    as (v1 & v2 & Hv & Hv').
  fold d1 in Hv'. unfold Editor.indices in *. rewrite Hv in Hin. rewrite Hv'.
  rewrite !EditorFacts.indices_app in *.
  rewrite EditorFacts.indices_plantilla_same.
  set (r1 := map _ (filter _ v1)) in *. set (r2 := map _ (filter _ v2)) in *.
  apply in_app_or in Hin as [Hin | Hin]; apply in_split in Hin as (a & b & Hab);
    rewrite Hab.
  - exists a, b, r2. rewrite <- app_assoc. reflexivity.
  - exists r1, a, b. reflexivity.
Qed.

(** Two cards added, the first removed, one more added: the two cards left
    both carry the number 1. *)
Lemma indice_repetido_witness :
  Editor.indices Editor.Blandas
    (Editor.pagina (Editor.agregarRestriccion Editor.Blandas
                      (Taller.tras_borrar Editor.Blandas)))
  = [Some "1"; Some "1"].
Proof.
  destruct (indice_repetido Editor.Blandas (Taller.tras_borrar Editor.Blandas)
              [1; 2; 1] eq_refl) as (l1 & l2 & l3 & H).
  - intros q x Hq Hx. vm_compute in Hq. injection Hq as <-.
    vm_compute in Hx. injection Hx as <-. reflexivity.
  - vm_compute. now left.
  - clear H. vm_compute. reflexivity.
Defined.

(** X13. [eliminarRestriccion] asks only when it finds a card with the
    number, and changes nothing when the answer is no. When the answer is
    yes the card found is taken out of the page and the state loses the
    entry at position [index], if it has one: the entries before [index]
    stay where they are and those after it move down by one, so with
    [index] below the length of the state the state gets one shorter;
    otherwise the card goes and the state stays as it was, and the counter
    is assigned that same length although the page has lost a card. *)
Theorem eliminar_tarjeta
        (confirm : string -> bool) (c : Editor.Clase) (index : nat)
        (ed : Editor.t) :
  match Dom.document_querySelector (Editor.card_de c index) (Editor.pagina ed) with
  | None => Editor.eliminarRestriccion confirm c index ed = ed
  | Some q =>
      let ed' := Editor.eliminarRestriccion confirm c index ed in
      let d1 := Edit.remove q (Editor.pagina ed) in
      Editor.preguntas ed' = Editor.preguntas ed ++ [Editor.pregunta c]
      /\ (confirm (Editor.pregunta c) = false ->
          Editor.pagina ed' = Editor.pagina ed
          /\ Editor.duras_st ed' = Editor.duras_st ed
          /\ Editor.blandas_st ed' = Editor.blandas_st ed
          /\ Editor.textos ed' = Editor.textos ed)
      /\ (confirm (Editor.pregunta c) = true ->
          List.length (Editor.estado c ed')
          = (if (index <? List.length (Editor.estado c ed))%nat
             then List.length (Editor.estado c ed) - 1
             else List.length (Editor.estado c ed))
          /\ (forall j, j < index ->
                        nth_error (Editor.estado c ed') j
                        = nth_error (Editor.estado c ed) j)
          /\ (forall j, index <= j ->
                        nth_error (Editor.estado c ed') j
                        = nth_error (Editor.estado c ed) (S j))
          /\ (List.length (Editor.estado c ed) <= index ->
              Editor.estado c ed' = Editor.estado c ed)
          /\ (forall c', c' <> c -> Editor.estado c' ed' = Editor.estado c' ed)
          /\ (Editor.contador_hoja c d1 -> Editor.pagina ed' = d1)
          /\ (q <> [] ->
              List.length (Editor.indices c d1)
              < List.length (Editor.indices c (Editor.pagina ed)))
          /\ (forall qc,
                 Dom.getElementById (Editor.contador_id c) d1 = Some qc ->
                 Editor.ultimo_texto qc ed'
                 = Some (Markup.dec (List.length (Editor.estado c ed')))))
  end.
Proof.
  unfold Editor.eliminarRestriccion.
  destruct (Dom.document_querySelector (Editor.card_de c index) (Editor.pagina ed))
    as [q|] eqn:Hq; [|reflexivity].
  cbv zeta. destruct (confirm (Editor.pregunta c)) eqn:Hyes.
  - set (ed2 := Editor.con_estado c _ _).
    destruct (EditorMore.actualizarContador_spec c ed2)
      as (Hd & Hb & Hask & Hpag & Htxt).
    assert (Hest : Editor.estado c ed2
                   = Editor.splice1 index (Editor.estado c ed)).
    { subst ed2. rewrite EditorMore.estado_con_estado. now destruct c. }
    assert (Hpag2 : Editor.pagina ed2 = Edit.remove q (Editor.pagina ed))
      by (subst ed2; now destruct c).
    assert (Hsame : Editor.estado c (Editor.actualizarContador c ed2)
                    = Editor.estado c ed2)
      by (destruct c; [exact Hd | exact Hb]).
    split; [rewrite Hask; subst ed2; now destruct c|].
    split; [discriminate|]. intros _.
    split; [|split; [|split; [|split; [|split; [|split; [|split]]]]]].
    + rewrite Hsame, Hest. apply EditorMore.length_remove_nth.
    + intros j Hj. rewrite Hsame, Hest. now apply EditorMore.nth_error_remove_nth_lt.
    + intros j Hj. rewrite Hsame, Hest. now apply EditorMore.nth_error_remove_nth_ge.
    + intros Hout. rewrite Hsame, Hest. now apply EditorMore.remove_nth_out.
    + intros c' Hne. destruct c, c'; try congruence;
        [rewrite Hb | rewrite Hd]; reflexivity.
    + intros Hleaf. rewrite Hpag; [exact Hpag2 | now rewrite Hpag2].
    + intros Hne.
      destruct (DomFacts.document_querySelector_get _ _ _ Hq) as (x & Hx & Hm).
      destruct (EditFacts.vista_remove q _ x Hne Hx) as (v1 & v2 & Hv & Hv').
      destruct (EditorMore.indices_card_nonempty c index x Hm) as (rest & Hrest).
      unfold Editor.indices. rewrite Hv, Hv'.
      rewrite !EditorFacts.indices_app, Hrest, !length_app. cbn [List.length]. lia.
    + intros qc Hqc. rewrite (Htxt qc); [|now rewrite Hpag2].
      now rewrite Hsame.
  - split; [reflexivity|]. split; [now repeat split | discriminate].
Qed.

(** After two cards were added and the first removed, the state has one
    entry and the card left carries the number 1. Removing that card leaves
    a page without cards while the state, and the counter, still say 1. *)
Lemma eliminar_tarjeta_witness :
  let ed := Taller.tras_borrar Editor.Duras in
  let ed' := Editor.eliminarRestriccion Taller.si Editor.Duras 1 ed in
  Editor.indices Editor.Duras (Editor.pagina ed) = [Some "1"]
  /\ Editor.indices Editor.Duras (Editor.pagina ed') = []
  /\ List.length (Editor.estado Editor.Duras ed') = 1
  /\ Editor.ultimo_texto [1; 0; 0] ed' = Some "1".
Proof.
  intros ed ed'.
  pose proof (eliminar_tarjeta Taller.si Editor.Duras 1 ed) as H.
  assert (Hq : Dom.document_querySelector (Editor.card_de Editor.Duras 1)
                 (Editor.pagina ed) = Some [1; 2; 0; 0]) by reflexivity.
  rewrite Hq in H. cbv zeta in H. destruct H as (_ & _ & H).
  destruct (H eq_refl) as (Hlen & _ & _ & _ & _ & _ & _ & Htxt).
  split; [reflexivity|]. split; [reflexivity|]. split.
  - fold ed' in Hlen. rewrite Hlen. reflexivity.
  - fold ed' in Htxt. rewrite (Htxt [1; 0; 0] eq_refl). fold ed' in Hlen.
    now rewrite Hlen.
Defined.

(* ================================================================== *)
(** * From the catalogue to the payload *)
(* ================================================================== *)

(** X14. For every type of the hard catalogue: on the empty configuration
    page, a card is added and the type is picked in its select. The handler
    returns, the state records the type at position 0, and the form then
    serializes to one hard constraint with that name, switched on, whose
    parameters are the defaults of the catalogue, each under the last
    underscore segment of its key ([semana], [descanso], [consecutivos],
    [consecutivas]), and to no soft constraint. *)
Theorem tipo_dura_enviado (tipo : string) (def : Catalogo.Dura) :
  In (tipo, def) Catalogo.duras ->
  let paso := Handlers.elegir_dura 0 tipo
                (Editor.agregarRestriccion Editor.Duras Taller.inicio) in
  snd paso = Normal tt
  /\ Editor.duras_st (fst paso) = [Some (Editor.EntradaDura tipo true [])]
  /\ serializarRestricciones (Editor.pagina (fst paso))
     = Normal (mkRestricciones
                 [Dura.mk tipo true (Handlers.parametros_enviados def)] []).
Proof.
  intros Hin. cbv zeta.
  repeat (destruct Hin as [Heq | Hin];
          [injection Heq as <- <-; vm_compute; repeat split|]).
  contradiction.
Qed.

(** [horas_semanales_max]: the parameter [max_turnos_semana] arrives as
    [semana]. *)
Lemma tipo_dura_enviado_witness :
  serializarRestricciones
    (Editor.pagina
       (fst (Handlers.elegir_dura 0 "horas_semanales_max"
               (Editor.agregarRestriccion Editor.Duras Taller.inicio))))
  = Normal (mkRestricciones
              [Dura.mk "horas_semanales_max" true [("semana", VNum (Num 5))]] []).
Proof.
  destruct (tipo_dura_enviado "horas_semanales_max"
              (Catalogo.mkDura "Máximo Horas Semanales"
                 "Máximo de turnos que una enfermera puede trabajar por semana"
                 "fa-calendar-week"
                 [("max_turnos_semana",
                   Catalogo.mkParametro "number" "Máximo turnos por semana" 5 1 7 None
                     (Some "Número máximo de turnos por semana"))]))
    as (_ & _ & H).
  - do 4 right. left. reflexivity.
  - exact H.
Defined.
(** X15. For every type of the soft catalogue, provided the host prints the
    default weights of the catalogue so that [parseFloat] reads them back:
    on the empty configuration page, a card is added and the type is picked
    in its select. The handler returns, the slider and the number field
    both hold the printed default, the state records type and default at
    position 0, and the form serializes to one soft constraint with that
    name, switched on, whose weight is the default of the catalogue, a
    number in [0, 10]. *)
Theorem tipo_blanda_enviado
        (Number_toString : JsNum -> string) (tipo : string) (def : Catalogo.Blanda) :
  (forall k d, In (k, d) Catalogo.blandas ->
               Number.parseFloat (Number_toString (Catalogo.peso_default d))
               = Catalogo.peso_default d) ->
  In (tipo, def) Catalogo.blandas ->
  let paso := Handlers.elegir_blanda Number_toString 0 tipo
                (Editor.agregarRestriccion Editor.Blandas Taller.inicio) in
  snd paso = Normal tt
  /\ Dom.value_at [1; 2; 1; 0; 1; 0; 1; 0; 1] (Editor.pagina (fst paso))
     = Some (Number_toString (Catalogo.peso_default def))
  /\ Dom.value_at [1; 2; 1; 0; 1; 0; 1; 0; 2] (Editor.pagina (fst paso))
     = Some (Number_toString (Catalogo.peso_default def))
  /\ Editor.blandas_st (fst paso)
     = [Some (Editor.EntradaBlanda tipo true (Catalogo.peso_default def))]
  /\ serializarRestricciones (Editor.pagina (fst paso))
     = Normal (mkRestricciones
                 [] [Blanda.mk tipo true (Catalogo.peso_default def) []])
  /\ Number.in_0_10 (Catalogo.peso_default def).
Proof.
  intros Hhost Hin. cbv zeta.
  pose proof (Hhost tipo def Hin) as Hrt.
  repeat (destruct Hin as [Heq | Hin];
          [injection Heq as <- <-;
           cbn [Catalogo.peso_default] in Hrt |- *;
           split; [vm_compute; reflexivity|];
           split; [vm_compute; reflexivity|];
           split; [vm_compute; reflexivity|];
           split; [vm_compute; reflexivity|];
           split; [|unfold Number.in_0_10; split; unfold Qle; cbn; lia];
           lazy -[Number.parseFloat];
           rewrite Hrt; reflexivity|]).
  contradiction.
Qed.

(** The stand-in printer prints the seven defaults as [3], [2], [5], [1.5],
    [2], [1], [4]; picking [minimizar_cambios_turno] gives the weight 3/2. *)
Lemma tipo_blanda_enviado_witness :
  serializarRestricciones
    (Editor.pagina
       (fst (Handlers.elegir_blanda Handlers.imprimir 0 "minimizar_cambios_turno"
               (Editor.agregarRestriccion Editor.Blandas Taller.inicio))))
  = Normal (mkRestricciones
              [] [Blanda.mk "minimizar_cambios_turno" true (Num (3 # 2)) []]).
Proof.
  destruct (tipo_blanda_enviado Handlers.imprimir "minimizar_cambios_turno"
              (Catalogo.mkBlanda "Minimizar Cambios de Turno"
                 "Evitar cambios frecuentes de turno" "fa-arrows-rotate"
                 (Num (3 # 2))))
    as (_ & _ & _ & _ & H & _).
  - intros k d Hin.
    repeat (destruct Hin as [Heq | Hin]; [injection Heq as <- <-; reflexivity|]).
    contradiction.
  - do 3 right. left. reflexivity.
  - exact H.
Defined.

(* ================================================================== *)
(** * The functions of the application *)
(* ================================================================== *)

(** X16. The three readers of the application ([obtenerEstadoEjecucion],
    [buscarEnfermeras], [obtenerEstadisticasDashboard]) each send one [GET]
    without body and without token. The three writers
    ([validarConfiguracion], [duplicarConfiguracion], [guardarPreferencias])
    each send one [POST] that carries the token; the first two send the
    empty object as body, the third the preferences. And every request of
    [monitorizarEjecucion] goes to the address [obtenerEstadoEjecucion]
    asks for the same execution, when the host prints no parameters as the
    empty string. *)
Theorem funciones_de_la_app
        (URLSearchParams_toString : list (string * string) -> string)
        (JSON_stringify : JsVal -> string)
        (decodeURIComponent : string -> Completion string)
        (net : Http.Request -> Http.Outcome)
        (pg : Page) (ejecucionId termino configuracionId : string)
        (preferencias : JsVal) :
  URLSearchParams_toString [] = "" ->
  Forall (fun r => exists req,
              Http.sent r = [req]
              /\ Http.method req = Some "GET"
              /\ Http.header "X-CSRFToken" req = None
              /\ Http.body req = Http.NoBody)
         [Http.obtenerEstadoEjecucion URLSearchParams_toString net ejecucionId;
          Http.buscarEnfermeras URLSearchParams_toString net termino;
          Http.obtenerEstadisticasDashboard URLSearchParams_toString net]
  /\ (forall token,
         getCSRFToken decodeURIComponent pg = Normal token ->
         Forall (fun rb => exists req,
                     Http.sent (fst rb) = [req]
                     /\ Http.method req = Some "POST"
                     /\ Http.header "X-CSRFToken" req = Some token
                     /\ Http.body req = Http.JsonBody (JSON_stringify (snd rb)))
                [(Http.validarConfiguracion JSON_stringify decodeURIComponent net
                    pg configuracionId, VObj []);
                 (Http.duplicarConfiguracion JSON_stringify decodeURIComponent net
                    pg configuracionId, VObj []);
                 (Http.guardarPreferencias JSON_stringify decodeURIComponent net
                    pg preferencias, preferencias)])
  /\ (forall evs st,
         Poll.run (Monitor.monitorizarEjecucion ejecucionId) evs (Poll.start [])
           = Some st ->
         exists req,
           Http.sent (Http.obtenerEstadoEjecucion URLSearchParams_toString net
                        ejecucionId) = [req]
           /\ Forall (eq (Http.address req)) (Poll.requests st)).
Proof.
  intros Hvacio. split; [|split].
  - repeat constructor; eexists; (split; [reflexivity|]); repeat split.
  - intros token Htok.
    repeat constructor; cbn [fst snd];
      unfold Http.validarConfiguracion, Http.duplicarConfiguracion,
        Http.guardarPreferencias, Http.post, Http.with_token;
      rewrite Htok; eexists; (split; [reflexivity|]); repeat split.
  - intros evs st Hrun.
    eexists. split; [reflexivity|].
    destruct (PollMore.run_accounting _ _ evs (Poll.start []) st Hrun)
      as (_ & Hreq & _).
    cbn [Poll.start Poll.requests app] in Hreq. rewrite Hreq.
    cbn [Http.get_request Http.address Http.fullUrl]. rewrite Hvacio.
    apply Forall_forall. intros x Hx. apply repeat_spec in Hx. subst x.
    reflexivity.
Qed.

(** Two polls of execution 7 go where [obtenerEstadoEjecucion("7")] goes. *)
Lemma funciones_de_la_app_witness :
  let toS := fun kvs : list (string * string) =>
               String.concat "&" (map (fun kv => fst kv ++ "=" ++ snd kv)%string kvs) in
  let net := fun _ : Http.Request =>
               Http.Answered (Http.mkAnswer true 200 (Normal VNull)) in
  exists st req,
    Poll.run (Monitor.monitorizarEjecucion "7") [Poll.Tick; Poll.Tick]
             (Poll.start []) = Some st
    /\ Http.sent (Http.obtenerEstadoEjecucion toS net "7") = [req]
    /\ Forall (eq (Http.address req)) (Poll.requests st).
Proof.
  intros toS net.
  destruct (Poll.run (Monitor.monitorizarEjecucion "7") [Poll.Tick; Poll.Tick]
              (Poll.start [])) as [st|] eqn:Hrun; [|discriminate Hrun].
  destruct (funciones_de_la_app toS (fun _ => "{}") (fun s => Normal s) net
              (mkPage (Ejemplos.pagina_csrf (Some "F") None) "" [])
              "7" "ana" "3" VNull eq_refl)
    as (_ & _ & Hpoll).
  destruct (Hpoll _ st Hrun) as (req & Hsent & Hall).
  exists st, req. split; [reflexivity|]. split; [exact Hsent | exact Hall].
Defined.

(* ================================================================== *)
(** * What the type handlers do to the state *)
(* ================================================================== *)

Module AsignarFacts.
Import Editor.

Lemma update_nth_length {A} (f : A -> A) (l : list A) :
  forall i, List.length (Dom.update_nth i f l) = List.length l.
Proof.
  induction l as [|x l IH]; intros [|i]; cbn; [reflexivity .. |].
  now rewrite IH.
Qed.

Lemma update_nth_same {A} (f : A -> A) (l : list A) :
  forall i, i < List.length l ->
            nth_error (Dom.update_nth i f l) i = option_map f (nth_error l i).
Proof.
  induction l as [|x l IH]; intros [|i] Hi; cbn in *; try lia; [reflexivity|].
  apply IH. lia.
Qed.

Lemma update_nth_other {A} (f : A -> A) (l : list A) :
  forall i j, j <> i -> nth_error (Dom.update_nth i f l) j = nth_error l j.
Proof.
  induction l as [|x l IH]; intros [|i] [|j] Hne; cbn; try reflexivity;
    try congruence.
  apply IH. congruence.
Qed.

Lemma asignar_length (i : nat) (x : Entrada) (l : Arreglo) :
  List.length (asignar i x l) = Nat.max (List.length l) (S i).
Proof.
  unfold asignar. destruct (Nat.ltb_spec i (List.length l)).
  - rewrite update_nth_length. lia.
  - rewrite !length_app, repeat_length. cbn. lia.
Qed.

Lemma asignar_same (i : nat) (x : Entrada) (l : Arreglo) :
  nth_error (asignar i x l) i = Some (Some x).
Proof.
  unfold asignar. destruct (Nat.ltb_spec i (List.length l)) as [Hlt|Hge].
  - rewrite update_nth_same by exact Hlt.
    destruct (nth_error l i) eqn:Hn; [reflexivity|].
    apply nth_error_None in Hn. lia.
  - rewrite nth_error_app2 by lia.
    rewrite nth_error_app2 by (rewrite repeat_length; lia).
    rewrite repeat_length.
    replace (i - List.length l - (i - List.length l)) with 0 by lia.
    reflexivity.
Qed.

Lemma asignar_other (i j : nat) (x : Entrada) (l : Arreglo) :
  j <> i -> j < List.length l ->
  nth_error (asignar i x l) j = nth_error l j.
Proof.
  intros Hne Hj. unfold asignar.
  destruct (Nat.ltb_spec i (List.length l)).
  - apply update_nth_other. exact Hne.
  - apply nth_error_app1. exact Hj.
Qed.

Lemma asignar_hole (i j : nat) (x : Entrada) (l : Arreglo) :
  List.length l <= j -> j < i ->
  nth_error (asignar i x l) j = Some None.
Proof.
  intros Hlo Hhi. unfold asignar.
  destruct (Nat.ltb_spec i (List.length l)); [lia|].
  rewrite nth_error_app2 by lia.
  rewrite nth_error_app1 by (rewrite repeat_length; lia).
  apply nth_error_repeat. lia.
Qed.

Lemma asignar_asignado (i : nat) (x : Entrada) (l : Arreglo) :
  Arreglos.asignado i x l (asignar i x l).
Proof.
  split; [apply asignar_length|]. split; [apply asignar_same|].
  split; [intros; now apply asignar_other | intros; now apply asignar_hole].
Qed.

Lemma describir_frame (select : Dom.path) (sel : Dom.Selector) (texto : string)
      (ed : Editor.t) :
  let r := Handlers.describir select sel texto ed in
  duras_st (fst r) = duras_st ed
  /\ blandas_st (fst r) = blandas_st ed
  /\ preguntas (fst r) = preguntas ed
  /\ (forall e, snd r = Throw e -> e = TypeError /\ fst r = ed).
Proof.
  unfold Handlers.describir.
  destruct (Handlers.closest _ _ _) as [b|]; cbn.
  - destruct (Handlers.querySelector_at _ _ _) as [q|]; cbn;
      repeat split; try discriminate; congruence.
  - repeat split; congruence.
Qed.

End AsignarFacts.

(** A branch that leaves the state as it found it. *)
Ltac sin_cambio :=
  cbn [fst snd Editor.con_pagina Editor.duras_st Editor.blandas_st
           Editor.preguntas];
  split; [first [reflexivity | assumption]|];
  split; [first [reflexivity | assumption]|];
  split;
  [ let e := fresh "e" in
    let He := fresh "He" in
    intros e He;
    first [discriminate He
          | injection He as <-; split; first [reflexivity | assumption]]
  | split;
    [ left; first [reflexivity | assumption]
    | let Hs := fresh "Hs" in
      let Hv := fresh "Hv" in
      let Hne := fresh "Hne" in
      let Hnorm := fresh "Hnorm" in
      intros ? ? Hs Hv Hne Hnorm;
      first [discriminate Hs
            | discriminate Hnorm
            | injection Hs as <-; congruence] ] ].

(** X17. The type handlers [actualizarParametros] and [actualizar] write
    to the state of their own class only, ask nothing, and fail only with
    a [TypeError], leaving the state of their class as it was. When the
    state does change, the handler has returned, the type is the value of
    the first select with the index, it is not empty and it is in the
    catalogue, and the state was assigned at [index] as an array is: the
    entry at [index] names that type, switched on (with no parameters for a
    hard constraint, with the default weight the catalogue gives the type
    for a soft one), the other entries are kept, and an [index] beyond the
    end makes the array grow to [index + 1] with holes in between. And
    whenever the select holds a type and the handler returns, the state was
    assigned in this way. *)
Theorem manejadores_estado
        (Number_toString : JsNum -> string) (index : nat) (ed : Editor.t) :
  let pd := Handlers.actualizarParametros index ed in
  let pb := Handlers.actualizar Number_toString index ed in
  let sd := Dom.document_querySelector
              [Dom.Class "restriccion-tipo-select";
               Dom.AttrEq "data-index" (Markup.dec index)] (Editor.pagina ed) in
  let sb := Dom.document_querySelector
              [Dom.Class "restriccion-blanda-tipo-select";
               Dom.AttrEq "data-index" (Markup.dec index)] (Editor.pagina ed) in
  (Editor.blandas_st (fst pd) = Editor.blandas_st ed
   /\ Editor.preguntas (fst pd) = Editor.preguntas ed
   /\ (forall e, snd pd = Throw e ->
                 e = TypeError /\ Editor.duras_st (fst pd) = Editor.duras_st ed)
   /\ (Editor.duras_st (fst pd) = Editor.duras_st ed
       \/ exists select tipo def,
            sd = Some select
            /\ Dom.value_at select (Editor.pagina ed) = Some tipo
            /\ snd pd = Normal tt
            /\ tipo <> ""
            /\ Catalogo.buscar tipo Catalogo.duras = Some def
            /\ Arreglos.asignado index (Editor.EntradaDura tipo true [])
                                 (Editor.duras_st ed) (Editor.duras_st (fst pd)))
   /\ (forall select tipo,
          sd = Some select ->
          Dom.value_at select (Editor.pagina ed) = Some tipo ->
          tipo <> "" ->
          snd pd = Normal tt ->
          exists def,
            Catalogo.buscar tipo Catalogo.duras = Some def
            /\ Arreglos.asignado index (Editor.EntradaDura tipo true [])
                                 (Editor.duras_st ed) (Editor.duras_st (fst pd))))
  /\ (Editor.duras_st (fst pb) = Editor.duras_st ed
      /\ Editor.preguntas (fst pb) = Editor.preguntas ed
      /\ (forall e, snd pb = Throw e ->
                    e = TypeError
                    /\ Editor.blandas_st (fst pb) = Editor.blandas_st ed)
      /\ (Editor.blandas_st (fst pb) = Editor.blandas_st ed
          \/ exists select tipo def,
               sb = Some select
               /\ Dom.value_at select (Editor.pagina ed) = Some tipo
               /\ snd pb = Normal tt
               /\ tipo <> ""
               /\ Catalogo.buscar tipo Catalogo.blandas = Some def
               /\ Arreglos.asignado index
                    (Editor.EntradaBlanda tipo true (Catalogo.peso_default def))
                    (Editor.blandas_st ed) (Editor.blandas_st (fst pb)))
      /\ (forall select tipo,
             sb = Some select ->
             Dom.value_at select (Editor.pagina ed) = Some tipo ->
             tipo <> "" ->
             snd pb = Normal tt ->
             exists def,
               Catalogo.buscar tipo Catalogo.blandas = Some def
               /\ Arreglos.asignado index
                    (Editor.EntradaBlanda tipo true (Catalogo.peso_default def))
                    (Editor.blandas_st ed) (Editor.blandas_st (fst pb)))).
Proof.
  cbv zeta. split.
  - unfold Handlers.actualizarParametros.
    destruct (Dom.document_querySelector _ (Editor.pagina ed)) as [select|];
      [|sin_cambio].
    destruct (Dom.value_at select (Editor.pagina ed)) as [tipo|] eqn:Hval;
      [|sin_cambio].
    destruct tipo as [|c0 t0]; [sin_cambio|].
    set (tipo := String c0 t0) in *.
    destruct (Catalogo.buscar tipo Catalogo.duras) as [def|] eqn:Hdef;
      [|sin_cambio].
    pose proof (AsignarFacts.describir_frame select
                  [Dom.Class "restriccion-descripcion"]
                  (Catalogo.descripcion def) ed) as Hfr.
    cbv zeta in Hfr.
    destruct (Handlers.describir select _ (Catalogo.descripcion def) ed)
      as [ed1 [[]|e1]]; cbn [fst snd] in Hfr;
      destruct Hfr as (Hd & Hb & Hp & Hthrow).
    + destruct (Dom.document_querySelector _ (Editor.pagina ed1)) as [pc|];
        [|sin_cambio].
      cbn [fst snd Editor.con_estado Editor.con_pagina Editor.duras_st
               Editor.blandas_st Editor.preguntas].
      split; [exact Hb|]. split; [exact Hp|]. split; [discriminate|].
      rewrite Hd. split.
      * right. exists select, tipo, def. split; [reflexivity|].
        split; [exact Hval|]. split; [reflexivity|].
        split; [discriminate|]. split; [exact Hdef|].
        apply AsignarFacts.asignar_asignado.
      * intros s0 t1 Hs Hv Hne Hnorm. injection Hs as <-.
        rewrite Hval in Hv. injection Hv as <-.
        exists def. split; [exact Hdef|]. apply AsignarFacts.asignar_asignado.
    + destruct (Hthrow e1 eq_refl) as (-> & _). sin_cambio.
  - unfold Handlers.actualizar.
    destruct (Dom.document_querySelector _ (Editor.pagina ed)) as [select|];
      [|sin_cambio].
    destruct (Dom.value_at select (Editor.pagina ed)) as [tipo|] eqn:Hval;
      [|sin_cambio].
    destruct tipo as [|c0 t0]; [sin_cambio|].
    set (tipo := String c0 t0) in *.
    destruct (Catalogo.buscar tipo Catalogo.blandas) as [def|] eqn:Hdef;
      [|sin_cambio].
    pose proof (AsignarFacts.describir_frame select
                  [Dom.Class "restriccion-blanda-descripcion"]
                  (Catalogo.b_descripcion def) ed) as Hfr.
    cbv zeta in Hfr.
    destruct (Handlers.describir select _ (Catalogo.b_descripcion def) ed)
      as [ed1 [[]|e1]]; cbn [fst snd] in Hfr;
      destruct Hfr as (Hd & Hb & Hp & Hthrow).
    + cbv zeta.
      destruct (Dom.document_querySelector (Sel.peso_de index) (Editor.pagina ed1))
        as [pn|]; [|sin_cambio].
      destruct (Dom.document_querySelector (Sel.peso_range_de index)
                                           (Editor.pagina ed1)) as [pr|];
        [|sin_cambio].
      cbn [fst snd Editor.con_estado Editor.con_pagina Editor.duras_st
               Editor.blandas_st Editor.preguntas].
      split; [exact Hd|]. split; [exact Hp|]. split; [discriminate|].
      rewrite Hb. split.
      * right. exists select, tipo, def. split; [reflexivity|].
        split; [exact Hval|]. split; [reflexivity|].
        split; [discriminate|]. split; [exact Hdef|].
        apply AsignarFacts.asignar_asignado.
      * intros s0 t1 Hs Hv Hne Hnorm. injection Hs as <-.
        rewrite Hval in Hv. injection Hv as <-.
        exists def. split; [exact Hdef|]. apply AsignarFacts.asignar_asignado.
    + destruct (Hthrow e1 eq_refl) as (-> & _). sin_cambio.
Qed.
